(** * cloudplaya: the Cloud Player client ([cloudplaya/client.py])

    A shallow embedding of [Client] and of the handful of Python
    primitives it relies on, followed by the properties of the query
    encoding, the payload navigation, the request dispatcher, the
    paginated search and the login flow. *)

From Stdlib Require Import ZArith Ascii String.
From stdpp Require Import gmap strings list fin_maps pretty.

Open Scope string_scope.
Open Scope list_scope.

Set Warnings "-register-all".

(** ** Python values *)

(** The values the client handles: request parameters, decoded JSON
    bodies and the tuples that make up a criterion.  A [dict] with string
    keys is a [gmap]. *)
Inductive pyval :=
  | VNone
  | VBool (b : bool)
  | VInt (z : Z)
  | VStr (s : string)
  | VTuple (l : list pyval)
  | VList (l : list pyval)
  | VDict (m : gmap string pyval).

(** The exceptions that can reach a caller of the client. *)
Inductive exn :=
  | RequestError (msg code : pyval)
  | TypeError (msg : string)
  | KeyError (key : pyval)
  | IndexError (msg : string)
  | URLError (reason : string)
  | FormNotFoundError (msg : string)
  | ConnectionError (msg : string)
  | UnicodeDecodeError (encoding : string)
  | ValueError (msg : string).

(** What running a piece of code gives: a value, an exception, or no
    answer within the fuel the model was given (only the [while 1] loop
    of [_search_library] consumes fuel). *)
Inductive outcome (A : Type) :=
  | Returned (a : A)
  | Raised (e : exn)
  | OutOfFuel.
Arguments Returned {A} a.
Arguments Raised {A} e.
Arguments OutOfFuel {A}.

Definition obind {A B} (x : outcome A) (f : A -> outcome B) : outcome B :=
  match x with
  | Returned a => f a
  | Raised e => Raised e
  | OutOfFuel => OutOfFuel
  end.

Notation "x ←! e1 ; e2" := (obind e1 (fun x => e2))
  (at level 100, e1 at next level, e2 at level 200, right associativity,
   format "x  ←!  e1 ;  '/' e2").

Module Py.

(** [bool(v)]. *)
Definition truthy (v : pyval) : bool :=
  match v with
  | VNone => false
  | VBool b => b
  | VInt z => negb (z =? 0)%Z
  | VStr s => negb (String.length s =? 0)%nat
  | VTuple l | VList l => negb (length l =? 0)%nat
  | VDict m => negb (size m =? 0)%nat
  end.

(** [len(v)]. *)
Definition len (v : pyval) : outcome nat :=
  match v with
  | VStr s => Returned (String.length s)
  | VTuple l | VList l => Returned (length l)
  | VDict m => Returned (size m)
  | VNone => Raised (TypeError "object of type 'NoneType' has no len()")
  | VBool _ => Raised (TypeError "object of type 'bool' has no len()")
  | VInt _ => Raised (TypeError "object of type 'int' has no len()")
  end.

(** [v[i]] for a literal non-negative integer [i]. *)
Definition index (v : pyval) (i : nat) : outcome pyval :=
  match v with
  | VTuple l =>
      match l !! i with
      | Some x => Returned x
      | None => Raised (IndexError "tuple index out of range")
      end
  | VList l =>
      match l !! i with
      | Some x => Returned x
      | None => Raised (IndexError "list index out of range")
      end
  | VStr s =>
      match String.get i s with
      | Some c => Returned (VStr (String c EmptyString))
      | None => Raised (IndexError "string index out of range")
      end
  | VDict _ => Raised (KeyError (VInt (Z.of_nat i)))
  | VNone => Raised (TypeError "'NoneType' object has no attribute '__getitem__'")
  | VBool _ => Raised (TypeError "'bool' object has no attribute '__getitem__'")
  | VInt _ => Raised (TypeError "'int' object has no attribute '__getitem__'")
  end.

(** Is the string [k] a substring of [s]?  ([k in s] on two strings.) *)
Fixpoint substring_of (k s : string) : bool :=
  String.prefix k s ||
  match s with
  | EmptyString => false
  | String _ s' => substring_of k s'
  end.

(** [k in v] for a string [k]. *)
Definition contains (v : pyval) (k : string) : outcome bool :=
  match v with
  | VDict m => Returned (bool_decide (is_Some (m !! k)))
  | VList l | VTuple l =>
      Returned (existsb (fun x => match x with
                                  | VStr s => String.eqb s k
                                  | _ => false
                                  end) l)
  | VStr s => Returned (substring_of k s)
  | VNone => Raised (TypeError "argument of type 'NoneType' is not iterable")
  | VBool _ => Raised (TypeError "argument of type 'bool' is not iterable")
  | VInt _ => Raised (TypeError "argument of type 'int' is not iterable")
  end.

(** [v[k]] for a string [k]. *)
Definition getitem (v : pyval) (k : string) : outcome pyval :=
  match v with
  | VDict m =>
      match m !! k with
      | Some x => Returned x
      | None => Raised (KeyError (VStr k))
      end
  | VList _ => Raised (TypeError "list indices must be integers, not str")
  | VTuple _ => Raised (TypeError "tuple indices must be integers, not str")
  | VStr _ => Raised (TypeError "string indices must be integers, not str")
  | VNone => Raised (TypeError "'NoneType' object has no attribute '__getitem__'")
  | VBool _ => Raised (TypeError "'bool' object has no attribute '__getitem__'")
  | VInt _ => Raised (TypeError "'int' object has no attribute '__getitem__'")
  end.

(** [for x in v]: the elements the loop visits.  A dict is visited
    key by key, in the (arbitrary) order of the map. *)
Definition iterate (v : pyval) : outcome (list pyval) :=
  match v with
  | VList l | VTuple l => Returned l
  | VStr s => Returned ((fun c => VStr (String c EmptyString)) <$> list_ascii_of_string s)
  | VDict m => Returned ((fun kv => VStr kv.1) <$> map_to_list m)
  | VNone => Raised (TypeError "'NoneType' object is not iterable")
  | VBool _ => Raised (TypeError "'bool' object is not iterable")
  | VInt _ => Raised (TypeError "'int' object is not iterable")
  end.

(** [d.update(e)]: the entries of [e] win. *)
Definition update (d e : gmap string pyval) : gmap string pyval := e ∪ d.

End Py.

(** ** The criteria encoders *)

(** ['%s.member.%d' % (key_prefix, i)]. *)
Definition member_key (key_prefix : string) (i : nat) : string :=
  key_prefix +:+ ".member." +:+ pretty i.

(** The body of the loop of [_build_search_criteria], from position [i]
    of the enumeration on. *)
Fixpoint build_search_loop (key_prefix : string) (i : nat)
    (search : list pyval) (data : gmap string pyval)
    : outcome (gmap string pyval) :=
  match search with
  | [] => Returned data
  | item :: rest =>
      let key := member_key key_prefix (i + 1) in
      name ←! Py.index item 0;
      let data := <[key +:+ ".attributeName" := name]> data in
      cmp ←! Py.index item 1;
      let data := <[key +:+ ".comparisonType" := cmp]> data in
      n ←! Py.len item;
      value ←! (if (n =? 2)%nat then Returned (VStr "") else Py.index item 2);
      let data := <[key +:+ ".attributeValue" := value]> data in
      build_search_loop key_prefix (S i) rest data
  end.

Definition _build_search_criteria (search : list pyval) (key_prefix : string)
    : outcome (gmap string pyval) :=
  build_search_loop key_prefix 0 search ∅.

Definition default_key_prefix : string := "searchCriteria".

Fixpoint build_columns_loop (i : nat) (columns : list pyval)
    (data : gmap string pyval) : gmap string pyval :=
  match columns with
  | [] => data
  | item :: rest =>
      build_columns_loop (S i) rest
        (<["selectedColumns.member." +:+ pretty (i + 1) := item]> data)
  end.

Definition _build_selected_columns (columns : list pyval) : gmap string pyval :=
  build_columns_loop 0 columns ∅.

Fixpoint build_sort_loop (i : nat) (sort : list pyval)
    (data : gmap string pyval) : outcome (gmap string pyval) :=
  match sort with
  | [] => Returned data
  | item :: rest =>
      let key := "sortCriteriaList.member." +:+ pretty (i + 1) in
      col ←! Py.index item 0;
      let data := <[key +:+ ".sortColumn" := col]> data in
      dir ←! Py.index item 1;
      let data := <[key +:+ ".sortType" := dir]> data in
      build_sort_loop (S i) rest data
  end.

Definition _build_sort_criteria (sort : list pyval) : outcome (gmap string pyval) :=
  build_sort_loop 0 sort ∅.

(** ** Request identifiers *)

Definition hex_digit (d : Z) : ascii :=
  match d with
  | 0 => "0" | 1 => "1" | 2 => "2" | 3 => "3" | 4 => "4" | 5 => "5"
  | 6 => "6" | 7 => "7" | 8 => "8" | 9 => "9" | 10 => "a" | 11 => "b"
  | 12 => "c" | 13 => "d" | 14 => "e" | _ => "f"
  end%Z%char.

Fixpoint hex_go (fuel : nat) (n : Z) (acc : string) : string :=
  match fuel with
  | O => acc
  | S fuel' =>
      if (n <? 16)%Z then String (hex_digit n) acc
      else hex_go fuel' (n / 16)%Z (String (hex_digit (n mod 16)%Z) acc)
  end.

(** The hexadecimal digits of a non-negative integer, most significant
    first, without leading zeros. *)
Definition hex_digits (n : Z) : string :=
  hex_go (S (Z.to_nat (Z.log2 n))) n "".

(** Python's [hex] on a plain [int]. *)
Definition hex (n : Z) : string :=
  if (n <? 0)%Z then "-0x" +:+ hex_digits (- n) else "0x" +:+ hex_digits n.

(** The slice [s[n:]]. *)
Fixpoint str_from (n : nat) (s : string) : string :=
  match n, s with
  | O, _ => s
  | S _, EmptyString => EmptyString
  | S n', String _ s' => str_from n' s'
  end.

(** [get_rand], as a function of the integer
    [int(math.floor((1 + random.random()) * 65536))] it renders. *)
Definition get_rand (n : Z) : string := str_from 3 (hex n).

(** ['%s%s-%s-dmcp-%s-%s%s%s' % (s1, ..., s7)]. *)
Definition format_request_id (s1 s2 s3 s4 s5 s6 s7 : string) : string :=
  s1 +:+ s2 +:+ "-" +:+ s3 +:+ "-dmcp-" +:+ s4 +:+ "-" +:+ s5 +:+ s6 +:+ s7.

(** [_make_request_id] on the seven integers drawn, in the order in which
    the argument tuple is evaluated. *)
Definition make_request_id_of (n1 n2 n3 n4 n5 n6 n7 : Z) : string :=
  format_request_id (get_rand n1) (get_rand n2) (get_rand n3) (get_rand n4)
    (get_rand n5) (get_rand n6) (get_rand n7).

(** ** Payload navigation *)

Definition dquote : string := String (ascii_of_nat 34) EmptyString.

(** Calling [RequestError] on the given arguments:
    [__init__(self, msg, code)] has no default for [code]. *)
Definition RequestError_new (args : list pyval) : outcome exn :=
  match args with
  | [msg; code] => Returned (RequestError msg code)
  | _ =>
      Raised (TypeError ("__init__() takes exactly 3 arguments ("
                         +:+ pretty (S (length args)) +:+ " given)"))
  end.

(** [raise RequestError(...)] on the given arguments. *)
Definition raise_RequestError {A} (args : list pyval) : outcome A :=
  e ←! RequestError_new args; Raised e.

Fixpoint _get_payload_data (data : pyval) (keys : list string) : outcome pyval :=
  match keys with
  | [] => Returned data
  | key :: rest =>
      present ←! Py.contains data key;
      if negb present then
        raise_RequestError
          [VStr ("Missing key " +:+ dquote +:+ key +:+ dquote +:+ " in response data")]
      else
        data' ←! Py.getitem data key;
        _get_payload_data data' rest
  end.

(** ** The world the client runs in *)

Definition loc := positive.

(** The classes whose constructor [_search_library] is given. *)
Inductive result_cls := Song | Album | Artist.

(** [result_cls(self, item)]: the record classes only hold the item. *)
Record record_obj := Obj { obj_cls : result_cls; obj_item : pyval }.

Record request := Request {
  req_url : string;
  req_data : gmap string pyval;
  req_headers : gmap string pyval
}.

(** What [requests.post] does for one call: it raises, or it gives a
    response with its [status_code] and its decoded [json]. *)
Inductive post_result :=
  | PostRaises (e : exn)
  | Response (status_code : Z) (json : pyval).

Inductive event :=
  | Call (r : request)
  | Yield (o : record_obj).

(** The attributes of a [Client] instance. *)
Record client := Client {
  customer_id : pyval;
  adp_token : pyval;
  device_id : pyval;
  device_type : pyval;
  cookies : pyval;
  authenticated : bool
}.

(** What [.cloudplayarc] holds: nothing, as right after [open(path, 'w')],
    or the JSON text of a mapping.  [json.loads] gives the strings of the
    text back as [unicode] objects; a text and the [str] that is its
    UTF-8 encoding are the same [VStr] here. *)
Inductive file :=
  | EmptyFile
  | JsonFile (config : gmap string pyval).

(** - [store]: the list objects alive (class attributes, default
      arguments, lists of the caller, lists built by [+]);
    - [remote]: the answers the remote service will give, one per call;
    - [trace]: the calls made and the objects yielded so far;
    - [rand_seq], [rand_pos]: the integers the successive evaluations of
      [int(math.floor((1 + random.random()) * 65536))] give, and how
      many have been consumed;
    - [config_file]: the content of [.cloudplayarc], when it exists;
    - [self]: the client. *)
Record world := World {
  store : gmap loc (list pyval);
  remote : list post_result;
  trace : list event;
  rand_seq : nat -> Z;
  rand_pos : nat;
  config_file : option file;
  self : client
}.

Definition set_store (f : gmap loc (list pyval) -> gmap loc (list pyval)) (w : world) : world :=
  World (f (store w)) (remote w) (trace w) (rand_seq w) (rand_pos w) (config_file w) (self w).
Definition set_remote (r : list post_result) (w : world) : world :=
  World (store w) r (trace w) (rand_seq w) (rand_pos w) (config_file w) (self w).
Definition log_event (e : event) (w : world) : world :=
  World (store w) (remote w) (trace w ++ [e]) (rand_seq w) (rand_pos w) (config_file w) (self w).
Definition set_rand_pos (p : nat) (w : world) : world :=
  World (store w) (remote w) (trace w) (rand_seq w) p (config_file w) (self w).
Definition set_config_file (c : option file) (w : world) : world :=
  World (store w) (remote w) (trace w) (rand_seq w) (rand_pos w) c (self w).
Definition set_self (c : client) (w : world) : world :=
  World (store w) (remote w) (trace w) (rand_seq w) (rand_pos w) (config_file w) c.

(** Code that runs in a world. *)
Definition M (A : Type) : Type := world -> outcome A * world.

Definition ret {A} (a : A) : M A := fun w => (Returned a, w).
Definition raise {A} (e : exn) : M A := fun w => (Raised e, w).
Definition lift {A} (x : outcome A) : M A := fun w => (x, w).
Definition bind {A B} (m : M A) (f : A -> M B) : M B :=
  fun w =>
    match m w with
    | (Returned a, w') => f a w'
    | (Raised e, w') => (Raised e, w')
    | (OutOfFuel, w') => (OutOfFuel, w')
    end.

Notation "'let*' x ':=' e1 'in' e2" := (bind e1 (fun x => e2))
  (at level 10, x pattern, e1 at level 100, e2 at level 200,
   format "'let*'  x  ':='  e1  'in'  '/' e2").

(** Reading the list object at [l].  Every reference the client holds
    is to a live object; for a location that holds none the model
    reports a [TypeError], as for an argument that is no list. *)
Definition load (l : loc) : M (list pyval) :=
  fun w =>
    match store w !! l with
    | Some v => (Returned v, w)
    | None => (Raised (TypeError "not a list object"), w)
    end.

(** A new list object. *)
Definition alloc (v : list pyval) : M loc :=
  fun w =>
    let l := fresh (dom (store w)) in
    (Returned l, set_store (insert l v) w).

(** One evaluation of [int(math.floor((1 + random.random()) * 65536))]. *)
Definition draw : M Z :=
  fun w => (Returned (rand_seq w (rand_pos w)), set_rand_pos (S (rand_pos w)) w).

(** [requests.post(url, data=data, headers=headers)]: the call is
    recorded and the remote gives its next answer. *)
Definition post (r : request) : M (Z * pyval) :=
  fun w =>
    let w := log_event (Call r) w in
    match remote w with
    | [] => (Raised (ConnectionError "no answer"), w)
    | PostRaises e :: rest => (Raised e, set_remote rest w)
    | Response st js :: rest => (Returned (st, js), set_remote rest w)
    end.

(** [yield o]. *)
Definition yield (o : record_obj) : M unit :=
  fun w => (Returned tt, log_event (Yield o) w).

(** ** The request dispatcher *)

Definition API_URL : string := "https://www.amazon.com/cirrus/".
Definition USER_AGENT : string :=
  "Mozilla/5.0 (X11; Linux x86_64) AppleWebKit/535.19 "
  +:+ "(KHTML, like Gecko) Chrome/18.0.1025.142 Safari/535.19".
Definition REFERER : string :=
  "https://www.amazon.com/gp/dmusic/mp3/player?ie=UTF8&"
  +:+ "ref_=gno_yam_cldplyr&".
Definition ORIGIN : string := "https://www.amazon.com".
Definition PAGINATE_BY : Z := 50.

Definition _make_request_id : M string :=
  let* n1 := draw in
  let* n2 := draw in
  let* n3 := draw in
  let* n4 := draw in
  let* n5 := draw in
  let* n6 := draw in
  let* n7 := draw in
  ret (make_request_id_of n1 n2 n3 n4 n5 n6 n7).

Definition get_self : M client := fun w => (Returned (self w), w).

Definition _get (operation : string) (data : gmap string pyval) : M pyval :=
  let* rid := _make_request_id in
  let* c := get_self in
  let headers : gmap string pyval :=
    <["x-amzn-RequestId" := VStr rid]>
    (<["x-adp-token" := adp_token c]>
    (<["x-RequestedWith" := VStr "XMLHttpRequest"]>
    (<["User-Agent" := VStr USER_AGENT]>
    (<["Referer" := VStr REFERER]>
    (<["Origin" := VStr ORIGIN]>
    (<["Cookie" := cookies c]>
    (<["Host" := VStr "www.amazon.com"]> ∅))))))) in
  let data :=
    Py.update data
      (<["Operation" := VStr operation]>
      (<["ContentType" := VStr "JSON"]>
      (<["customerInfo.customerId" := customer_id c]>
      (<["customerInfo.deviceId" := device_id c]>
      (<["customerInfo.deviceType" := device_type c]> ∅))))) in
  let* r := post (Request API_URL data headers) in
  let result := r.2 in
  if negb (r.1 =? 200)%Z then
    let* error := lift (Py.getitem result "Error") in
    let* msg := lift (Py.getitem error "Message") in
    let* code := lift (Py.getitem error "Code") in
    lift (raise_RequestError [msg; code])
  else
    ret result.

(** ** The paginated search *)

Fixpoint yield_all (cls : result_cls) (items : list pyval) : M unit :=
  match items with
  | [] => ret tt
  | item :: rest => let* _ := yield (Obj cls item) in yield_all cls rest
  end.

(** One turn of the [while 1] loop of [_search_library], up to the
    reading of the next token. *)
Definition search_page (return_type : string) (cls : result_cls)
    (search columns sort : loc) (next_results_token : pyval) : M pyval :=
  let data : gmap string pyval :=
    <["searchReturnType" := VStr return_type]>
    (<["albumArtUrlsSizeList.member.1" := VStr "MEDIUM"]>
    (<["sortCriteriaList" := VStr ""]>
    (<["maxResults" := VInt PAGINATE_BY]>
    (<["nextResultsToken" := next_results_token]> ∅)))) in
  let* search_l := load search in
  let* enc := lift (_build_search_criteria search_l default_key_prefix) in
  let data := Py.update data enc in
  let* columns_l := load columns in
  let data := Py.update data (_build_selected_columns columns_l) in
  let* sort_l := load sort in
  let* enc := lift (_build_sort_criteria sort_l) in
  let data := Py.update data enc in
  let* result := _get "searchLibrary" data in
  let* search_results :=
    lift (_get_payload_data result ["searchLibraryResponse"; "searchLibraryResult"]) in
  let* items := lift (_get_payload_data search_results ["searchReturnItemList"]) in
  let* items_l := lift (Py.iterate items) in
  let* _ := yield_all cls items_l in
  lift (Py.getitem search_results "nextResultsToken").

Fixpoint search_loop (fuel : nat) (return_type : string) (cls : result_cls)
    (search columns sort : loc) (next_results_token : pyval) : M unit :=
  match fuel with
  | O => lift OutOfFuel
  | S fuel' =>
      let* next_results_token :=
        search_page return_type cls search columns sort next_results_token in
      if negb (Py.truthy next_results_token) then ret tt
      else search_loop fuel' return_type cls search columns sort next_results_token
  end.

(** [_search_library], run until it returns, raises, or has fetched
    [fuel] pages. *)
Definition _search_library (fuel : nat) (return_type result_key : string)
    (cls : result_cls) (search columns sort : loc) : M unit :=
  search_loop fuel return_type cls search columns sort (VStr "").

(** *** The class attributes and the public searches *)

Definition DEFAULT_SONG_SORT : loc := 1%positive.
Definition SONG_SEARCH : loc := 2%positive.
Definition DEFAULT_ARTIST_SORT : loc := 3%positive.
Definition ARTIST_SEARCH : loc := 4%positive.
Definition DEFAULT_ALBUM_SORT : loc := 5%positive.
Definition ALBUM_SEARCH : loc := 6%positive.
(** [Song.COLUMNS], [Album.COLUMNS], [Artist.COLUMNS]: lists of the
    record modules. *)
Definition Song_COLUMNS : loc := 7%positive.
Definition Album_COLUMNS : loc := 8%positive.
Definition Artist_COLUMNS : loc := 9%positive.
(** The list objects made once for the defaults [search=[]] of
    [get_songs], [get_albums] and [get_artists]. *)
Definition get_songs_search_default : loc := 10%positive.
Definition get_albums_search_default : loc := 11%positive.
Definition get_artists_search_default : loc := 12%positive.

Definition crit3 (a b c : string) : pyval := VTuple [VStr a; VStr b; VStr c].
Definition crit2 (a b : string) : pyval := VTuple [VStr a; VStr b].

(** The list objects that exist once the class body has run, for given
    contents of the three column lists. *)
Definition class_store (song_cols album_cols artist_cols : list pyval)
    : gmap loc (list pyval) :=
  <[DEFAULT_SONG_SORT := [crit2 "sortTitle" "ASC"]]>
  (<[SONG_SEARCH := [crit3 "keywords" "LIKE" "";
                     crit3 "assetType" "EQUALS" "AUDIO";
                     crit3 "status" "EQUALS" "AVAILABLE"]]>
  (<[DEFAULT_ARTIST_SORT := [crit2 "sortArtistName" "ASC"]]>
  (<[ARTIST_SEARCH := [crit3 "status" "EQUALS" "AVAILABLE";
                       crit2 "trackStatus" "IS_NULL"]]>
  (<[DEFAULT_ALBUM_SORT := [crit2 "sortAlbumName" "ASC"]]>
  (<[ALBUM_SEARCH := [crit3 "status" "EQUALS" "AVAILABLE"]]>
  (<[Song_COLUMNS := song_cols]>
  (<[Album_COLUMNS := album_cols]>
  (<[Artist_COLUMNS := artist_cols]>
  (<[get_songs_search_default := []]>
  (<[get_albums_search_default := []]>
  (<[get_artists_search_default := []]> ∅))))))))))).

(** [self.SONG_SEARCH + search]: a new list object. *)
Definition list_add (a b : loc) : M loc :=
  let* la := load a in
  let* lb := load b in
  alloc (la ++ lb).

Definition get_songs (fuel : nat) (search sort : loc) : M unit :=
  let* combined := list_add SONG_SEARCH search in
  _search_library fuel "TRACKS" "songs" Song combined Song_COLUMNS sort.

Definition get_albums (fuel : nat) (search sort : loc) : M unit :=
  let* combined := list_add ALBUM_SEARCH search in
  _search_library fuel "ALBUMS" "albums" Album combined Album_COLUMNS sort.

Definition get_artists (fuel : nat) (search sort : loc) : M unit :=
  let* combined := list_add ARTIST_SEARCH search in
  _search_library fuel "ARTISTS" "artists" Artist combined Artist_COLUMNS sort.

(** ** Logging in *)

(** *** String primitives *)

Definition nl : ascii := ascii_of_nat 10.
Definition cr : ascii := ascii_of_nat 13.

(** The characters [str.strip()] removes and [\s] matches. *)
Definition is_space (c : ascii) : bool :=
  let n := nat_of_ascii c in
  ((n =? 32) || (n =? 9) || (n =? 10) || (n =? 13) || (n =? 11) || (n =? 12))%nat.

Fixpoint lstrip (s : string) : string :=
  match s with
  | String c s' => if is_space c then lstrip s' else s
  | EmptyString => EmptyString
  end.

Fixpoint rstrip (s : string) : string :=
  match s with
  | EmptyString => EmptyString
  | String c s' =>
      match rstrip s' with
      | EmptyString => if is_space c then EmptyString else String c EmptyString
      | r => String c r
      end
  end.

Definition strip (s : string) : string := rstrip (lstrip s).

(** [str.splitlines()]: lines end at a line feed, a carriage return, or
    a carriage return followed by a line feed; [cur] holds the
    characters of the current line, last first. *)
Fixpoint splitlines_go (s : string) (cur : list ascii) : list string :=
  match s with
  | EmptyString =>
      match cur with
      | [] => []
      | _ => [string_of_list_ascii (rev cur)]
      end
  | String c s' =>
      if Ascii.eqb c nl then
        string_of_list_ascii (rev cur) :: splitlines_go s' []
      else if Ascii.eqb c cr then
        string_of_list_ascii (rev cur) ::
          match s' with
          | String c' s'' =>
              if Ascii.eqb c' nl then splitlines_go s'' [] else splitlines_go s' []
          | EmptyString => splitlines_go s' []
          end
      else splitlines_go s' (c :: cur)
  end.

Definition splitlines (s : string) : list string := splitlines_go s [].

(** ['; '.join(parts)]. *)
Fixpoint join (sep : string) (parts : list string) : string :=
  match parts with
  | [] => ""
  | [p] => p
  | p :: rest => p +:+ sep +:+ join sep rest
  end.

(** *** The patterns *)

(** The constructs the four patterns use: a character class, a greedy
    repetition of a class, and a capturing greedy repetition of a
    class. *)
Inductive re_atom :=
  | Chr (p : ascii -> bool)
  | Star (p : ascii -> bool)
  | Group (p : ascii -> bool).

Definition lit (c : ascii) : re_atom := Chr (Ascii.eqb c).
Definition lits (s : string) : list re_atom := lit <$> list_ascii_of_string s.
(** [.]: any character but a line feed. *)
Definition dot (c : ascii) : bool := negb (Ascii.eqb c nl).
(** The class made of the two quote characters. *)
Definition quote (c : ascii) : bool :=
  Ascii.eqb c (ascii_of_nat 39) || Ascii.eqb c (ascii_of_nat 34).

(** [regex.match(line)]: backtracking, anchored at the start, greedy
    repetitions; the answer is [m.group(1)] when there is a match. *)
Fixpoint re_match_from (r : list re_atom) (s : string) (cap : string)
    : option string :=
  match r with
  | [] => Some cap
  | Chr p :: r' =>
      match s with
      | String c s' => if p c then re_match_from r' s' cap else None
      | EmptyString => None
      end
  | Star p :: r' =>
      (fix star (s : string) : option string :=
         match s with
         | String c s' =>
             if p c then
               match star s' with
               | Some m => Some m
               | None => re_match_from r' s cap
               end
             else re_match_from r' s cap
         | EmptyString => re_match_from r' s cap
         end) s
  | Group p :: r' =>
      (fix star (s : string) (seen : list ascii) : option string :=
         match s with
         | String c s' =>
             if p c then
               match star s' (c :: seen) with
               | Some m => Some m
               | None => re_match_from r' s (string_of_list_ascii (rev seen))
               end
             else re_match_from r' s (string_of_list_ascii (rev seen))
         | EmptyString => re_match_from r' s (string_of_list_ascii (rev seen))
         end) s []
  end.

Definition re_match (r : list re_atom) (line : string) : option string :=
  re_match_from r line "".

Definition assignment_tail : list re_atom :=
  [Chr quote; Group dot; Chr quote; lit ";"].

Definition CUSTOMER_ID_RE : list re_atom :=
  lits "amznMusic" ++ [Chr dot] ++ lits "customerId"
  ++ [Star is_space; lit "="; Star is_space] ++ assignment_tail.
Definition ADP_TOKEN_RE : list re_atom :=
  lits "amznMusic" ++ [Chr dot] ++ lits "tid"
  ++ [Star is_space; lit "="; Chr is_space] ++ assignment_tail.
Definition DEVICE_ID_RE : list re_atom :=
  lits "amznMusic" ++ [Chr dot] ++ lits "did"
  ++ [Star is_space; lit "="; Star is_space] ++ assignment_tail.
Definition DEVICE_TYPE_RE : list re_atom :=
  lits "amznMusic" ++ [Chr dot] ++ lits "dtid"
  ++ [Star is_space; lit "="; Star is_space] ++ assignment_tail.

Definition vars_map : list (string * list re_atom) :=
  [("customer_id", CUSTOMER_ID_RE);
   ("adp_token", ADP_TOKEN_RE);
   ("device_id", DEVICE_ID_RE);
   ("device_type", DEVICE_TYPE_RE)].

(** *** The scan of the page *)

(** The inner [for key, regex in vars_map] loop on one line. *)
Fixpoint match_vars (vm : list (string * list re_atom)) (line : string)
    (found : nat) (auth_vars : gmap string pyval) : nat * gmap string pyval :=
  match vm with
  | [] => (found, auth_vars)
  | (key, regex) :: vm' =>
      match re_match regex line with
      | Some g => (S found, <[key := VStr g]> auth_vars)
      | None => match_vars vm' line found auth_vars
      end
  end.

(** The [for line in content.splitlines()] loop. *)
Fixpoint scan_lines (lines : list string) (found : nat)
    (auth_vars : gmap string pyval) : nat * gmap string pyval :=
  match lines with
  | [] => (found, auth_vars)
  | line :: rest =>
      let line := strip line in
      if String.prefix "amznMusic." line then
        let '(found, auth_vars) := match_vars vars_map line found auth_vars in
        if (found =? size auth_vars)%nat then (found, auth_vars)
        else scan_lines rest found auth_vars
      else scan_lines rest found auth_vars
  end.

Definition initial_auth_vars : gmap string pyval :=
  <["customer_id" := VNone]>
  (<["adp_token" := VNone]>
  (<["device_id" := VNone]>
  (<["device_type" := VNone]> ∅))).

(** *** The browser *)

(** What the emulated browser meets during one login (a form named
    [signIn], when the page has one, has the three controls that are
    set):
    - [open_page]: [browser.open(PLAYER_URL)] raises, or reaches a page
      with forms of the given names;
    - [submit_page]: submitting the form and reading the response
      raises, or gives the body of the page;
    - [cookiejar]: the name and the value of the cookies held when the
      scan is over. *)
Record browser := Browser {
  open_page : exn + list string;
  submit_page : exn + string;
  cookiejar : list (string * string)
}.

Definition of_sum {A} (x : exn + A) : M A :=
  match x with
  | inl e => raise e
  | inr a => ret a
  end.

(** [browser.select_form(name=...)]. *)
Definition select_form (forms : list string) (name : string) : M unit :=
  if existsb (String.eqb name) forms then ret tt
  else raise (FormNotFoundError ("no form matching name '" +:+ name +:+ "'")).

(** *** Serializing to JSON *)

(** A continuation byte of UTF-8: [10xxxxxx]. *)
Definition continuation (c : ascii) : bool :=
  (N.land (N_of_ascii c) 192 =? 128)%N.

(** [s.decode('utf-8')] succeeds: every byte below 128 stands for
    itself; [C2..DF] starts a sequence of two bytes, [E0..EF] of three
    and [F0..F4] of four, the others being continuation bytes; [C0],
    [C1], [F5..FF] and a stray continuation byte start nothing; the
    overlong forms ([E0] followed by less than [A0], [F0] by less than
    [90]) and what lies beyond U+10FFFF ([F4] followed by more than
    [8F]) are refused.  Python 2 accepts encoded surrogates. *)
Fixpoint utf8_valid (s : string) : bool :=
  match s with
  | EmptyString => true
  | String c0 s1 =>
      let b0 := N_of_ascii c0 in
      if (b0 <? 128)%N then utf8_valid s1
      else if (b0 <? 194)%N then false
      else if (b0 <? 224)%N then
        match s1 with
        | String c1 s2 => continuation c1 && utf8_valid s2
        | _ => false
        end
      else if (b0 <? 240)%N then
        match s1 with
        | String c1 (String c2 s3) =>
            continuation c1 && continuation c2
            && negb ((b0 =? 224)%N && (N_of_ascii c1 <? 160)%N)
            && utf8_valid s3
        | _ => false
        end
      else if (b0 <? 245)%N then
        match s1 with
        | String c1 (String c2 (String c3 s4)) =>
            continuation c1 && continuation c2 && continuation c3
            && negb ((b0 =? 240)%N && (N_of_ascii c1 <? 144)%N)
            && negb ((b0 =? 244)%N && (143 <? N_of_ascii c1)%N)
            && utf8_valid s4
        | _ => false
        end
      else false
  end.

(** [json.dumps(v)] returns: every [str] in [v], keys included, is
    decoded as UTF-8 before it is escaped, and a [str] that cannot be
    decoded makes [json.dumps] raise [UnicodeDecodeError]; the other
    values are always serialized. *)
Fixpoint json_serializable (v : pyval) : bool :=
  match v with
  | VStr s => utf8_valid s
  | VTuple l | VList l => forallb json_serializable l
  | VDict m =>
      map_fold (fun k v acc => utf8_valid k && json_serializable v && acc) true m
  | _ => true
  end.

(** *** The configuration file *)

(** [f = open(config_path, 'w')] empties the file (or creates it empty);
    then [json.dumps(auth_vars)] is evaluated, and only its result is
    written.  (The file system itself is taken not to fail.) *)
Definition write_config (auth_vars : gmap string pyval) : M unit :=
  fun w =>
    let w := set_config_file (Some EmptyFile) w in
    if json_serializable (VDict auth_vars) then
      (Returned tt, set_config_file (Some (JsonFile auth_vars)) w)
    else (Raised (UnicodeDecodeError "utf8"), w).

(** An assignment to attributes of [self]. *)
Definition set_attr (f : client -> client) : M unit :=
  fun w => (Returned tt, set_self (f (self w)) w).

(** [_load_config]: the attributes are assigned one after the other,
    each as soon as its key has been read. *)
Definition _load_config : M unit :=
  fun w =>
    match config_file w with
    | None =>
        set_attr (fun c => Client (customer_id c) (adp_token c) (device_id c)
                             (device_type c) (cookies c) false) w
    | Some EmptyFile => (Raised (ValueError "No JSON object could be decoded"), w)
    | Some (JsonFile config) =>
        (let* v := lift (Py.getitem (VDict config) "customer_id") in
         let* _ := set_attr (fun c => Client v (adp_token c) (device_id c)
                                        (device_type c) (cookies c) (authenticated c)) in
         let* v := lift (Py.getitem (VDict config) "adp_token") in
         let* _ := set_attr (fun c => Client (customer_id c) v (device_id c)
                                        (device_type c) (cookies c) (authenticated c)) in
         let* v := lift (Py.getitem (VDict config) "device_id") in
         let* _ := set_attr (fun c => Client (customer_id c) (adp_token c) v
                                        (device_type c) (cookies c) (authenticated c)) in
         let* v := lift (Py.getitem (VDict config) "device_type") in
         let* _ := set_attr (fun c => Client (customer_id c) (adp_token c) (device_id c)
                                        v (cookies c) (authenticated c)) in
         let* v := lift (Py.getitem (VDict config) "cookies") in
         let* _ := set_attr (fun c => Client (customer_id c) (adp_token c) (device_id c)
                                        (device_type c) v (authenticated c)) in
         set_attr (fun c => Client (customer_id c) (adp_token c) (device_id c)
                              (device_type c) (cookies c) true)) w
    end.

Definition authenticate (username password : string) (b : browser) : M bool :=
  let* forms := of_sum (open_page b) in
  let* _ := select_form forms "signIn" in
  let* content := of_sum (submit_page b) in
  let '(found, auth_vars) := scan_lines (splitlines content) 0 initial_auth_vars in
  if negb (found =? size auth_vars)%nat then ret false
  else
    let auth_vars :=
      <["cookies" :=
          VStr (join "; " ((fun c => c.1 +:+ "=" +:+ c.2) <$> cookiejar b))]> auth_vars in
    let* _ := write_config auth_vars in
    let* _ := _load_config in
    ret true.

(** * Vocabulary of the properties *)

Fixpoint no_dot (s : string) : Prop :=
  match s with
  | EmptyString => True
  | String c s' => c <> "."%char /\ no_dot s'
  end.

(** The three fields of a criterion: a tuple of two fields has the empty
    string for value. *)
Definition criterion_fields (item : pyval) : option (pyval * pyval * pyval) :=
  match item with
  | VTuple [name; cmp] => Some (name, cmp, VStr "")
  | VTuple (name :: cmp :: value :: _) => Some (name, cmp, value)
  | _ => None
  end.

Definition search_fields : list string :=
  ["attributeName"; "comparisonType"; "attributeValue"].

(** No key of an index above [i] is bound in [d]. *)
Definition fresh_above (p : string) (fields : list string) (i : nat)
    (d : gmap string pyval) : Prop :=
  forall j f, i < j -> f ∈ fields -> d !! (member_key p j +:+ String "." f) = None.

(** The two fields of a sort criterion. *)
Definition sort_criterion_fields (item : pyval) : option (pyval * pyval) :=
  match item with
  | VTuple (column :: direction :: _) => Some (column, direction)
  | _ => None
  end.

Definition sort_fields : list string := ["sortColumn"; "sortType"].

(** The integers [int(math.floor((1 + r) * 65536))] ranges over for
    [r] in [[0, 1)]. *)
Definition drawn (n : Z) : Prop := (65536 <= n < 131072)%Z.

(** The four hexadecimal digits of [m], zero-padded. *)
Definition low4 (m : Z) : string :=
  String (hex_digit (m / 4096 mod 16)%Z)
    (String (hex_digit (m / 256 mod 16)%Z)
       (String (hex_digit (m / 16 mod 16)%Z)
          (String (hex_digit (m mod 16)%Z) EmptyString))).

Definition is_lower_hex (c : ascii) : bool :=
  let n := nat_of_ascii c in
  ((48 <=? n) && (n <=? 57) || (97 <=? n) && (n <=? 102))%nat.

Fixpoint all_chars (p : ascii -> bool) (s : string) : bool :=
  match s with
  | EmptyString => true
  | String c s' => p c && all_chars p s'
  end.

(** The number a string of hexadecimal digits writes, read digit by
    digit from the character codes. *)
Definition hex_digit_value (c : ascii) : Z :=
  let n := Z.of_nat (nat_of_ascii c) in
  if (n <=? 57)%Z then (n - 48)%Z else (n - 87)%Z.

Fixpoint hex_value_go (s : string) (acc : Z) : Z :=
  match s with
  | EmptyString => acc
  | String c s' => hex_value_go s' (16 * acc + hex_digit_value c)%Z
  end.

Definition hex_value (s : string) : Z := hex_value_go s 0.

(** [s] is the segment of the draw [n]: four lowercase hexadecimal
    digits that write [n] modulo 65536. *)
Definition segment_of (n : Z) (s : string) : Prop :=
  String.length s = 4 /\ all_chars is_lower_hex s = true /\
  hex_value s = (n mod 65536)%Z.

(** The rendering C6 describes: [hex(n)] without its [0x] prefix. *)
Definition hex_without_prefix (n : Z) : string := str_from 2 (hex n).

(** A client that has loaded no configuration. *)
Definition blank_client : client := Client VNone VNone VNone VNone VNone false.

(** A world with the given list objects, remote answers and random
    integers, before anything has run. *)
Definition initial_world (st : gmap loc (list pyval)) (answers : list post_result)
    (rs : nat -> Z) : world :=
  World st answers [] rs 0 None blank_client.

(** The identifier C6 describes for seven drawn integers. *)
Definition request_id_plain_hex (n1 n2 n3 n4 n5 n6 n7 : Z) : string :=
  format_request_id (hex_without_prefix n1) (hex_without_prefix n2)
    (hex_without_prefix n3) (hex_without_prefix n4) (hex_without_prefix n5)
    (hex_without_prefix n6) (hex_without_prefix n7).

(** The [k]-th integer [_make_request_id] draws in [w]. *)
Definition nth_draw (w : world) (k : nat) : Z := rand_seq w (rand_pos w + k).

(** A rejection as the remote words it. *)
Definition error_body (msg code : string) : pyval :=
  VDict {["Error" := VDict (<["Message" := VStr msg]> {["Code" := VStr code]})]}.

(** The events of yielding the records made from [items]. *)
Definition yields (cls : result_cls) (items : list pyval) : list event :=
  (fun item => Yield (Obj cls item)) <$> items.

(** The records a trace yields, and the calls it makes, in order. *)
Definition yielded (tr : list event) : list record_obj :=
  omap (fun e => match e with Yield o => Some o | Call _ => None end) tr.
Definition calls (tr : list event) : list request :=
  omap (fun e => match e with Call r => Some r | Yield _ => None end) tr.

(** [body] is a decoded [searchLibrary] answer whose result envelope is
    [env] and whose item list is [items]. *)
Definition is_page (body : pyval) (env : gmap string pyval) (items : list pyval)
    : Prop :=
  exists b r : gmap string pyval,
    body = VDict b /\
    b !! "searchLibraryResponse" = Some (VDict r) /\
    r !! "searchLibraryResult" = Some (VDict env) /\
    env !! "searchReturnItemList" = Some (VList items).

(** The lists at [search], [columns] and [sort] exist and their items
    are criteria the encoders accept. *)
Definition encodable (w : world) (search columns sort : loc) : Prop :=
  exists search_l columns_l sort_l,
    store w !! search = Some search_l /\
    store w !! columns = Some columns_l /\
    store w !! sort = Some sort_l /\
    Forall (fun item => is_Some (criterion_fields item)) search_l /\
    Forall (fun item => is_Some (sort_criterion_fields item)) sort_l.

(** The world once a page has been fetched with the call [c] and its
    [items] yielded. *)
Definition after_page (c : request) (cls : result_cls) (items : list pyval)
    (rest : list post_result) (w : world) : world :=
  World (store w) rest (trace w ++ Call c :: yields cls items)
    (rand_seq w) (rand_pos w + 7) (config_file w) (self w).

(** What [search_page] does with the answer of [_get]. *)
Definition page_rest (cls : result_cls) (result : pyval) : M pyval :=
  let* search_results :=
    lift (_get_payload_data result ["searchLibraryResponse"; "searchLibraryResult"]) in
  let* items := lift (_get_payload_data search_results ["searchReturnItemList"]) in
  let* items_l := lift (Py.iterate items) in
  let* _ := yield_all cls items_l in
  lift (Py.getitem search_results "nextResultsToken").

(** The request parameters [search_page] starts from. *)
Definition page_base (return_type : string) (next_results_token : pyval)
    : gmap string pyval :=
  <["searchReturnType" := VStr return_type]>
  (<["albumArtUrlsSizeList.member.1" := VStr "MEDIUM"]>
  (<["sortCriteriaList" := VStr ""]>
  (<["maxResults" := VInt PAGINATE_BY]>
  (<["nextResultsToken" := next_results_token]> ∅)))).

(** From [w] to [w'] no list object, no configuration and no attribute
    of the client has changed, and the trace has only grown. *)
Definition only_traced (w w' : world) : Prop :=
  store w' = store w /\ config_file w' = config_file w /\ self w' = self w /\
  rand_seq w' = rand_seq w /\
  exists tl, trace w' = trace w ++ tl.

(** A decoded [searchLibrary] answer with the given items, and with the
    given next token when there is one. *)
Definition page_env (items : list pyval) (token : option pyval)
    : gmap string pyval :=
  match token with
  | Some tok =>
      <["nextResultsToken" := tok]> {["searchReturnItemList" := VList items]}
  | None => {["searchReturnItemList" := VList items]}
  end.

Definition page_body (items : list pyval) (token : option pyval) : pyval :=
  VDict {["searchLibraryResponse" :=
            VDict {["searchLibraryResult" := VDict (page_env items token)]}]}.

(** The class lists, with one column per record class. *)
Definition demo_store : gmap loc (list pyval) :=
  class_store [VStr "title"] [VStr "albumName"] [VStr "name"].

Definition demo_world (answers : list post_result) : world :=
  initial_world demo_store answers (fun _ => 65536%Z).

(** Three answers of 50, 50 and 7 items with the tokens [t1], [t2] and
    the empty string, and a fourth that would follow. *)
Definition three_pages : list post_result :=
  [Response 200 (page_body (replicate 50 (VStr "a")) (Some (VStr "t1")));
   Response 200 (page_body (replicate 50 (VStr "b")) (Some (VStr "t2")));
   Response 200 (page_body (replicate 7 (VStr "c")) (Some (VStr "")));
   Response 200 (page_body [VStr "d"] (Some (VStr "t4")))].

(** The list objects after a search that combines the class list at
    [defaults] with the caller's list at [search]: one new object, the
    concatenation, and the objects of [st] as they were (nothing new
    when one of the two is no list object and the search raises). *)
Definition store_after_search (st : gmap loc (list pyval)) (defaults search : loc)
    : gmap loc (list pyval) :=
  match st !! defaults, st !! search with
  | Some d, Some s => <[fresh (dom st) := d ++ s]> st
  | _, _ => st
  end.

(** Does one of the four patterns match the (stripped) line? *)
Definition matches_pattern (vm : list (string * list re_atom)) (line : string)
    : bool :=
  existsb (fun kv => bool_decide (is_Some (re_match kv.2 line))) vm.

(** A line of the page that counts as a credential line: stripped, it
    starts with [amznMusic.] and one of the four patterns matches it. *)
Definition credential_line (line : string) : bool :=
  String.prefix "amznMusic." (strip line) && matches_pattern vars_map (strip line).


(** A page made of the given lines. *)
Definition page_of_lines (lines : list string) : string :=
  join (String nl EmptyString) lines.


(** A page that sets three of the four variables, one of them twice. *)
Definition page_repeated_field : string :=
  page_of_lines ["amznMusic.customerId = 'C0';"; "amznMusic.customerId = 'C1';";
                 "amznMusic.tid = 'T1';"; "amznMusic.did = 'D1';"].

Definition browser_repeated_field : browser :=
  Browser (inr ["signIn"]) (inr page_repeated_field) [("session-id", "1")].

(** The same range with its upper end: in floating point [1 + r] is
    rounded, and for the largest [r] below 1 it is rounded to 2, which
    gives 131072. *)
Definition drawn_or_rounded (n : Z) : Prop := (65536 <= n <= 131072)%Z.

(** * The other methods of the client *)

(** ** The single-call fetches *)

(** The attributes of an [Album] that [get_track_list] reads. *)
Record album := AlbumObj {
  num_tracks : pyval;
  sort_album_artist_name : pyval;
  sort_album_name : pyval
}.

Definition get_track_list (a : album) : M (list record_obj) :=
  let data : gmap string pyval :=
    <["sortCriteriaList" := VStr ""]>
    (<["maxResults" := num_tracks a]>
    (<["nextResultsToken" := VInt 0]>
    (<["distinctOnly" := VStr "false"]>
    (<["countOnly" := VStr "false"]> ∅)))) in
  let* enc :=
    lift (_build_search_criteria
            [crit3 "status" "EQUALS" "AVAILABLE";
             crit2 "trackStatus" "IS_NULL";
             VTuple [VStr "sortAlbumArtistName"; VStr "EQUALS";
                     sort_album_artist_name a];
             VTuple [VStr "sortAlbumName"; VStr "EQUALS"; sort_album_name a]]
            "selectCriteriaList") in
  let data := Py.update data enc in
  let* columns_l := load Song_COLUMNS in
  let data := Py.update data (_build_selected_columns columns_l) in
  let* enc :=
    lift (_build_sort_criteria [crit2 "discNum" "ASC"; crit2 "trackNum" "ASC"]) in
  let data := Py.update data enc in
  let* result := _get "selectTrackMetadata" data in
  let* items :=
    lift (_get_payload_data result
            ["selectTrackMetadataResponse"; "selectTrackMetadataResult";
             "trackInfoList"]) in
  let* items_l := lift (Py.iterate items) in
  ret (Obj Song <$> items_l).

(** The loop of [get_song_stream_urls] over [enumerate(song_ids)]. *)
Fixpoint track_ids_loop (i : nat) (song_ids : list pyval)
    (data : gmap string pyval) : gmap string pyval :=
  match song_ids with
  | [] => data
  | song_id :: rest =>
      track_ids_loop (S i) rest
        (<["trackIdList.member." +:+ pretty (i + 1) := song_id]> data)
  end.

(** [[item['url'] for item in items]]. *)
Fixpoint item_urls (items : list pyval) : outcome (list pyval) :=
  match items with
  | [] => Returned []
  | item :: rest =>
      url ←! Py.getitem item "url";
      urls ←! item_urls rest;
      Returned (url :: urls)
  end.

Definition get_song_stream_urls (song_ids : list pyval) : M (list pyval) :=
  let data := track_ids_loop 0 song_ids ∅ in
  let* result := _get "getStreamUrls" data in
  let* items :=
    lift (_get_payload_data result
            ["getStreamUrlsResponse"; "getStreamUrlsResult"; "trackStreamUrlList"]) in
  let* items_l := lift (Py.iterate items) in
  lift (item_urls items_l).

Definition get_trace : M (list event) := fun w => (Returned (trace w), w).

(** [get_album]: the list literal is a list object of its own, [list(...)]
    runs the search to its end and collects what it yields; the result is
    the first record, or [None].  (The message logged when there are
    several records changes nothing here.) *)
Definition get_album (fuel : nat) (artist_name album_name : pyval)
    : M (option record_obj) :=
  let* search :=
    alloc [VTuple [VStr "artistName"; VStr "EQUALS"; artist_name];
           VTuple [VStr "albumName"; VStr "EQUALS"; album_name]] in
  let* before := get_trace in
  let* _ := get_albums fuel search DEFAULT_ALBUM_SORT in
  let* after := get_trace in
  let results := yielded (drop (length before) after) in
  ret (head results).

(** ** Construction *)

(** [Client.__init__]: every attribute starts as [None], then the
    configuration is loaded. *)
Definition __init__ : M unit :=
  fun w =>
    _load_config (set_self (Client VNone VNone VNone VNone VNone false) w).

(** * Vocabulary of the further properties *)

(** Following [keys] down nested dicts. *)
Fixpoint descend (data : pyval) (keys : list string) : option pyval :=
  match keys with
  | [] => Some data
  | key :: rest =>
      match data with
      | VDict m =>
          match m !! key with
          | Some v => descend v rest
          | None => None
          end
      | _ => None
      end
  end.

(** The names [_get] sets in the request parameters. *)
Definition identity_keys : list string :=
  ["Operation"; "ContentType"; "customerInfo.customerId";
   "customerInfo.deviceId"; "customerInfo.deviceType"].

Definition header_names : list string :=
  ["x-amzn-RequestId"; "x-adp-token"; "x-RequestedWith"; "User-Agent";
   "Referer"; "Origin"; "Cookie"; "Host"].

(** One answered page of a search: the decoded answer, its result
    envelope, its items and the token the envelope carries. *)
Record page := Page {
  page_answer : pyval;
  page_envelope : gmap string pyval;
  page_items : list pyval;
  page_token : pyval
}.

Definition good_page (p : page) : Prop :=
  is_page (page_answer p) (page_envelope p) (page_items p) /\
  page_envelope p !! "nextResultsToken" = Some (page_token p).

Definition answers (pages : list page) : list post_result :=
  (fun p => Response 200 (page_answer p)) <$> pages.

Definition all_items (pages : list page) : list pyval :=
  concat (page_items <$> pages).

(** The token each call of a trace carries. *)
Definition call_tokens (tr : list event) : list (option pyval) :=
  (fun c => req_data c !! "nextResultsToken") <$> calls tr.

(** The token in hand after [pages], starting from [cur]. *)
Definition last_token (cur : pyval) (pages : list page) : pyval :=
  default cur (last (page_token <$> pages)).

(** An answer [_get] turns into the exception [e]: a failure of the
    transport, or a status other than 200 with an [Error] that holds a
    message and a code. *)
Inductive rejects : post_result -> exn -> Prop :=
  | rejects_transport e : rejects (PostRaises e) e
  | rejects_status st (b er : gmap string pyval) msg code :
      st <> 200%Z ->
      b !! "Error" = Some (VDict er) ->
      er !! "Message" = Some msg ->
      er !! "Code" = Some code ->
      rejects (Response st (VDict b)) (RequestError msg code).

(** An answered page with the given items and token. *)
Definition demo_page (items : list pyval) (tok : pyval) : page :=
  Page (page_body items (Some tok)) (page_env items (Some tok)) items tok.

(** Every key bound in [m] starts with [p]. *)
Definition keys_under (p : string) (m : gmap string pyval) : Prop :=
  forall k, is_Some (m !! k) -> String.prefix p k = true.

(** The three public searches. *)
Inductive library_search := Songs | Albums | Artists.

Definition run_search (s : library_search) : nat -> loc -> loc -> M unit :=
  match s with
  | Songs => get_songs
  | Albums => get_albums
  | Artists => get_artists
  end.

Definition search_defaults (s : library_search) : loc :=
  match s with
  | Songs => SONG_SEARCH
  | Albums => ALBUM_SEARCH
  | Artists => ARTIST_SEARCH
  end.

Definition search_columns (s : library_search) : loc :=
  match s with
  | Songs => Song_COLUMNS
  | Albums => Album_COLUMNS
  | Artists => Artist_COLUMNS
  end.

Definition search_return_type (s : library_search) : string :=
  match s with
  | Songs => "TRACKS"
  | Albums => "ALBUMS"
  | Artists => "ARTISTS"
  end.

(** [item] is a mapping whose [url] is [url]. *)
Definition has_url (item url : pyval) : Prop :=
  exists m : gmap string pyval, item = VDict m /\ m !! "url" = Some url.

(** The record class each public search builds. *)
Definition search_class (s : library_search) : result_cls :=
  match s with
  | Songs => Song
  | Albums => Album
  | Artists => Artist
  end.

(** The list literal [get_album] searches with. *)
Definition album_criteria (artist_name album_name : pyval) : list pyval :=
  [VTuple [VStr "artistName"; VStr "EQUALS"; artist_name];
   VTuple [VStr "albumName"; VStr "EQUALS"; album_name]].

(** The four variables the page assigns. *)
Inductive variable := CustomerId | Tid | Did | Dtid.

Definition js_name (x : variable) : string :=
  match x with
  | CustomerId => "customerId"
  | Tid => "tid"
  | Did => "did"
  | Dtid => "dtid"
  end.

Definition config_key (x : variable) : string :=
  match x with
  | CustomerId => "customer_id"
  | Tid => "adp_token"
  | Did => "device_id"
  | Dtid => "device_type"
  end.

Definition pattern_of (x : variable) : list re_atom :=
  match x with
  | CustomerId => CUSTOMER_ID_RE
  | Tid => ADP_TOKEN_RE
  | Did => DEVICE_ID_RE
  | Dtid => DEVICE_TYPE_RE
  end.

(** The line [amznMusic.<name> = <q><v><q>;] for a quote character [q]. *)
Definition assignment (x : variable) (q : ascii) (v : string) : string :=
  "amznMusic." +:+ js_name x +:+ " = " +:+ String q (v +:+ String q ";").

(** The capturing repetition of [re_match_from], with the characters
    seen so far. *)
Definition group_star (p : ascii -> bool) (k : string -> string -> option string)
    : string -> list ascii -> option string :=
  fix star (s : string) (seen : list ascii) : option string :=
    match s with
    | String c s' =>
        if p c then
          match star s' (c :: seen) with
          | Some m => Some m
          | None => k s (string_of_list_ascii (rev seen))
          end
        else k s (string_of_list_ascii (rev seen))
    | EmptyString => k s (string_of_list_ascii (rev seen))
    end.







(** The configuration of a login. *)
Definition credentials (c t d y : string) (cookie : pyval) : gmap string pyval :=
  <["cookies" := cookie]>
  (<["customer_id" := VStr c]>
  (<["adp_token" := VStr t]>
  (<["device_id" := VStr d]>
  (<["device_type" := VStr y]> ∅)))).


(** A login whose page sets the four variables, with a cookie whose
    value is the single byte [FF]. *)
Definition browser_bad_cookie : browser :=
  Browser (inr ["signIn"])
    (inr (page_of_lines ["amznMusic.customerId = 'C1';"; "amznMusic.tid = 'T1';";
                         "amznMusic.did = 'D1';"; "amznMusic.dtid = 'Y1';"]))
    [("session-id", String (ascii_of_nat 255) EmptyString)].

(** * Properties *)

Ltac field_in := unfold search_fields, sort_fields; repeat constructor.

(** ** Wire keys *)

Lemma pretty_N_go_no_dot (x : N) (s : string) :
  no_dot s -> no_dot (pretty_N_go x s).
Proof.
  revert s. induction (N.lt_wf_0 x) as [x _ IH]; intros s Hs.
  destruct (decide (x = 0%N)) as [->|Hx].
  - by rewrite pretty_N_go_0.
  - rewrite pretty_N_go_step by lia.
    apply IH; [apply N.div_lt; lia|].
    split; [|done]. unfold pretty_N_char. by repeat case_match.
Qed.

Lemma pretty_nat_no_dot (n : nat) : no_dot (pretty n).
Proof.
  unfold pretty, pretty_nat, pretty, pretty_N.
  case_decide; [by split|]. by apply pretty_N_go_no_dot.
Qed.

Lemma dotted_inj (a b s t : string) :
  no_dot a -> no_dot b ->
  a +:+ String "." s = b +:+ String "." t -> a = b /\ s = t.
Proof.
  revert b. induction a as [|c a IH]; intros [|c' b] Ha Hb Heq; simpl in *.
  - by simplify_eq.
  - destruct Hb as [Hb _]. by simplify_eq.
  - destruct Ha as [Ha _]. by simplify_eq.
  - destruct Ha as [_ Ha], Hb as [_ Hb]. simplify_eq.
    destruct (IH b Ha Hb) as [-> ->]; done.
Qed.

Lemma str_app_assoc (a b c : string) : (a +:+ b) +:+ c = a +:+ b +:+ c.
Proof.
  induction a as [|x a IH]; [done|].
  change (String x ((a +:+ b) +:+ c) = String x (a +:+ b +:+ c)). by rewrite IH.
Qed.

Lemma str_app_length (a b : string) :
  String.length (a +:+ b) = String.length a + String.length b.
Proof.
  induction a as [|x a IH]; [done|].
  change (S (String.length (a +:+ b)) = S (String.length a + String.length b)).
  by rewrite IH.
Qed.

Lemma member_key_app (p : string) (j : nat) (f : string) :
  member_key p j +:+ f = p +:+ ".member." +:+ pretty j +:+ f.
Proof. unfold member_key. by rewrite !str_app_assoc. Qed.

(** Two wire keys are equal only if they have the same index and the
    same field. *)
Lemma member_key_inj (p : string) (j j' : nat) (f f' : string) :
  member_key p j +:+ String "." f = member_key p j' +:+ String "." f' ->
  j = j' /\ f = f'.
Proof.
  rewrite !member_key_app. intros Heq.
  apply (inj (String.app p)) in Heq.
  apply (inj (String.app ".member.")) in Heq.
  apply dotted_inj in Heq as [Hj ->]; auto using pretty_nat_no_dot.
  by apply (inj pretty) in Hj.
Qed.

(** ** The search-criteria encoder *)

Lemma fresh_above_insert p fields i f v (d : gmap string pyval) :
  fresh_above p fields (S i) d ->
  fresh_above p fields (S i) (<[member_key p (i + 1) +:+ String "." f := v]> d).
Proof.
  intros Hd j g Hj Hg. rewrite lookup_insert_ne.
  - by apply Hd.
  - intros [? _]%member_key_inj. lia.
Qed.

Lemma fresh_above_S p fields i (d : gmap string pyval) :
  fresh_above p fields i d -> fresh_above p fields (S i) d.
Proof. intros Hd j g Hj Hg. apply Hd; [lia|done]. Qed.

Lemma criterion_fields_run (item name cmp value : pyval) :
  criterion_fields item = Some (name, cmp, value) ->
  Py.index item 0 = Returned name /\
  Py.index item 1 = Returned cmp /\
  (n ←! Py.len item;
   if (n =? 2)%nat then Returned (VStr "") else Py.index item 2) = Returned value.
Proof.
  destruct item as [| | | |l|l|m]; try done.
  destruct l as [|a [|b [|c l]]]; simpl; intros; by simplify_eq.
Qed.

Lemma build_search_loop_step p i item rest d name cmp value :
  criterion_fields item = Some (name, cmp, value) ->
  build_search_loop p i (item :: rest) d =
  build_search_loop p (S i) rest
    (<[member_key p (i + 1) +:+ ".attributeValue" := value]>
     (<[member_key p (i + 1) +:+ ".comparisonType" := cmp]>
      (<[member_key p (i + 1) +:+ ".attributeName" := name]> d))).
Proof.
  intros (H0 & H1 & H2)%criterion_fields_run.
  cbn [build_search_loop]. rewrite H0. cbn [obind]. rewrite H1. cbn [obind].
  destruct (Py.len item) as [n| |]; cbn [obind] in *; try done.
  by rewrite H2.
Qed.

Lemma build_search_loop_lookup p search : forall i d,
  Forall (fun item => is_Some (criterion_fields item)) search ->
  exists r,
    build_search_loop p i search d = Returned r /\
    (forall n item name cmp value,
        search !! n = Some item ->
        criterion_fields item = Some (name, cmp, value) ->
        r !! (member_key p (i + n + 1) +:+ ".attributeName") = Some name /\
        r !! (member_key p (i + n + 1) +:+ ".comparisonType") = Some cmp /\
        r !! (member_key p (i + n + 1) +:+ ".attributeValue") = Some value) /\
    (forall k,
        (forall n f, n < length search -> f ∈ search_fields ->
                     k <> member_key p (i + n + 1) +:+ String "." f) ->
        r !! k = d !! k).
Proof.
  induction search as [|item rest IH]; intros i d Hok.
  - exists d. split; [done|]. split; [intros n ????? Hn; by destruct n|done].
  - inversion Hok as [|?? [[[name cmp] value] Hf] Hrest]; subst.
    rewrite (build_search_loop_step p i item rest d _ _ _ Hf).
    edestruct (IH (S i)) as (r & Hr & Hin & Hout); [exact Hrest|].
    exists r. split; [exact Hr|]. split.
    + intros [|n] it a c v Hn Hit.
      * simpl in Hn. simplify_eq. rewrite Nat.add_0_r.
        rewrite !Hout by (intros n f _ _ [? _]%member_key_inj; lia).
        repeat split.
        -- rewrite lookup_insert_ne by (by intros [_ ?]%member_key_inj).
           rewrite lookup_insert_ne by (by intros [_ ?]%member_key_inj).
           by rewrite lookup_insert_eq.
        -- rewrite lookup_insert_ne by (by intros [_ ?]%member_key_inj).
           by rewrite lookup_insert_eq.
        -- by rewrite lookup_insert_eq.
      * simpl in Hn. replace (i + S n + 1) with (S i + n + 1) by lia.
        by apply (Hin n it).
    + intros k Hk. rewrite Hout.
      * assert (forall f, f ∈ search_fields ->
                  k <> member_key p (i + 1) +:+ String "." f) as Hk0.
        { intros f Hf' ->.
          eapply (Hk 0 f); [simpl; lia|done|by rewrite Nat.add_0_r]. }
        rewrite !lookup_insert_ne; [done|..]; apply not_eq_sym, Hk0; field_in.
      * intros n f Hn Hf'. replace (S i + n + 1) with (i + S n + 1) by lia.
        apply Hk; [simpl; lia|done].
Qed.

Lemma build_search_loop_size p search : forall i d r,
  Forall (fun item => is_Some (criterion_fields item)) search ->
  fresh_above p search_fields i d ->
  build_search_loop p i search d = Returned r ->
  size r = size d + 3 * length search.
Proof.
  induction search as [|item rest IH]; intros i d r Hok Hd Hr.
  - simpl in Hr. simplify_eq. simpl. lia.
  - inversion Hok as [|?? [[[name cmp] value] Hf] Hrest]; subst.
    rewrite (build_search_loop_step p i item rest d _ _ _ Hf) in Hr.
    apply IH in Hr;
      [|done|by repeat apply fresh_above_insert; apply fresh_above_S].
    rewrite Hr. rewrite !map_size_insert_None; [simpl; lia|..].
    + apply Hd; [lia|field_in].
    + rewrite lookup_insert_ne by (by intros [_ ?]%member_key_inj).
      apply Hd; [lia|field_in].
    + rewrite !lookup_insert_ne by (by intros [_ ?]%member_key_inj).
      apply Hd; [lia|field_in].
Qed.

(** C2.  For every list of criteria (tuples of two fields, or of three
    and more) and every key prefix, [_build_search_criteria] returns a
    mapping with exactly three keys per criterion and no other: under
    index [n + 1] the [n]-th criterion's name, comparison and value, the
    value of a criterion of two fields being the empty string. *)
Theorem build_search_criteria_keys (search : list pyval) (key_prefix : string) :
  Forall (fun item => is_Some (criterion_fields item)) search ->
  exists data,
    _build_search_criteria search key_prefix = Returned data /\
    size data = 3 * length search /\
    (forall n item name cmp value,
        search !! n = Some item ->
        criterion_fields item = Some (name, cmp, value) ->
        data !! (member_key key_prefix (n + 1) +:+ ".attributeName") = Some name /\
        data !! (member_key key_prefix (n + 1) +:+ ".comparisonType") = Some cmp /\
        data !! (member_key key_prefix (n + 1) +:+ ".attributeValue") = Some value) /\
    (forall n name cmp,
        search !! n = Some (VTuple [name; cmp]) ->
        data !! (member_key key_prefix (n + 1) +:+ ".attributeValue") = Some (VStr "")) /\
    (forall k,
        (forall n f, n < length search -> f ∈ search_fields ->
                     k <> member_key key_prefix (n + 1) +:+ String "." f) ->
        data !! k = None).
Proof.
  intros Hok. unfold _build_search_criteria.
  destruct (build_search_loop_lookup key_prefix search 0 ∅ Hok)
    as (data & Hrun & Hin & Hout).
  exists data. split; [done|]. split; [|split; [|split]].
  - rewrite (build_search_loop_size key_prefix search 0 ∅ data Hok); [done| |done].
    intros j f _ _. apply lookup_empty.
  - intros n item name cmp value Hn Hf. by apply (Hin n item).
  - intros n name cmp Hn. by eapply (Hin n (VTuple [name; cmp]) name cmp).
  - intros k Hk. rewrite Hout; [apply lookup_empty|]. intros n f. apply Hk.
Qed.

Lemma build_search_criteria_keys_witness :
  exists data,
    _build_search_criteria
      [crit3 "status" "EQUALS" "AVAILABLE"; crit2 "trackStatus" "IS_NULL"]
      "selectCriteriaList" = Returned data /\
    size data = 6 /\
    data !! "selectCriteriaList.member.2.attributeValue" = Some (VStr "").
Proof.
  destruct (build_search_criteria_keys
              [crit3 "status" "EQUALS" "AVAILABLE"; crit2 "trackStatus" "IS_NULL"]
              "selectCriteriaList") as (data & Hrun & Hsize & _ & Hempty & _).
  - repeat constructor; eexists; reflexivity.
  - exists data. split; [exact Hrun|]. split; [exact Hsize|].
    exact (Hempty 1 (VStr "trackStatus") (VStr "IS_NULL") eq_refl).
Defined.

(** ** The sort encoder *)

Lemma sort_key_member_key (i : nat) :
  "sortCriteriaList.member." +:+ pretty i = member_key "sortCriteriaList" i.
Proof. reflexivity. Qed.

Lemma sort_criterion_fields_run (item column direction : pyval) :
  sort_criterion_fields item = Some (column, direction) ->
  Py.index item 0 = Returned column /\ Py.index item 1 = Returned direction.
Proof.
  destruct item as [| | | |l|l|m]; try done.
  destruct l as [|a [|b l]]; simpl; intros; by simplify_eq.
Qed.

Lemma build_sort_loop_step i item rest d column direction :
  sort_criterion_fields item = Some (column, direction) ->
  build_sort_loop i (item :: rest) d =
  build_sort_loop (S i) rest
    (<[member_key "sortCriteriaList" (i + 1) +:+ ".sortType" := direction]>
     (<[member_key "sortCriteriaList" (i + 1) +:+ ".sortColumn" := column]> d)).
Proof.
  intros (H0 & H1)%sort_criterion_fields_run.
  cbn [build_sort_loop]. rewrite H0. cbn [obind]. by rewrite H1.
Qed.

Lemma build_sort_loop_lookup sort : forall i d,
  Forall (fun item => is_Some (sort_criterion_fields item)) sort ->
  exists r,
    build_sort_loop i sort d = Returned r /\
    (forall n item column direction,
        sort !! n = Some item ->
        sort_criterion_fields item = Some (column, direction) ->
        r !! (member_key "sortCriteriaList" (i + n + 1) +:+ ".sortColumn")
          = Some column /\
        r !! (member_key "sortCriteriaList" (i + n + 1) +:+ ".sortType")
          = Some direction) /\
    (forall k,
        (forall n f, n < length sort -> f ∈ sort_fields ->
                     k <> member_key "sortCriteriaList" (i + n + 1) +:+ String "." f) ->
        r !! k = d !! k).
Proof.
  induction sort as [|item rest IH]; intros i d Hok.
  - exists d. split; [done|]. split; [intros n ???? Hn; by destruct n|done].
  - inversion Hok as [|?? [[column direction] Hf] Hrest]; subst.
    rewrite (build_sort_loop_step i item rest d _ _ Hf).
    edestruct (IH (S i)) as (r & Hr & Hin & Hout); [exact Hrest|].
    exists r. split; [exact Hr|]. split.
    + intros [|n] it c t Hn Hit.
      * simpl in Hn. simplify_eq. rewrite Nat.add_0_r.
        rewrite !Hout by (intros n f _ _ [? _]%member_key_inj; lia).
        split.
        -- rewrite lookup_insert_ne by (by intros [_ ?]%member_key_inj).
           by rewrite lookup_insert_eq.
        -- by rewrite lookup_insert_eq.
      * simpl in Hn. replace (i + S n + 1) with (S i + n + 1) by lia.
        by apply (Hin n it).
    + intros k Hk. rewrite Hout.
      * assert (forall f, f ∈ sort_fields ->
                  k <> member_key "sortCriteriaList" (i + 1) +:+ String "." f) as Hk0.
        { intros f Hf' ->.
          eapply (Hk 0 f); [simpl; lia|done|by rewrite Nat.add_0_r]. }
        rewrite !lookup_insert_ne; [done|..]; apply not_eq_sym, Hk0; field_in.
      * intros n f Hn Hf'. replace (S i + n + 1) with (i + S n + 1) by lia.
        apply Hk; [simpl; lia|done].
Qed.

Lemma build_sort_loop_size sort : forall i d r,
  Forall (fun item => is_Some (sort_criterion_fields item)) sort ->
  fresh_above "sortCriteriaList" sort_fields i d ->
  build_sort_loop i sort d = Returned r ->
  size r = size d + 2 * length sort.
Proof.
  induction sort as [|item rest IH]; intros i d r Hok Hd Hr.
  - simpl in Hr. simplify_eq. simpl. lia.
  - inversion Hok as [|?? [[column direction] Hf] Hrest]; subst.
    rewrite (build_sort_loop_step i item rest d _ _ Hf) in Hr.
    apply IH in Hr;
      [|done|by repeat apply fresh_above_insert; apply fresh_above_S].
    rewrite Hr. rewrite !map_size_insert_None; [simpl; lia|..].
    + apply Hd; [lia|field_in].
    + rewrite lookup_insert_ne by (by intros [_ ?]%member_key_inj).
      apply Hd; [lia|field_in].
Qed.

(** C8.  For every list of sort criteria (tuples of at least two
    fields), [_build_sort_criteria] returns a mapping with exactly two
    keys per criterion and no other: under index [n + 1] the column and
    the direction of the [n]-th criterion, so that index 1 is the first
    element of the input. *)
Theorem build_sort_criteria_keys (sort : list pyval) :
  Forall (fun item => is_Some (sort_criterion_fields item)) sort ->
  exists data,
    _build_sort_criteria sort = Returned data /\
    size data = 2 * length sort /\
    (forall n item column direction,
        sort !! n = Some item ->
        sort_criterion_fields item = Some (column, direction) ->
        data !! ("sortCriteriaList.member." +:+ pretty (n + 1) +:+ ".sortColumn")
          = Some column /\
        data !! ("sortCriteriaList.member." +:+ pretty (n + 1) +:+ ".sortType")
          = Some direction) /\
    (forall k,
        (forall n f, n < length sort -> f ∈ sort_fields ->
           k <> "sortCriteriaList.member." +:+ pretty (n + 1) +:+ String "." f) ->
        data !! k = None).
Proof.
  intros Hok. unfold _build_sort_criteria.
  destruct (build_sort_loop_lookup sort 0 ∅ Hok) as (data & Hrun & Hin & Hout).
  exists data. split; [done|]. split; [|split].
  - rewrite (build_sort_loop_size sort 0 ∅ data Hok); [done| |done].
    intros j f _ _. apply lookup_empty.
  - intros n item column direction Hn Hf.
    destruct (Hin n item column direction Hn Hf) as [Hc Ht].
    rewrite member_key_app in Hc, Ht. by split.
  - intros k Hk. rewrite Hout; [apply lookup_empty|].
    intros n f Hn Hf. rewrite member_key_app. by apply Hk.
Qed.

Lemma build_sort_criteria_keys_witness :
  exists data,
    _build_sort_criteria [crit2 "discNum" "ASC"; crit2 "trackNum" "ASC"]
      = Returned data /\
    size data = 4 /\
    data !! "sortCriteriaList.member.1.sortColumn" = Some (VStr "discNum").
Proof.
  destruct (build_sort_criteria_keys
              [crit2 "discNum" "ASC"; crit2 "trackNum" "ASC"])
    as (data & Hrun & Hsize & Hin & _).
  - repeat constructor; eexists; reflexivity.
  - exists data. split; [exact Hrun|]. split; [exact Hsize|].
    exact (proj1 (Hin 0 _ (VStr "discNum") (VStr "ASC") eq_refl eq_refl)).
Defined.

(** ** Payload navigation *)

Lemma contains_dict_present (m : gmap string pyval) (k : string) (v : pyval) :
  m !! k = Some v -> Py.contains (VDict m) k = Returned true.
Proof. intros H. simpl. by rewrite bool_decide_eq_true_2. Qed.

Lemma contains_dict_absent (m : gmap string pyval) (k : string) :
  m !! k = None -> Py.contains (VDict m) k = Returned false.
Proof.
  intros H. simpl. rewrite bool_decide_eq_false_2; [done|].
  rewrite H. by intros [? ?].
Qed.

(** One step down a key that is present. *)
Lemma get_payload_data_descend (m : gmap string pyval) (k : string)
    (v : pyval) (keys : list string) :
  m !! k = Some v ->
  _get_payload_data (VDict m) (k :: keys) = _get_payload_data v keys.
Proof.
  intros H. cbn [_get_payload_data].
  rewrite (contains_dict_present m k v H). cbn [obind negb].
  unfold Py.getitem. by rewrite H.
Qed.

(** C3.  On a path [A, B, C], when the mapping reached through [A] has
    no key [B], [_get_payload_data] does not get as far as raising the
    [RequestError] that names [B]: building it with the message alone
    fails, and what reaches the caller is the [TypeError] of the
    constructor, whatever [A], [B] and [C] are. *)
Theorem get_payload_data_missing_key (m lvl : gmap string pyval) (A B C : string) :
  m !! A = Some (VDict lvl) ->
  lvl !! B = None ->
  _get_payload_data (VDict m) [A; B; C]
    = Raised (TypeError "__init__() takes exactly 3 arguments (2 given)") /\
  forall msg code,
    _get_payload_data (VDict m) [A; B; C] <> Raised (RequestError msg code).
Proof.
  intros HA HB.
  assert (_get_payload_data (VDict m) [A; B; C]
          = Raised (TypeError "__init__() takes exactly 3 arguments (2 given)")) as ->.
  { rewrite (get_payload_data_descend m A _ _ HA). cbn [_get_payload_data].
    by rewrite (contains_dict_absent lvl B HB). }
  split; [done|]. by intros msg code.
Qed.

Lemma get_payload_data_missing_key_witness :
  _get_payload_data (VDict {["A" := VDict ∅]}) ["A"; "B"; "C"]
    = Raised (TypeError "__init__() takes exactly 3 arguments (2 given)").
Proof.
  apply (get_payload_data_missing_key {["A" := VDict ∅]} ∅ "A" "B" "C");
    reflexivity.
Defined.

(** ** Request identifiers *)

Lemma hex_go_ge (fuel : nat) (n : Z) (acc : string) :
  (16 <= n)%Z ->
  hex_go (S fuel) n acc
  = hex_go fuel (n / 16)%Z (String (hex_digit (n mod 16)%Z) acc).
Proof. intros H. simpl. by rewrite (proj2 (Z.ltb_ge n 16) H). Qed.

Lemma hex_go_lt (fuel : nat) (n : Z) (acc : string) :
  (n < 16)%Z -> hex_go (S fuel) n acc = String (hex_digit n) acc.
Proof. intros H. simpl. by rewrite (proj2 (Z.ltb_lt n 16) H). Qed.

Lemma hex_digit_lower (d : Z) : is_lower_hex (hex_digit d) = true.
Proof. unfold hex_digit. by repeat case_match. Qed.

(** [hex] of a drawn integer is [0x1] followed by four digits. *)
Lemma hex_drawn (n : Z) : drawn n -> hex n = "0x1" +:+ low4 (n mod 65536).
Proof.
  unfold drawn. intros Hn. unfold hex.
  rewrite (proj2 (Z.ltb_ge n 0)) by lia. unfold hex_digits.
  rewrite (Z.log2_unique n 16) by (simpl; lia).
  change (S (Z.to_nat 16)) with 17.
  rewrite hex_go_ge by lia.
  rewrite hex_go_ge by (Z.div_mod_to_equations; lia).
  rewrite hex_go_ge by (Z.div_mod_to_equations; lia).
  rewrite hex_go_ge by (Z.div_mod_to_equations; lia).
  rewrite hex_go_lt by (Z.div_mod_to_equations; lia).
  assert (n / 16 / 16 / 16 / 16 = 1)%Z as -> by (Z.div_mod_to_equations; lia).
  assert (n / 16 / 16 / 16 = n mod 65536 / 4096 + 16)%Z as Hd3
    by (Z.div_mod_to_equations; lia).
  assert (n / 16 / 16 = n mod 65536 / 256 + 256)%Z as Hd2
    by (Z.div_mod_to_equations; lia).
  assert (n / 16 = n mod 65536 / 16 + 4096)%Z as Hd1
    by (Z.div_mod_to_equations; lia).
  unfold low4.
  replace ((n mod 65536) mod 16)%Z with (n mod 16)%Z
    by (Z.div_mod_to_equations; lia).
  replace ((n mod 65536 / 16) mod 16)%Z with ((n / 16) mod 16)%Z
    by (rewrite Hd1; Z.div_mod_to_equations; lia).
  replace ((n mod 65536 / 256) mod 16)%Z with ((n / 16 / 16) mod 16)%Z
    by (rewrite Hd2; Z.div_mod_to_equations; lia).
  replace ((n mod 65536 / 4096) mod 16)%Z with ((n / 16 / 16 / 16) mod 16)%Z
    by (rewrite Hd3; Z.div_mod_to_equations; lia).
  reflexivity.
Qed.

Lemma get_rand_drawn (n : Z) : drawn n -> get_rand n = low4 (n mod 65536).
Proof. intros Hn. unfold get_rand. by rewrite (hex_drawn n Hn). Qed.

Lemma get_rand_low4 (n : Z) :
  drawn_or_rounded n -> get_rand n = low4 (n mod 65536).
Proof.
  unfold drawn_or_rounded. intros Hn.
  destruct (decide (n = 131072%Z)) as [->|Hne]; [reflexivity|].
  apply get_rand_drawn. unfold drawn. lia.
Qed.

Lemma low4_length (m : Z) : String.length (low4 m) = 4.
Proof. reflexivity. Qed.

Lemma low4_lower_hex (m : Z) : all_chars is_lower_hex (low4 m) = true.
Proof. unfold low4. simpl. by rewrite !hex_digit_lower. Qed.

Lemma make_request_id_run (w : world) :
  _make_request_id w =
  (Returned (make_request_id_of (nth_draw w 0) (nth_draw w 1) (nth_draw w 2)
               (nth_draw w 3) (nth_draw w 4) (nth_draw w 5) (nth_draw w 6)),
   set_rand_pos (rand_pos w + 7) w).
Proof.
  unfold _make_request_id, bind, draw, ret, nth_draw, set_rand_pos. simpl.
  repeat f_equal; lia.
Qed.

Lemma format_request_id_length (s1 s2 s3 s4 s5 s6 s7 : string) :
  String.length (format_request_id s1 s2 s3 s4 s5 s6 s7)
  = String.length s1 + String.length s2 + String.length s3 + String.length s4
    + String.length s5 + String.length s6 + String.length s7 + 8.
Proof.
  unfold format_request_id. rewrite !str_app_length.
  change (String.length "-") with 1. change (String.length "-dmcp-") with 6. lia.
Qed.

(** C6, as the code has it.  Each of the seven segments of the
    identifier [_make_request_id] returns is what follows [0x1] in the
    lowercase hexadecimal rendering of the integer drawn for it (the
    prefix and the leading digit are both cut), and the segments are
    joined after the pattern [%s%s-%s-dmcp-%s-%s%s%s]. *)
Theorem make_request_id_segments (w : world) :
  (forall k, k < 7 -> drawn (nth_draw w k)) ->
  exists s1 s2 s3 s4 s5 s6 s7,
    hex (nth_draw w 0) = "0x1" +:+ s1 /\
    hex (nth_draw w 1) = "0x1" +:+ s2 /\
    hex (nth_draw w 2) = "0x1" +:+ s3 /\
    hex (nth_draw w 3) = "0x1" +:+ s4 /\
    hex (nth_draw w 4) = "0x1" +:+ s5 /\
    hex (nth_draw w 5) = "0x1" +:+ s6 /\
    hex (nth_draw w 6) = "0x1" +:+ s7 /\
    (_make_request_id w).1
    = Returned (s1 +:+ s2 +:+ "-" +:+ s3 +:+ "-dmcp-" +:+ s4 +:+ "-"
                +:+ s5 +:+ s6 +:+ s7).
Proof.
  intros Hd. rewrite make_request_id_run.
  exists (low4 (nth_draw w 0 mod 65536)), (low4 (nth_draw w 1 mod 65536)),
    (low4 (nth_draw w 2 mod 65536)), (low4 (nth_draw w 3 mod 65536)),
    (low4 (nth_draw w 4 mod 65536)), (low4 (nth_draw w 5 mod 65536)),
    (low4 (nth_draw w 6 mod 65536)).
  repeat (split; [apply hex_drawn, Hd; lia|]).
  cbn [fst]. unfold make_request_id_of.
  by rewrite !get_rand_drawn by (apply Hd; lia).
Qed.

Lemma make_request_id_segments_witness :
  (_make_request_id (initial_world ∅ [] (fun k => 65536 + 4660 * Z.of_nat k)%Z)).1
  = Returned "00001234-2468-dmcp-369c-48d05b046d38".
Proof.
  destruct (make_request_id_segments
              (initial_world ∅ [] (fun k => 65536 + 4660 * Z.of_nat k)%Z))
    as (s1 & s2 & s3 & s4 & s5 & s6 & s7 & H1 & H2 & H3 & H4 & H5 & H6 & H7 & Hid).
  - intros k Hk. unfold drawn, nth_draw. simpl. lia.
  - rewrite Hid. vm_compute in H1, H2, H3, H4, H5, H6, H7.
    injection H1 as <-. injection H2 as <-. injection H3 as <-.
    injection H4 as <-. injection H5 as <-. injection H6 as <-.
    injection H7 as <-. reflexivity.
Defined.

(** C6, as stated, fails: when every draw is 65536 the segments are
    [0000], not the rendering [10000] of the integer without its [0x]
    prefix. *)
Lemma make_request_id_not_plain_hex :
  (_make_request_id (initial_world ∅ [] (fun _ => 65536%Z))).1
    = Returned "00000000-0000-dmcp-0000-000000000000" /\
  request_id_plain_hex 65536 65536 65536 65536 65536 65536 65536
    = "1000010000-10000-dmcp-10000-100001000010000" /\
  (_make_request_id (initial_world ∅ [] (fun _ => 65536%Z))).1
    <> Returned (request_id_plain_hex 65536 65536 65536 65536 65536 65536 65536).
Proof. by vm_compute. Qed.

Lemma hex_digit_value_digit (d : Z) :
  (0 <= d < 16)%Z -> hex_digit_value (hex_digit d) = d.
Proof.
  intros Hd.
  assert (d = 0 \/ d = 1 \/ d = 2 \/ d = 3 \/ d = 4 \/ d = 5 \/ d = 6 \/ d = 7 \/
          d = 8 \/ d = 9 \/ d = 10 \/ d = 11 \/ d = 12 \/ d = 13 \/ d = 14 \/
          d = 15)%Z as Hcases by lia.
  repeat (destruct Hcases as [->|Hcases]); subst; reflexivity.
Qed.

Lemma hex_value_low4 (m : Z) : (0 <= m < 65536)%Z -> hex_value (low4 m) = m.
Proof.
  intros Hm. unfold low4, hex_value. cbn [hex_value_go].
  rewrite !hex_digit_value_digit by (apply Z.mod_pos_bound; lia).
  Z.div_mod_to_equations. lia.
Qed.

Lemma get_rand_segment (n : Z) : drawn_or_rounded n -> segment_of n (get_rand n).
Proof.
  intros Hn. rewrite (get_rand_low4 n Hn). unfold segment_of.
  split; [apply low4_length|]. split; [apply low4_lower_hex|].
  apply hex_value_low4. apply Z.mod_pos_bound. lia.
Qed.

(** C9.  Every identifier [_make_request_id] returns has one shape:
    it is [s1 s2 - s3 -dmcp- s4 - s5 s6 s7], where each segment is made
    of four lowercase hexadecimal digits that write the integer drawn
    for it modulo 65536, zero-padded; so the identifier is 36 characters
    long. *)
Theorem make_request_id_shape (w : world) :
  (forall k, k < 7 -> drawn_or_rounded (nth_draw w k)) ->
  exists s1 s2 s3 s4 s5 s6 s7,
    (_make_request_id w).1
    = Returned (s1 +:+ s2 +:+ "-" +:+ s3 +:+ "-dmcp-" +:+ s4 +:+ "-"
                +:+ s5 +:+ s6 +:+ s7) /\
    segment_of (nth_draw w 0) s1 /\ s1 = low4 (nth_draw w 0 mod 65536) /\
    segment_of (nth_draw w 1) s2 /\ s2 = low4 (nth_draw w 1 mod 65536) /\
    segment_of (nth_draw w 2) s3 /\ s3 = low4 (nth_draw w 2 mod 65536) /\
    segment_of (nth_draw w 3) s4 /\ s4 = low4 (nth_draw w 3 mod 65536) /\
    segment_of (nth_draw w 4) s5 /\ s5 = low4 (nth_draw w 4 mod 65536) /\
    segment_of (nth_draw w 5) s6 /\ s6 = low4 (nth_draw w 5 mod 65536) /\
    segment_of (nth_draw w 6) s7 /\ s7 = low4 (nth_draw w 6 mod 65536) /\
    String.length (s1 +:+ s2 +:+ "-" +:+ s3 +:+ "-dmcp-" +:+ s4 +:+ "-"
                   +:+ s5 +:+ s6 +:+ s7) = 36.
Proof.
  intros Hd.
  exists (get_rand (nth_draw w 0)), (get_rand (nth_draw w 1)),
    (get_rand (nth_draw w 2)), (get_rand (nth_draw w 3)),
    (get_rand (nth_draw w 4)), (get_rand (nth_draw w 5)),
    (get_rand (nth_draw w 6)).
  split; [by rewrite make_request_id_run|].
  repeat (split; [apply get_rand_segment, Hd; lia|
                  split; [apply get_rand_low4, Hd; lia|]]).
  fold (format_request_id (get_rand (nth_draw w 0)) (get_rand (nth_draw w 1))
          (get_rand (nth_draw w 2)) (get_rand (nth_draw w 3))
          (get_rand (nth_draw w 4)) (get_rand (nth_draw w 5))
          (get_rand (nth_draw w 6))).
  rewrite format_request_id_length.
  rewrite !(fun k H => proj1 (get_rand_segment (nth_draw w k) (Hd k H))) by lia.
  done.
Qed.

Lemma make_request_id_shape_witness :
  exists id,
    (_make_request_id (initial_world ∅ [] (fun k => 131071 - Z.of_nat k)%Z)).1
      = Returned id /\
    String.length id = 36.
Proof.
  destruct (make_request_id_shape
              (initial_world ∅ [] (fun k => 131071 - Z.of_nat k)%Z))
    as (s1 & s2 & s3 & s4 & s5 & s6 & s7 & Hid & Hrest).
  - intros k Hk. unfold drawn_or_rounded, nth_draw. simpl. lia.
  - eexists. split; [exact Hid|].
    exact (proj2 (proj2 (proj2 (proj2 (proj2 (proj2 (proj2 (proj2 (proj2
             (proj2 (proj2 (proj2 (proj2 (proj2 Hrest)))))))))))))).
Defined.

(** ** The request dispatcher *)

(** The request [_get] sends for [operation] and [data] in [w]. *)
Lemma get_run (operation : string) (data : gmap string pyval) (w : world) :
  exists req,
    req_data req !! "Operation" = Some (VStr operation) /\
    (forall k, k ∉ ["Operation"; "ContentType"; "customerInfo.customerId";
                    "customerInfo.deviceId"; "customerInfo.deviceType"] ->
               req_data req !! k = data !! k) /\
    _get operation data w =
    let w1 := log_event (Call req) (set_rand_pos (rand_pos w + 7) w) in
    match remote w with
    | [] => (Raised (ConnectionError "no answer"), w1)
    | PostRaises e :: rest => (Raised e, set_remote rest w1)
    | Response st result :: rest =>
        if negb (st =? 200)%Z then
          ((error ←! Py.getitem result "Error";
            msg ←! Py.getitem error "Message";
            code ←! Py.getitem error "Code";
            raise_RequestError [msg; code]), set_remote rest w1)
        else (Returned result, set_remote rest w1)
    end.
Proof.
  eexists. split; [|split]; cycle 2.
  - unfold _get. unfold bind at 1. rewrite make_request_id_run.
    unfold bind at 1. unfold get_self at 1. cbn [self set_rand_pos].
    unfold bind at 1. unfold post. cbn [remote log_event set_rand_pos].
    destruct (remote w) as [|[e|st result] rest]; [reflexivity..|].
    cbn [fst snd]. destruct (negb (st =? 200)%Z); [|reflexivity].
    unfold bind, lift.
    destruct (Py.getitem result "Error") as [error| |]; cbn [obind]; try reflexivity.
    destruct (Py.getitem error "Message") as [msg| |]; cbn [obind]; try reflexivity.
    destruct (Py.getitem error "Code") as [code| |]; cbn [obind]; reflexivity.
  - cbn [req_data]. unfold Py.update. by simplify_map_eq.
  - intros k Hk. cbn [req_data]. unfold Py.update.
    rewrite lookup_union_r; [done|].
    rewrite !lookup_insert_ne; [apply lookup_empty|..];
      intros <-; apply Hk; repeat constructor.
Qed.

(** C5, as the code has it.  The one status [_get] takes for a success
    is 200: then it returns the decoded body as it is.  With any other
    status, the other statuses of the 2xx class included, it returns no
    body; when the body holds an [Error] with [Message] and [Code] it
    raises a [RequestError] with that message and that code. *)
Theorem get_classifies_response (operation : string) (data : gmap string pyval)
    (w : world) (st : Z) (body : pyval) (rest : list post_result) :
  remote w = Response st body :: rest ->
  (st <> 200%Z ->
   forall (b e : gmap string pyval) (msg code : pyval),
     body = VDict b -> b !! "Error" = Some (VDict e) ->
     e !! "Message" = Some msg -> e !! "Code" = Some code ->
     (_get operation data w).1 = Raised (RequestError msg code)) /\
  (st = 200%Z -> (_get operation data w).1 = Returned body) /\
  (st <> 200%Z -> exists e, (_get operation data w).1 = Raised e).
Proof.
  intros Hrem. destruct (get_run operation data w) as (req & _ & _ & ->).
  rewrite Hrem. cbn zeta. split; [|split].
  - intros Hst b e msg code -> Hb Hmsg Hcode.
    rewrite (proj2 (Z.eqb_neq st 200) Hst). cbn [negb fst Py.getitem].
    rewrite Hb. cbn [obind Py.getitem]. rewrite Hmsg. cbn [obind].
    by rewrite Hcode.
  - intros ->. reflexivity.
  - intros Hst. rewrite (proj2 (Z.eqb_neq st 200) Hst). cbn [negb fst].
    destruct body as [| | | | | |b]; cbn [Py.getitem obind]; try by eexists.
    destruct (b !! "Error") as [error|]; cbn [obind]; [|by eexists].
    destruct error as [| | | | | |e]; cbn [Py.getitem obind]; try by eexists.
    destruct (e !! "Message") as [msg|]; cbn [obind]; [|by eexists].
    destruct (e !! "Code") as [code|]; cbn [obind]; by eexists.
Qed.

Lemma get_classifies_response_witness :
  (_get "searchLibrary" ∅
     (initial_world ∅ [Response 400 (error_body "Rate exceeded" "Throttling")]
        (fun _ => 65536%Z))).1
    = Raised (RequestError (VStr "Rate exceeded") (VStr "Throttling")) /\
  (_get "searchLibrary" ∅
     (initial_world ∅ [Response 200 (VDict ∅)] (fun _ => 65536%Z))).1
    = Returned (VDict ∅).
Proof.
  split.
  - eapply (proj1 (get_classifies_response "searchLibrary" ∅
                     (initial_world ∅
                        [Response 400 (error_body "Rate exceeded" "Throttling")]
                        (fun _ => 65536%Z))
                     400 (error_body "Rate exceeded" "Throttling") [] eq_refl));
      [lia|reflexivity..].
  - exact (proj1 (proj2 (get_classifies_response "searchLibrary" ∅
                    (initial_world ∅ [Response 200 (VDict ∅)] (fun _ => 65536%Z))
                    200 (VDict ∅) [] eq_refl)) eq_refl).
Defined.

(** C5, as stated, fails: an answer with the success status 201 or 204
    is not returned.  [_get] looks for an [Error] in its body and
    raises, a [KeyError] when the body is a mapping without one and a
    [TypeError] when there is no body. *)
Lemma get_success_status_raises :
  (_get "searchLibrary" ∅
     (initial_world ∅ [Response 201 (VDict {["created" := VBool true]})]
        (fun _ => 65536%Z))).1
    = Raised (KeyError (VStr "Error")) /\
  (_get "searchLibrary" ∅
     (initial_world ∅ [Response 201 (VDict {["created" := VBool true]})]
        (fun _ => 65536%Z))).1
    <> Returned (VDict {["created" := VBool true]}) /\
  (_get "searchLibrary" ∅
     (initial_world ∅ [Response 204 VNone] (fun _ => 65536%Z))).1
    = Raised (TypeError "'NoneType' object has no attribute '__getitem__'") /\
  (_get "searchLibrary" ∅
     (initial_world ∅ [Response 204 VNone] (fun _ => 65536%Z))).1
    <> Returned VNone.
Proof. by vm_compute. Qed.

(** ** The paginated search *)

Lemma bind_returned {A B} (m : M A) (f : A -> M B) (w w' : world) (a : A) :
  m w = (Returned a, w') -> bind m f w = f a w'.
Proof. intros H. unfold bind. by rewrite H. Qed.

Lemma bind_raised {A B} (m : M A) (f : A -> M B) (w w' : world) (e : exn) :
  m w = (Raised e, w') -> bind m f w = (Raised e, w').
Proof. intros H. unfold bind. by rewrite H. Qed.

Lemma load_run (l : loc) (w : world) (v : list pyval) :
  store w !! l = Some v -> load l w = (Returned v, w).
Proof. intros H. unfold load. by rewrite H. Qed.

Lemma yield_all_run (cls : result_cls) (items : list pyval) : forall w,
  yield_all cls items w =
  (Returned tt,
   World (store w) (remote w) (trace w ++ yields cls items) (rand_seq w)
     (rand_pos w) (config_file w) (self w)).
Proof.
  induction items as [|item rest IH]; intros w.
  - unfold yields. simpl. rewrite app_nil_r. by destruct w.
  - cbn [yield_all]. unfold bind, yield. rewrite IH. unfold log_event, yields.
    cbn. by rewrite <-app_assoc.
Qed.

Lemma build_columns_loop_other (columns : list pyval) : forall i d k,
  (forall j : nat, k <> "selectedColumns.member." +:+ pretty j) ->
  build_columns_loop i columns d !! k = d !! k.
Proof.
  induction columns as [|item rest IH]; intros i d k Hk; [done|].
  cbn [build_columns_loop]. rewrite IH by done.
  by rewrite lookup_insert_ne.
Qed.

(** The encoders leave the pagination token of the request alone. *)
Lemma encoded_token (search_l columns_l sort_l : list pyval)
    (enc1 enc3 base : gmap string pyval) :
  Forall (fun item => is_Some (criterion_fields item)) search_l ->
  Forall (fun item => is_Some (sort_criterion_fields item)) sort_l ->
  _build_search_criteria search_l default_key_prefix = Returned enc1 ->
  _build_sort_criteria sort_l = Returned enc3 ->
  Py.update (Py.update (Py.update base enc1) (_build_selected_columns columns_l)) enc3
    !! "nextResultsToken" = base !! "nextResultsToken".
Proof.
  intros Hs Ho H1 H3. unfold Py.update.
  destruct (build_search_loop_lookup default_key_prefix search_l 0 ∅ Hs)
    as (d1 & Hd1 & _ & Hout1).
  destruct (build_sort_loop_lookup sort_l 0 ∅ Ho) as (d3 & Hd3 & _ & Hout3).
  unfold _build_search_criteria, _build_sort_criteria in *.
  rewrite Hd1 in H1. rewrite Hd3 in H3. simplify_eq.
  rewrite lookup_union_r.
  2:{ rewrite Hout3; [done|]. intros n f _ _. discriminate. }
  rewrite lookup_union_r.
  2:{ unfold _build_selected_columns. rewrite build_columns_loop_other; [done|].
      intros j. discriminate. }
  rewrite lookup_union_r; [done|].
  rewrite Hout1; [done|]. intros n f _ _. discriminate.
Qed.

Lemma only_traced_refl (w : world) : only_traced w w.
Proof. repeat split. exists []. by rewrite app_nil_r. Qed.

Lemma only_traced_trans (w1 w2 w3 : world) :
  only_traced w1 w2 -> only_traced w2 w3 -> only_traced w1 w3.
Proof.
  intros (Hs & Hc & Hf & Hr & tl & Ht) (Hs' & Hc' & Hf' & Hr' & tl' & Ht').
  repeat split; try congruence.
  exists (tl ++ tl'). rewrite Ht', Ht. by rewrite app_assoc.
Qed.

Lemma get_effect (operation : string) (data : gmap string pyval) (w : world) :
  exists c,
    (forall k, k ∉ ["Operation"; "ContentType"; "customerInfo.customerId";
                    "customerInfo.deviceId"; "customerInfo.deviceType"] ->
               req_data c !! k = data !! k) /\
    store (_get operation data w).2 = store w /\
    config_file (_get operation data w).2 = config_file w /\
    self (_get operation data w).2 = self w /\
    rand_seq (_get operation data w).2 = rand_seq w /\
    trace (_get operation data w).2 = trace w ++ [Call c].
Proof.
  destruct (get_run operation data w) as (c & _ & Hc & ->).
  exists c. split; [exact Hc|]. cbn zeta.
  destruct (remote w) as [|[e|st result] rest]; [done..|].
  by destruct (negb (st =? 200)%Z).
Qed.

Lemma get_only_traced (operation : string) (data : gmap string pyval) (w : world) :
  only_traced w (_get operation data w).2.
Proof.
  destruct (get_effect operation data w) as (c & _ & ? & ? & ? & ? & ?).
  repeat split; try done. by exists [Call c].
Qed.

Lemma bind_only_traced {A B} (m : M A) (f : A -> M B) (w : world) :
  only_traced w (m w).2 ->
  (forall a w', only_traced w' (f a w').2) ->
  only_traced w (bind m f w).2.
Proof.
  intros Hm Hf. unfold bind. destruct (m w) as [[a|e|] w'] eqn:E; simpl in *.
  - eapply only_traced_trans; [exact Hm|apply Hf].
  - exact Hm.
  - exact Hm.
Qed.

Lemma lift_only_traced {A} (x : outcome A) (w : world) :
  only_traced w (lift x w).2.
Proof. apply only_traced_refl. Qed.

Lemma load_only_traced (l : loc) (w : world) : only_traced w (load l w).2.
Proof. unfold load. destruct (store w !! l); apply only_traced_refl. Qed.

Lemma yield_all_only_traced (cls : result_cls) (items : list pyval) (w : world) :
  only_traced w (yield_all cls items w).2.
Proof. rewrite yield_all_run. repeat split. by eexists. Qed.

Lemma ret_only_traced {A} (a : A) (w : world) : only_traced w (ret a w).2.
Proof. apply only_traced_refl. Qed.

Create HintDb traced.
#[local] Hint Resolve get_only_traced lift_only_traced load_only_traced
  yield_all_only_traced ret_only_traced only_traced_refl : traced.

Ltac traced :=
  repeat first
    [ progress cbv zeta
    | solve [auto with traced]
    | apply bind_only_traced; [|intros ? ?] ].

Lemma page_rest_only_traced (cls : result_cls) (result : pyval) (w : world) :
  only_traced w (page_rest cls result w).2.
Proof. unfold page_rest. traced. Qed.

Lemma search_page_only_traced rt cls search columns sort cur (w : world) :
  only_traced w (search_page rt cls search columns sort cur w).2.
Proof. unfold search_page. traced. Qed.

Lemma search_loop_only_traced rt cls search columns sort fuel : forall cur w,
  only_traced w (search_loop fuel rt cls search columns sort cur w).2.
Proof.
  induction fuel as [|fuel IH]; intros cur w; [apply only_traced_refl|].
  cbn [search_loop]. apply bind_only_traced.
  - apply search_page_only_traced.
  - intros tok w'. destruct (negb (Py.truthy tok)); [apply only_traced_refl|apply IH].
Qed.

(** Once the lists are read and encoded, a page is one [_get] and the
    handling of its answer. *)
Lemma search_page_get rt cls search columns sort cur (w : world) :
  encodable w search columns sort ->
  exists data,
    data !! "nextResultsToken" = Some cur /\
    search_page rt cls search columns sort cur w
    = bind (_get "searchLibrary" data) (page_rest cls) w.
Proof.
  intros (sl & cl & so & Hs & Hc & Ho & Hsok & Hook).
  destruct (build_search_loop_lookup default_key_prefix sl 0 ∅ Hsok)
    as (enc1 & He1 & _).
  destruct (build_sort_loop_lookup so 0 ∅ Hook) as (enc3 & He3 & _).
  exists (Py.update (Py.update (Py.update (page_base rt cur) enc1)
                       (_build_selected_columns cl)) enc3).
  split.
  - by rewrite (encoded_token sl cl so enc1 enc3 _ Hsok Hook He1 He3).
  - unfold search_page. cbv zeta.
    rewrite (bind_returned _ _ w w sl (load_run _ _ _ Hs)).
    rewrite (bind_returned _ _ w w enc1)
      by (unfold lift, _build_search_criteria; by rewrite He1).
    rewrite (bind_returned _ _ w w cl (load_run _ _ _ Hc)).
    rewrite (bind_returned _ _ w w so (load_run _ _ _ Ho)).
    rewrite (bind_returned _ _ w w enc3)
      by (unfold lift, _build_sort_criteria; by rewrite He3).
    reflexivity.
Qed.

Lemma token_not_identity :
  "nextResultsToken" ∉ ["Operation"; "ContentType"; "customerInfo.customerId";
                         "customerInfo.deviceId"; "customerInfo.deviceType"].
Proof. rewrite !not_elem_of_cons. repeat split; try done. apply not_elem_of_nil. Qed.

Lemma page_rest_run (cls : result_cls) (body : pyval) (env : gmap string pyval)
    (items : list pyval) (w : world) :
  is_page body env items ->
  page_rest cls body w =
  (Py.getitem (VDict env) "nextResultsToken",
   World (store w) (remote w) (trace w ++ yields cls items) (rand_seq w)
     (rand_pos w) (config_file w) (self w)).
Proof.
  intros (b & r & -> & Hb & Hr & He). unfold page_rest.
  rewrite (bind_returned _ _ w w (VDict env)).
  2:{ unfold lift. rewrite (get_payload_data_descend b _ _ _ Hb).
      by rewrite (get_payload_data_descend r _ _ _ Hr). }
  rewrite (bind_returned _ _ w w (VList items)).
  2:{ unfold lift. by rewrite (get_payload_data_descend env _ _ _ He). }
  rewrite (bind_returned _ _ w w items) by done.
  by rewrite (bind_returned _ _ _ _ tt (yield_all_run cls items w)).
Qed.

(** A page the remote answers well: the call carries the current token,
    every item is yielded, and the next token is read from the
    envelope. *)
Lemma search_page_ok rt cls search columns sort cur (w : world)
    (body : pyval) (env : gmap string pyval) (items : list pyval)
    (rest : list post_result) :
  encodable w search columns sort ->
  remote w = Response 200 body :: rest ->
  is_page body env items ->
  exists c,
    req_data c !! "nextResultsToken" = Some cur /\
    search_page rt cls search columns sort cur w
    = (Py.getitem (VDict env) "nextResultsToken", after_page c cls items rest w).
Proof.
  intros Henc Hrem Hpage.
  destruct (search_page_get rt cls search columns sort cur w Henc)
    as (data & Htok & ->).
  destruct (get_run "searchLibrary" data w) as (c & _ & Hc & Hrun).
  exists c. split; [by rewrite (Hc _ token_not_identity)|].
  unfold bind at 1. rewrite Hrun, Hrem. cbn zeta. cbn [Z.eqb Pos.eqb negb].
  rewrite (page_rest_run cls body env items _ Hpage).
  unfold after_page. cbn. by rewrite <-app_assoc.
Qed.

Lemma encodable_after_page c cls items rest (w : world) search columns sort :
  encodable w search columns sort ->
  encodable (after_page c cls items rest w) search columns sort.
Proof. done. Qed.

(** One turn of the loop on a page the remote answers well. *)
Lemma search_loop_page rt cls search columns sort cur (w : world)
    (body : pyval) (env : gmap string pyval) (items : list pyval)
    (rest : list post_result) :
  encodable w search columns sort ->
  remote w = Response 200 body :: rest ->
  is_page body env items ->
  exists c,
    req_data c !! "nextResultsToken" = Some cur /\
    forall fuel,
      search_loop (S fuel) rt cls search columns sort cur w =
      match env !! "nextResultsToken" with
      | None =>
          (Raised (KeyError (VStr "nextResultsToken")),
           after_page c cls items rest w)
      | Some tok =>
          if Py.truthy tok
          then search_loop fuel rt cls search columns sort tok
                 (after_page c cls items rest w)
          else (Returned tt, after_page c cls items rest w)
      end.
Proof.
  intros Henc Hrem Hpage.
  destruct (search_page_ok rt cls search columns sort cur w body env items rest
              Henc Hrem Hpage) as (c & Htok & Hrun).
  exists c. split; [exact Htok|]. intros fuel.
  cbn [search_loop]. unfold bind. rewrite Hrun. cbn [Py.getitem].
  destruct (env !! "nextResultsToken") as [tok|]; [|done].
  by destruct (Py.truthy tok).
Qed.

(** With fuel left and lists the encoders accept, the loop starts by
    calling the remote with the current token. *)
Lemma search_loop_calls rt cls search columns sort cur (w : world) (fuel : nat) :
  encodable w search columns sort ->
  exists c tl,
    req_data c !! "nextResultsToken" = Some cur /\
    trace (search_loop (S fuel) rt cls search columns sort cur w).2
    = trace w ++ Call c :: tl.
Proof.
  intros Henc.
  destruct (search_page_get rt cls search columns sort cur w Henc)
    as (data & Htok & Hpage).
  destruct (get_effect "searchLibrary" data w) as (c & Hc & _ & _ & _ & _ & Htr).
  assert (req_data c !! "nextResultsToken" = Some cur) as Hc'
    by (by rewrite (Hc _ token_not_identity)).
  assert (exists tl, trace (search_page rt cls search columns sort cur w).2
                     = trace w ++ Call c :: tl) as [tl Htl].
  { rewrite Hpage. unfold bind.
    destruct (_get "searchLibrary" data w) as [[result|e|] w1] eqn:E;
      cbn [snd] in *; [|exists []; by rewrite Htr..].
    destruct (page_rest_only_traced cls result w1) as (_ & _ & _ & _ & tl & ->).
    exists tl. rewrite Htr. by rewrite <-app_assoc. }
  cbn [search_loop]. unfold bind.
  destruct (search_page rt cls search columns sort cur w) as [[tok|e|] w1] eqn:E;
    cbn [snd] in *; [|exists c, tl; by split..].
  destruct (negb (Py.truthy tok)); [exists c, tl; by split|].
  destruct (search_loop_only_traced rt cls search columns sort fuel tok w1)
    as (_ & _ & _ & _ & tl' & ->).
  exists c, (tl ++ tl'). split; [done|].
  rewrite Htl. by rewrite <-app_assoc.
Qed.

Lemma is_page_page_body (items : list pyval) (token : option pyval) :
  is_page (page_body items token) (page_env items token) items.
Proof.
  eexists _, _. split; [reflexivity|]. split; [by simplify_map_eq|].
  split; [by simplify_map_eq|]. destruct token; by simplify_map_eq.
Qed.

Lemma demo_encodable (answers : list post_result) :
  encodable (demo_world answers) SONG_SEARCH Song_COLUMNS DEFAULT_SONG_SORT.
Proof.
  eexists _, _, _. repeat split; try reflexivity;
    repeat constructor; eexists; reflexivity.
Qed.

(** C7, as the code has it.  On a page the remote answers well, with an
    envelope [env] and [items]: the call carries the current token and
    every item is yielded; then, if [env] holds a [nextResultsToken]
    that is empty (any value Python takes for false), the search ends
    there without an error; if it holds one that is not, the loop goes
    on with it and its next event is a call with that token; if it holds
    none, a [KeyError] is raised once the items are yielded. *)
Theorem search_loop_token rt cls search columns sort cur (w : world)
    (body : pyval) (env : gmap string pyval) (items : list pyval)
    (rest : list post_result) (fuel : nat) :
  encodable w search columns sort ->
  remote w = Response 200 body :: rest ->
  is_page body env items ->
  exists c,
    req_data c !! "nextResultsToken" = Some cur /\
    (forall tok,
        env !! "nextResultsToken" = Some tok -> Py.truthy tok = false ->
        search_loop (S fuel) rt cls search columns sort cur w
        = (Returned tt, after_page c cls items rest w)) /\
    (forall tok,
        env !! "nextResultsToken" = Some tok -> Py.truthy tok = true ->
        search_loop (S (S fuel)) rt cls search columns sort cur w
        = search_loop (S fuel) rt cls search columns sort tok
            (after_page c cls items rest w) /\
        exists c' tl,
          req_data c' !! "nextResultsToken" = Some tok /\
          trace (search_loop (S (S fuel)) rt cls search columns sort cur w).2
          = trace w ++ Call c :: yields cls items ++ Call c' :: tl) /\
    (env !! "nextResultsToken" = None ->
     search_loop (S fuel) rt cls search columns sort cur w
     = (Raised (KeyError (VStr "nextResultsToken")),
        after_page c cls items rest w)).
Proof.
  intros Henc Hrem Hpage.
  destruct (search_loop_page rt cls search columns sort cur w body env items rest
              Henc Hrem Hpage) as (c & Htok & Hloop).
  exists c. split; [exact Htok|]. split; [|split].
  - intros tok He Hf. by rewrite Hloop, He, Hf.
  - intros tok He Ht.
    assert (search_loop (S (S fuel)) rt cls search columns sort cur w
            = search_loop (S fuel) rt cls search columns sort tok
                (after_page c cls items rest w)) as Hnext
      by (by rewrite Hloop, He, Ht).
    split; [exact Hnext|]. rewrite Hnext.
    destruct (search_loop_calls rt cls search columns sort tok
                (after_page c cls items rest w) fuel
                (encodable_after_page c cls items rest w _ _ _ Henc))
      as (c' & tl & Hc' & Htr).
    exists c', tl. split; [exact Hc'|]. rewrite Htr. cbn [after_page trace].
    by rewrite <-app_assoc.
  - intros He. by rewrite Hloop, He.
Qed.

Lemma search_loop_token_witness :
  exists c,
    req_data c !! "nextResultsToken" = Some (VStr "t1") /\
    search_loop 1 "TRACKS" Song SONG_SEARCH Song_COLUMNS DEFAULT_SONG_SORT
      (VStr "t1")
      (demo_world [Response 200 (page_body [VStr "a"; VStr "b"] (Some (VStr "")))])
    = (Returned tt,
       after_page c Song [VStr "a"; VStr "b"] []
         (demo_world
            [Response 200 (page_body [VStr "a"; VStr "b"] (Some (VStr "")))])).
Proof.
  destruct (search_loop_token "TRACKS" Song SONG_SEARCH Song_COLUMNS
              DEFAULT_SONG_SORT (VStr "t1")
              (demo_world
                 [Response 200 (page_body [VStr "a"; VStr "b"] (Some (VStr "")))])
              (page_body [VStr "a"; VStr "b"] (Some (VStr "")))
              (page_env [VStr "a"; VStr "b"] (Some (VStr "")))
              [VStr "a"; VStr "b"] [] 0)
    as (c & Hc & Hstop & _ & _).
  - apply demo_encodable.
  - reflexivity.
  - apply is_page_page_body.
  - exists c. split; [exact Hc|]. apply (Hstop (VStr "")); reflexivity.
Defined.

(** C7, as stated, fails for an absent token: on a page whose envelope
    has no [nextResultsToken] the two items are yielded and then a
    [KeyError] is raised. *)
Lemma search_library_absent_token_raises :
  let run :=
    _search_library 5 "TRACKS" "songs" Song SONG_SEARCH Song_COLUMNS
      DEFAULT_SONG_SORT
      (demo_world [Response 200 (page_body [VStr "a"; VStr "b"] None)]) in
  run.1 = Raised (KeyError (VStr "nextResultsToken")) /\
  yielded (trace run.2) = [Obj Song (VStr "a"); Obj Song (VStr "b")] /\
  run.1 <> Returned tt.
Proof. by vm_compute. Qed.

Lemma yielded_app (a b : list event) : yielded (a ++ b) = yielded a ++ yielded b.
Proof. apply omap_app. Qed.

Lemma calls_app (a b : list event) : calls (a ++ b) = calls a ++ calls b.
Proof. apply omap_app. Qed.

Lemma yielded_yields (cls : result_cls) (items : list pyval) :
  yielded (yields cls items) = Obj cls <$> items.
Proof.
  induction items as [|item rest IH]; [done|].
  change (Obj cls item :: yielded (yields cls rest) = Obj cls item :: (Obj cls <$> rest)).
  by rewrite IH.
Qed.

Lemma calls_yields (cls : result_cls) (items : list pyval) :
  calls (yields cls items) = [].
Proof. induction items as [|item rest IH]; [done|exact IH]. Qed.

Lemma yielded_page (c : request) (cls : result_cls) (items : list pyval)
    (tl : list event) :
  yielded (Call c :: yields cls items ++ tl) = (Obj cls <$> items) ++ yielded tl.
Proof.
  change (yielded (yields cls items ++ tl) = (Obj cls <$> items) ++ yielded tl).
  by rewrite yielded_app, yielded_yields.
Qed.

Lemma calls_page (c : request) (cls : result_cls) (items : list pyval)
    (tl : list event) :
  calls (Call c :: yields cls items ++ tl) = c :: calls tl.
Proof.
  change (c :: calls (yields cls items ++ tl) = c :: calls tl).
  by rewrite calls_app, calls_yields.
Qed.

(** C1.  Against a remote that answers three pages of 50, 50 and 7
    items whose envelopes carry the tokens [t1], [t2] and the empty
    string, [_search_library] returns after yielding the 107 items, page
    after page and in the order of each page; it makes three calls, with
    the empty token, with [t1] and with [t2], and leaves every further
    answer of the remote unasked. *)
Theorem search_library_three_pages rt rk cls search columns sort (w : world)
    (b1 b2 b3 : pyval) (env1 env2 env3 : gmap string pyval)
    (items1 items2 items3 : list pyval) (rest : list post_result) (fuel : nat) :
  encodable w search columns sort ->
  remote w = Response 200 b1 :: Response 200 b2 :: Response 200 b3 :: rest ->
  is_page b1 env1 items1 -> env1 !! "nextResultsToken" = Some (VStr "t1") ->
  is_page b2 env2 items2 -> env2 !! "nextResultsToken" = Some (VStr "t2") ->
  is_page b3 env3 items3 -> env3 !! "nextResultsToken" = Some (VStr "") ->
  length items1 = 50 -> length items2 = 50 -> length items3 = 7 ->
  3 <= fuel ->
  exists c1 c2 c3 w' tl,
    _search_library fuel rt rk cls search columns sort w = (Returned tt, w') /\
    trace w' = trace w ++ tl /\
    tl = Call c1 :: yields cls items1 ++ Call c2 :: yields cls items2
         ++ Call c3 :: yields cls items3 /\
    yielded tl = Obj cls <$> (items1 ++ items2 ++ items3) /\
    length (yielded tl) = 107 /\
    calls tl = [c1; c2; c3] /\
    req_data c1 !! "nextResultsToken" = Some (VStr "") /\
    req_data c2 !! "nextResultsToken" = Some (VStr "t1") /\
    req_data c3 !! "nextResultsToken" = Some (VStr "t2") /\
    remote w' = rest.
Proof.
  intros Henc Hrem Hp1 Ht1 Hp2 Ht2 Hp3 Ht3 Hl1 Hl2 Hl3 Hfuel.
  destruct fuel as [|[|[|fuel]]]; [lia..|].
  destruct (search_loop_page rt cls search columns sort (VStr "") w b1 env1
              items1 _ Henc Hrem Hp1) as (c1 & Hc1 & Hrun1).
  set (w1 := after_page c1 cls items1 (Response 200 b2 :: Response 200 b3 :: rest) w)
    in *.
  destruct (search_loop_page rt cls search columns sort (VStr "t1") w1 b2 env2
              items2 (Response 200 b3 :: rest) Henc eq_refl Hp2)
    as (c2 & Hc2 & Hrun2).
  set (w2 := after_page c2 cls items2 (Response 200 b3 :: rest) w1) in *.
  destruct (search_loop_page rt cls search columns sort (VStr "t2") w2 b3 env3
              items3 rest Henc eq_refl Hp3) as (c3 & Hc3 & Hrun3).
  exists c1, c2, c3, (after_page c3 cls items3 rest w2),
    (Call c1 :: yields cls items1 ++ Call c2 :: yields cls items2
     ++ Call c3 :: yields cls items3).
  split.
  { unfold _search_library. rewrite Hrun1, Ht1. cbn [Py.truthy String.length negb Nat.eqb].
    rewrite Hrun2, Ht2. cbn [Py.truthy String.length negb Nat.eqb].
    by rewrite Hrun3, Ht3. }
  split.
  { cbn [after_page trace w2 w1]. subst w2 w1. cbn [after_page trace].
    rewrite <-!app_assoc. reflexivity. }
  split; [done|].
  assert (yielded (Call c1 :: yields cls items1 ++ Call c2 :: yields cls items2
                   ++ Call c3 :: yields cls items3)
          = Obj cls <$> (items1 ++ items2 ++ items3)) as Hy.
  { rewrite !yielded_page.
    rewrite <-(app_nil_r (yields cls items3)). rewrite yielded_page.
    rewrite !fmap_app. by rewrite app_nil_r. }
  split; [exact Hy|]. split.
  { rewrite Hy. rewrite length_fmap, !length_app. lia. }
  split.
  { rewrite !calls_page. rewrite <-(app_nil_r (yields cls items3)).
    by rewrite calls_page. }
  done.
Qed.

Lemma search_library_three_pages_witness :
  exists w',
    _search_library 3 "TRACKS" "songs" Song SONG_SEARCH Song_COLUMNS
      DEFAULT_SONG_SORT (demo_world three_pages) = (Returned tt, w') /\
    length (yielded (trace w')) = 107 /\
    length (calls (trace w')) = 3 /\
    remote w' = [Response 200 (page_body [VStr "d"] (Some (VStr "t4")))].
Proof.
  destruct (search_library_three_pages "TRACKS" "songs" Song SONG_SEARCH
              Song_COLUMNS DEFAULT_SONG_SORT (demo_world three_pages)
              (page_body (replicate 50 (VStr "a")) (Some (VStr "t1")))
              (page_body (replicate 50 (VStr "b")) (Some (VStr "t2")))
              (page_body (replicate 7 (VStr "c")) (Some (VStr "")))
              (page_env (replicate 50 (VStr "a")) (Some (VStr "t1")))
              (page_env (replicate 50 (VStr "b")) (Some (VStr "t2")))
              (page_env (replicate 7 (VStr "c")) (Some (VStr "")))
              (replicate 50 (VStr "a")) (replicate 50 (VStr "b"))
              (replicate 7 (VStr "c"))
              [Response 200 (page_body [VStr "d"] (Some (VStr "t4")))] 3)
    as (c1 & c2 & c3 & w' & tl & Hrun & Htr & _ & _ & Hlen & Hcalls & _ & _ & _ & Hrem).
  - apply demo_encodable.
  - reflexivity.
  - apply is_page_page_body.
  - reflexivity.
  - apply is_page_page_body.
  - reflexivity.
  - apply is_page_page_body.
  - reflexivity.
  - reflexivity.
  - reflexivity.
  - reflexivity.
  - lia.
  - exists w'. split; [exact Hrun|]. rewrite Htr. cbn [demo_world initial_world trace app].
    split; [exact Hlen|]. split; [by rewrite Hcalls|exact Hrem].
Defined.

(** ** The class-level lists *)

Lemma store_after_search_subseteq (st : gmap loc (list pyval)) (defaults search : loc) :
  st ⊆ store_after_search st defaults search.
Proof.
  unfold store_after_search.
  destruct (st !! defaults); [|done]. destruct (st !! search); [|done].
  apply insert_subseteq. apply not_elem_of_dom, is_fresh.
Qed.

Lemma combined_search_store (defaults : loc) rt rk cls columns (fuel : nat)
    (search sort : loc) (w : world) :
  store (bind (list_add defaults search)
           (fun combined =>
              _search_library fuel rt rk cls combined columns sort) w).2
  = store_after_search (store w) defaults search.
Proof.
  unfold store_after_search, bind at 1, list_add, bind at 1, load at 1.
  destruct (store w !! defaults) as [d|]; [|done].
  unfold bind at 1, load at 1.
  destruct (store w !! search) as [s|]; [|done].
  unfold alloc.
  destruct (search_loop_only_traced rt cls (fresh (dom (store w))) columns sort
              fuel (VStr "") (set_store (insert (fresh (dom (store w))) (d ++ s)) w))
    as (Hst & _).
  unfold _search_library. by rewrite Hst.
Qed.

(** C10.  Whatever list the caller passes to [get_songs], [get_albums]
    or [get_artists], the class lists of search predicates and of sort
    orders, like every list object alive before the call, are the same
    after it: the combined criteria are a new list object, the
    concatenation of the class list and the caller's, so a later call
    reads the same defaults. *)
Theorem searches_keep_class_lists (fuel : nat) (search sort : loc) (w : world)
    (song_cols album_cols artist_cols : list pyval) :
  class_store song_cols album_cols artist_cols ⊆ store w ->
  (store (get_songs fuel search sort w).2
     = store_after_search (store w) SONG_SEARCH search /\
   store w ⊆ store (get_songs fuel search sort w).2 /\
   class_store song_cols album_cols artist_cols
     ⊆ store (get_songs fuel search sort w).2) /\
  (store (get_albums fuel search sort w).2
     = store_after_search (store w) ALBUM_SEARCH search /\
   store w ⊆ store (get_albums fuel search sort w).2 /\
   class_store song_cols album_cols artist_cols
     ⊆ store (get_albums fuel search sort w).2) /\
  (store (get_artists fuel search sort w).2
     = store_after_search (store w) ARTIST_SEARCH search /\
   store w ⊆ store (get_artists fuel search sort w).2 /\
   class_store song_cols album_cols artist_cols
     ⊆ store (get_artists fuel search sort w).2).
Proof.
  intros Hcls. unfold get_songs, get_albums, get_artists.
  rewrite !combined_search_store.
  repeat split; try apply store_after_search_subseteq;
    (etrans; [exact Hcls|apply store_after_search_subseteq]).
Qed.

Lemma searches_keep_class_lists_witness :
  store (get_songs 3 get_songs_search_default DEFAULT_SONG_SORT
           (demo_world three_pages)).2 !! SONG_SEARCH
  = Some [crit3 "keywords" "LIKE" "";
          crit3 "assetType" "EQUALS" "AUDIO";
          crit3 "status" "EQUALS" "AVAILABLE"].
Proof.
  destruct (searches_keep_class_lists 3 get_songs_search_default
              DEFAULT_SONG_SORT (demo_world three_pages)
              [VStr "title"] [VStr "albumName"] [VStr "name"])
    as ((_ & _ & Hcls) & _).
  - reflexivity.
  - eapply lookup_weaken; [|exact Hcls]. reflexivity.
Defined.

(** ** Logging in *)

Lemma match_vars_found (line : string) (vm : list (string * list re_atom)) :
  forall found av,
    (match_vars vm line found av).1
    = if matches_pattern vm line then S found else found.
Proof.
  induction vm as [|[key regex] vm IH]; intros found av; [done|].
  cbn [match_vars matches_pattern existsb snd].
  destruct (re_match regex line) as [g|] eqn:E.
  - by rewrite bool_decide_eq_true_2.
  - rewrite bool_decide_eq_false_2 by (by intros [? ?]). apply IH.
Qed.

Lemma match_vars_dom (line : string) (vm : list (string * list re_atom))
    (D : gset string) :
  Forall (fun kv => kv.1 ∈ D) vm ->
  forall found av, dom av = D -> dom (match_vars vm line found av).2 = D.
Proof.
  induction 1 as [|[key regex] vm Hkey Hvm IH]; intros found av Hav; [done|].
  cbn [match_vars]. destruct (re_match regex line) as [g|]; [|by apply IH].
  cbn [snd fst] in *. rewrite dom_insert_L, Hav.
  apply subseteq_union_1_L. by apply singleton_subseteq_l.
Qed.

Lemma vars_map_keys : Forall (fun kv => kv.1 ∈ dom initial_auth_vars) vars_map.
Proof.
  repeat constructor; apply elem_of_dom; eexists; reflexivity.
Qed.

Lemma size_auth_vars (av : gmap string pyval) :
  dom av = dom initial_auth_vars -> size av = 4.
Proof. intros H. rewrite <-size_dom, H, size_dom. reflexivity. Qed.

(** The scan counts the credential lines, and stops at four. *)
Lemma scan_lines_found (lines : list string) : forall found av,
  found < 4 ->
  dom av = dom initial_auth_vars ->
  (scan_lines lines found av).1
    = Nat.min 4 (found + length (filter (fun line => credential_line line = true) lines))
  /\ dom (scan_lines lines found av).2 = dom initial_auth_vars.
Proof.
  induction lines as [|line rest IH]; intros found av Hfound Hav.
  - cbn [scan_lines fst snd]. rewrite filter_nil. cbn [length].
    split; [lia|done].
  - cbn [scan_lines]. rewrite filter_cons.
    destruct (String.prefix "amznMusic." (strip line)) eqn:Hpre.
    + assert (credential_line line = matches_pattern vars_map (strip line)) as Hcl
        by (unfold credential_line; by rewrite Hpre).
      pose proof (match_vars_found (strip line) vars_map found av) as Hf.
      pose proof (match_vars_dom (strip line) vars_map _ vars_map_keys found av Hav)
        as Hd.
      destruct (match_vars vars_map (strip line) found av) as [found' av'].
      cbn [fst snd] in *. rewrite (size_auth_vars av' Hd).
      destruct (matches_pattern vars_map (strip line)); subst found'.
      * rewrite decide_True by done. cbn [length].
        destruct (S found =? 4)%nat eqn:E.
        -- apply Nat.eqb_eq in E. cbn [fst snd]. split; [lia|done].
        -- apply Nat.eqb_neq in E.
           destruct (IH (S found) av' ltac:(lia) Hd) as [-> ->].
           split; [f_equal; lia|done].
      * rewrite decide_False by (by rewrite Hcl).
        rewrite (proj2 (Nat.eqb_neq found 4)) by lia. by apply IH.
    + rewrite decide_False
        by (unfold credential_line; rewrite Hpre; by cbn [andb]).
      by apply IH.
Qed.









(** A login that cannot be serialized loses the configuration there
    was: the file is left empty, and a client constructed afterwards
    cannot load it. *)
Remark authenticate_empties_config :
  let before :=
    set_config_file
      (Some (JsonFile (credentials "C0" "T0" "D0" "Y0" (VStr "session-id=0"))))
      (demo_world []) in
  let run := authenticate "user" "secret" browser_bad_cookie before in
  run.1 = Raised (UnicodeDecodeError "utf8") /\
  config_file run.2 = Some EmptyFile /\
  (__init__ run.2).1 = Raised (ValueError "No JSON object could be decoded").
Proof. by vm_compute. Qed.

(** The scan counts lines, not variables: a page that sets one variable
    twice and leaves [dtid] out is taken for a login, and [device_type]
    is stored as [None]. *)
Remark authenticate_counts_lines :
  let run := authenticate "user" "secret" browser_repeated_field (demo_world []) in
  run.1 = Returned true /\
  device_type (self run.2) = VNone /\
  customer_id (self run.2) = VStr "C1".
Proof. by vm_compute. Qed.

(** * Further properties *)

Lemma indexed_key_inj (p : string) (i j : nat) :
  p +:+ pretty i = p +:+ pretty j -> i = j.
Proof. intros Heq. apply (inj (String.append p)) in Heq. by apply (inj pretty) in Heq. Qed.

Lemma build_columns_loop_below (columns : list pyval) : forall i d j,
  j <= i ->
  build_columns_loop i columns d !! ("selectedColumns.member." +:+ pretty j)
  = d !! ("selectedColumns.member." +:+ pretty j).
Proof.
  induction columns as [|item rest IH]; intros i d j Hj; [done|].
  cbn [build_columns_loop]. rewrite IH by lia.
  rewrite lookup_insert_ne; [done|]. intros ?%indexed_key_inj. lia.
Qed.

Lemma build_columns_loop_lookup (columns : list pyval) : forall i d,
  (forall j, i < j -> d !! ("selectedColumns.member." +:+ pretty j) = None) ->
  size (build_columns_loop i columns d) = size d + length columns /\
  (forall n item, columns !! n = Some item ->
     build_columns_loop i columns d !! ("selectedColumns.member." +:+ pretty (i + n + 1))
     = Some item).
Proof.
  induction columns as [|item rest IH]; intros i d Hd.
  - cbn. split; [lia|]. by intros n item Hn.
  - cbn [build_columns_loop length].
    destruct (IH (S i) (<["selectedColumns.member." +:+ pretty (i + 1) := item]> d))
      as [Hsize Hin].
    { intros j Hj. rewrite lookup_insert_ne.
      - apply Hd. lia.
      - intros ?%indexed_key_inj. lia. }
    split.
    + rewrite Hsize, map_size_insert_None by (apply Hd; lia). lia.
    + intros [|n] it Hn.
      * cbn in Hn. simplify_eq. rewrite Nat.add_0_r.
        rewrite build_columns_loop_below by lia. by rewrite lookup_insert_eq.
      * replace (i + S n + 1) with (S i + n + 1) by lia. by apply Hin.
Qed.

Lemma build_columns_loop_outside (columns : list pyval) : forall i d k,
  (forall n, n < length columns ->
             k <> "selectedColumns.member." +:+ pretty (i + n + 1)) ->
  build_columns_loop i columns d !! k = d !! k.
Proof.
  induction columns as [|item rest IH]; intros i d k Hk; [done|].
  cbn [build_columns_loop]. rewrite IH.
  - rewrite lookup_insert_ne; [done|]. intros <-.
    apply (Hk 0); [cbn; lia|]. by rewrite Nat.add_0_r.
  - intros n Hn. replace (S i + n + 1) with (i + S n + 1) by lia.
    apply Hk. cbn. lia.
Qed.

(** X1.  [_build_selected_columns] binds one key per column, in order
    and from index 1, and nothing else; no column is refused. *)
Theorem build_selected_columns_keys (columns : list pyval) :
  size (_build_selected_columns columns) = length columns /\
  (forall n item,
     columns !! n = Some item ->
     _build_selected_columns columns !! ("selectedColumns.member." +:+ pretty (n + 1))
     = Some item) /\
  (forall k,
     (forall n, n < length columns ->
                k <> "selectedColumns.member." +:+ pretty (n + 1)) ->
     _build_selected_columns columns !! k = None).
Proof.
  unfold _build_selected_columns.
  destruct (build_columns_loop_lookup columns 0 ∅) as [Hsize Hin].
  { intros j _. apply lookup_empty. }
  split; [by rewrite Hsize, map_size_empty|]. split; [exact Hin|].
  intros k Hk. rewrite build_columns_loop_outside; [apply lookup_empty|exact Hk].
Qed.

Lemma build_selected_columns_keys_witness :
  size (_build_selected_columns [VStr "title"; VStr "albumName"]) = 2 /\
  _build_selected_columns [VStr "title"; VStr "albumName"]
    !! "selectedColumns.member.2" = Some (VStr "albumName").
Proof.
  destruct (build_selected_columns_keys [VStr "title"; VStr "albumName"])
    as (Hsize & Hin & _).
  split; [exact Hsize|]. exact (Hin 1 (VStr "albumName") eq_refl).
Defined.




Lemma build_sort_loop_short (pre : list pyval) : forall i d l post,
  Forall (fun item => is_Some (sort_criterion_fields item)) pre ->
  length l < 2 ->
  build_sort_loop i (pre ++ VTuple l :: post) d
  = Raised (IndexError "tuple index out of range").
Proof.
  induction pre as [|item pre IH]; intros i d l post Hok Hl.
  - destruct l as [|a [|b l]]; [done|done|cbn in Hl; lia].
  - inversion Hok as [|?? [[column direction] Hf] Hrest]; subst.
    rewrite <-app_comm_cons.
    rewrite (build_sort_loop_step i item _ d _ _ Hf). by apply IH.
Qed.

(** X3.  [_build_sort_criteria] raises [IndexError] at the first sort
    criterion that is a tuple of fewer than two fields. *)
Theorem build_sort_criteria_short_tuple (pre post : list pyval) (l : list pyval) :
  Forall (fun item => is_Some (sort_criterion_fields item)) pre ->
  length l < 2 ->
  _build_sort_criteria (pre ++ VTuple l :: post)
  = Raised (IndexError "tuple index out of range").
Proof. intros. by apply build_sort_loop_short. Qed.

Lemma build_sort_criteria_short_tuple_witness :
  _build_sort_criteria [crit2 "discNum" "ASC"; VTuple [VStr "trackNum"]]
  = Raised (IndexError "tuple index out of range").
Proof.
  apply (build_sort_criteria_short_tuple [crit2 "discNum" "ASC"] []
           [VStr "trackNum"]).
  - repeat constructor; eexists; reflexivity.
  - simpl. lia.
Defined.

(** ** Payload navigation, in general *)

Lemma get_payload_data_app_run (keys1 keys2 : list string) : forall data,
  _get_payload_data data (keys1 ++ keys2)
  = (inner ←! _get_payload_data data keys1; _get_payload_data inner keys2).
Proof.
  induction keys1 as [|key keys1 IH]; intros data; [done|].
  cbn [app _get_payload_data].
  destruct (Py.contains data key) as [[|]| |]; cbn [obind negb]; [|done..].
  destruct (Py.getitem data key) as [data'| |]; cbn [obind]; [apply IH|done..].
Qed.

Lemma descend_run (keys : list string) : forall data v,
  descend data keys = Some v -> _get_payload_data data keys = Returned v.
Proof.
  induction keys as [|k ks IH]; intros d v Hd.
  - cbn in Hd. by simplify_eq.
  - cbn [descend] in Hd. destruct d as [| | | | | |m]; try done.
    destruct (m !! k) as [x|] eqn:E; [|done].
    rewrite (get_payload_data_descend m k x ks E). by apply IH.
Qed.

(** X4.  Navigating a path in two legs is navigating it whole; this is
    how [_search_library] reads the item list, one level inside the
    envelope it has extracted. *)
Theorem get_payload_data_app (keys1 keys2 : list string) (data : pyval) :
  _get_payload_data data (keys1 ++ keys2)
  = (inner ←! _get_payload_data data keys1; _get_payload_data inner keys2).
Proof. apply get_payload_data_app_run. Qed.

(** X5.  A path that exists through nested mappings gives the value at
    its end; a path that reaches a mapping without the next key ends in
    the [TypeError] of the [RequestError] constructor, at whatever depth
    the key is missing and whatever follows it. *)
Theorem get_payload_data_descend_all (data : pyval) (keys : list string) :
  (forall v, descend data keys = Some v -> _get_payload_data data keys = Returned v) /\
  (forall pre key post m,
     keys = pre ++ key :: post ->
     descend data pre = Some (VDict m) -> m !! key = None ->
     _get_payload_data data keys
     = Raised (TypeError "__init__() takes exactly 3 arguments (2 given)")).
Proof.
  split; [apply descend_run|].
  intros pre key post m -> Hpre Hkey.
  rewrite get_payload_data_app_run, (descend_run pre data _ Hpre).
  cbn [obind _get_payload_data].
  by rewrite (contains_dict_absent m key Hkey).
Qed.

Lemma get_payload_data_descend_all_witness :
  _get_payload_data (page_body [VStr "a"] None)
    ["searchLibraryResponse"; "searchLibraryResult"; "searchReturnItemList"]
    = Returned (VList [VStr "a"]) /\
  _get_payload_data (page_body [VStr "a"] None)
    ["searchLibraryResponse"; "searchLibraryResult"; "nextResultsToken"; "more"]
    = Raised (TypeError "__init__() takes exactly 3 arguments (2 given)").
Proof.
  split.
  - apply (proj1 (get_payload_data_descend_all (page_body [VStr "a"] None)
                    ["searchLibraryResponse"; "searchLibraryResult";
                     "searchReturnItemList"])).
    reflexivity.
  - apply (proj2 (get_payload_data_descend_all (page_body [VStr "a"] None)
                    ["searchLibraryResponse"; "searchLibraryResult";
                     "nextResultsToken"; "more"])
             ["searchLibraryResponse"; "searchLibraryResult"] "nextResultsToken"
             ["more"] (page_env [VStr "a"] None));
      reflexivity.
Defined.

(** X6.  Whatever the data and the path, [_get_payload_data] returns a
    value or raises a [TypeError]: it never raises a [RequestError], and
    never a [KeyError]. *)
Theorem get_payload_data_outcomes (keys : list string) : forall data,
  (exists v, _get_payload_data data keys = Returned v) \/
  (exists msg, _get_payload_data data keys = Raised (TypeError msg)).
Proof.
  induction keys as [|key keys IH]; intros data; [left; by eexists|].
  destruct data as [|b|z|s|l|l|m].
  1-3: right; by eexists.
  - cbn [_get_payload_data Py.contains obind].
    destruct (Py.substring_of key s); cbn [negb]; right; by eexists.
  - cbn [_get_payload_data Py.contains obind].
    destruct (existsb _ l); cbn [negb]; right; by eexists.
  - cbn [_get_payload_data Py.contains obind].
    destruct (existsb _ l); cbn [negb]; right; by eexists.
  - destruct (m !! key) as [x|] eqn:E.
    + rewrite (get_payload_data_descend m key x keys E). apply IH.
    + cbn [_get_payload_data]. rewrite (contains_dict_absent m key E).
      right. by eexists.
Qed.

(** ** The request dispatcher, in general *)

Lemma get_request (operation : string) (data : gmap string pyval) (w : world) :
  exists c,
    req_url c = API_URL /\
    req_data c
    = Py.update data
        (<["Operation" := VStr operation]>
        (<["ContentType" := VStr "JSON"]>
        (<["customerInfo.customerId" := customer_id (self w)]>
        (<["customerInfo.deviceId" := device_id (self w)]>
        (<["customerInfo.deviceType" := device_type (self w)]> ∅))))) /\
    req_headers c
    = <["x-amzn-RequestId" :=
          VStr (make_request_id_of (nth_draw w 0) (nth_draw w 1) (nth_draw w 2)
                  (nth_draw w 3) (nth_draw w 4) (nth_draw w 5) (nth_draw w 6))]>
      (<["x-adp-token" := adp_token (self w)]>
      (<["x-RequestedWith" := VStr "XMLHttpRequest"]>
      (<["User-Agent" := VStr USER_AGENT]>
      (<["Referer" := VStr REFERER]>
      (<["Origin" := VStr ORIGIN]>
      (<["Cookie" := cookies (self w)]>
      (<["Host" := VStr "www.amazon.com"]> ∅))))))) /\
    _get operation data w =
    let w1 := log_event (Call c) (set_rand_pos (rand_pos w + 7) w) in
    match remote w with
    | [] => (Raised (ConnectionError "no answer"), w1)
    | PostRaises e :: rest => (Raised e, set_remote rest w1)
    | Response st result :: rest =>
        if negb (st =? 200)%Z then
          ((error ←! Py.getitem result "Error";
            msg ←! Py.getitem error "Message";
            code ←! Py.getitem error "Code";
            raise_RequestError [msg; code]), set_remote rest w1)
        else (Returned result, set_remote rest w1)
    end.
Proof.
  eexists (Request _ _ _). split; [reflexivity|]. split; [reflexivity|].
  split; [reflexivity|].
  unfold _get. unfold bind at 1. rewrite make_request_id_run.
  unfold bind at 1. unfold get_self at 1. cbn [self set_rand_pos].
  unfold bind at 1. unfold post. cbn [remote log_event set_rand_pos].
  destruct (remote w) as [|[e|st result] rest]; [reflexivity..|].
  cbn [fst snd]. destruct (negb (st =? 200)%Z); [|reflexivity].
  unfold bind, lift.
  destruct (Py.getitem result "Error") as [error| |]; cbn [obind]; try reflexivity.
  destruct (Py.getitem error "Message") as [msg| |]; cbn [obind]; try reflexivity.
  destruct (Py.getitem error "Code") as [code| |]; cbn [obind]; reflexivity.
Qed.

(** X7.  Whatever the remote answers, one [_get] makes exactly one call,
    to the API address; its parameters are the caller's, except that the
    operation, the content type and the three identity fields of the
    client are set over them; it carries the eight headers, with a
    request identifier made of the next seven random integers, the
    token and the cookies of the client. *)
Theorem get_sends_one_request (operation : string) (data : gmap string pyval)
    (w : world) :
  exists c,
    trace (_get operation data w).2 = trace w ++ [Call c] /\
    remote (_get operation data w).2 = tail (remote w) /\
    rand_pos (_get operation data w).2 = rand_pos w + 7 /\
    req_url c = API_URL /\
    req_data c !! "Operation" = Some (VStr operation) /\
    req_data c !! "ContentType" = Some (VStr "JSON") /\
    req_data c !! "customerInfo.customerId" = Some (customer_id (self w)) /\
    req_data c !! "customerInfo.deviceId" = Some (device_id (self w)) /\
    req_data c !! "customerInfo.deviceType" = Some (device_type (self w)) /\
    (forall k, k ∉ identity_keys -> req_data c !! k = data !! k) /\
    dom (req_headers c) = list_to_set header_names /\
    req_headers c !! "x-amzn-RequestId"
      = Some (VStr (make_request_id_of (nth_draw w 0) (nth_draw w 1)
                      (nth_draw w 2) (nth_draw w 3) (nth_draw w 4)
                      (nth_draw w 5) (nth_draw w 6))) /\
    req_headers c !! "x-adp-token" = Some (adp_token (self w)) /\
    req_headers c !! "Cookie" = Some (cookies (self w)).
Proof.
  destruct (get_request operation data w) as (c & Hurl & Hdata & Hhead & Hrun).
  exists c. rewrite Hrun. cbn zeta.
  split; [|split; [|split]].
  - destruct (remote w) as [|[e|st result] rest]; [reflexivity..|].
    destruct (negb (st =? 200)%Z); reflexivity.
  - destruct (remote w) as [|[e|st result] rest] eqn:E; cbn; rewrite ?E;
      [reflexivity..|].
    destruct (negb (st =? 200)%Z); reflexivity.
  - destruct (remote w) as [|[e|st result] rest]; [reflexivity..|].
    destruct (negb (st =? 200)%Z); reflexivity.
  - rewrite Hdata, Hhead. unfold Py.update.
    split; [exact Hurl|].
    repeat (split; [by simplify_map_eq|]).
    split.
    { intros k Hk. rewrite lookup_union_r; [done|].
      rewrite !lookup_insert_ne; [apply lookup_empty|..];
        intros <-; apply Hk; unfold identity_keys; repeat constructor. }
    split.
    { rewrite !dom_insert_L, dom_empty_L. unfold header_names. cbn [list_to_set].
      reflexivity. }
    repeat split; by simplify_map_eq.
Qed.

Lemma get_sends_one_request_witness :
  exists c,
    trace (_get "getStreamUrls" {["ContentType" := VStr "XML"]}
             (demo_world [])).2 = [Call c] /\
    req_data c !! "ContentType" = Some (VStr "JSON") /\
    req_headers c !! "x-amzn-RequestId"
      = Some (VStr "00000000-0000-dmcp-0000-000000000000").
Proof.
  destruct (get_sends_one_request "getStreamUrls" {["ContentType" := VStr "XML"]}
              (demo_world []))
    as (c & Htr & _ & _ & _ & _ & Hct & _ & _ & _ & _ & _ & Hid & _).
  exists c. split; [exact Htr|]. split; [exact Hct|exact Hid].
Defined.

(** X8.  What [_get] does with the other answers: an exception of the
    transport reaches the caller as it is; an answer whose status is not
    200 is never returned as a result, and when its body is a mapping
    without [Error] the caller gets a [KeyError], not a
    [RequestError]. *)
Theorem get_failures (operation : string) (data : gmap string pyval) (w : world) :
  (forall e rest,
     remote w = PostRaises e :: rest -> (_get operation data w).1 = Raised e) /\
  (forall st body rest,
     remote w = Response st body :: rest -> st <> 200%Z ->
     forall v, (_get operation data w).1 <> Returned v) /\
  (forall st b rest,
     remote w = Response st (VDict b) :: rest -> st <> 200%Z ->
     b !! "Error" = None ->
     (_get operation data w).1 = Raised (KeyError (VStr "Error"))).
Proof.
  destruct (get_run operation data w) as (c & _ & _ & ->). cbn zeta.
  split; [|split].
  - intros e rest ->. reflexivity.
  - intros st body rest -> Hst v. rewrite (proj2 (Z.eqb_neq st 200) Hst).
    cbn [negb fst].
    destruct (Py.getitem body "Error") as [error| |]; cbn [obind]; try done.
    destruct (Py.getitem error "Message") as [msg| |]; cbn [obind]; try done.
    destruct (Py.getitem error "Code") as [code| |]; cbn [obind]; done.
  - intros st b rest -> Hst Hb. rewrite (proj2 (Z.eqb_neq st 200) Hst).
    cbn [negb fst Py.getitem]. by rewrite Hb.
Qed.

Lemma get_failures_witness :
  (_get "searchLibrary" ∅
     (initial_world ∅ [PostRaises (ConnectionError "refused")] (fun _ => 65536%Z))).1
    = Raised (ConnectionError "refused") /\
  (_get "searchLibrary" ∅
     (initial_world ∅ [Response 503 (VDict ∅)] (fun _ => 65536%Z))).1
    = Raised (KeyError (VStr "Error")).
Proof.
  split.
  - apply (proj1 (get_failures "searchLibrary" ∅
             (initial_world ∅ [PostRaises (ConnectionError "refused")]
                (fun _ => 65536%Z))) (ConnectionError "refused") []).
    reflexivity.
  - apply (proj2 (proj2 (get_failures "searchLibrary" ∅
             (initial_world ∅ [Response 503 (VDict ∅)] (fun _ => 65536%Z))))
             503%Z ∅ []); [reflexivity|lia|reflexivity].
Defined.

(** ** Searches of any length *)

Lemma last_token_cons (cur : pyval) (p : page) (pages : list page) :
  last_token cur (p :: pages) = last_token (page_token p) pages.
Proof.
  unfold last_token. destruct pages as [|q pages]; [reflexivity|].
  cbn [fmap list_fmap]. rewrite last_cons_cons.
  generalize (page_token <$> pages). intros toks.
  destruct (proj2 (last_is_Some (page_token q :: toks)) ltac:(done)) as [t ->].
  reflexivity.
Qed.

(** A run of pages that all carry a token that is not empty. *)
Lemma search_loop_pages rt cls search columns sort (rest : list post_result)
    (pages : list page) : forall cur (w : world),
  encodable w search columns sort ->
  Forall good_page pages ->
  Forall (fun p => Py.truthy (page_token p) = true) pages ->
  remote w = answers pages ++ rest ->
  exists w' tl,
    (forall fuel,
       search_loop (length pages + fuel) rt cls search columns sort cur w
       = search_loop fuel rt cls search columns sort (last_token cur pages) w') /\
    trace w' = trace w ++ tl /\
    remote w' = rest /\
    encodable w' search columns sort /\
    yielded tl = Obj cls <$> all_items pages /\
    call_tokens tl = Some <$> take (length pages) (cur :: (page_token <$> pages)).
Proof.
  induction pages as [|p pages IH]; intros cur w Henc Hgood Htruthy Hrem.
  - exists w, []. rewrite app_nil_r. by repeat split.
  - inversion Hgood as [|?? [Hpage Htok] Hgood']; subst.
    inversion Htruthy as [|?? Ht Htruthy']; subst.
    destruct (search_loop_page rt cls search columns sort cur w (page_answer p)
                (page_envelope p) (page_items p) (answers pages ++ rest)
                Henc Hrem Hpage) as (c & Hc & Hstep).
    destruct (IH (page_token p)
                (after_page c cls (page_items p) (answers pages ++ rest) w)
                (encodable_after_page c cls _ _ w _ _ _ Henc) Hgood' Htruthy'
                eq_refl) as (w' & tl & Hrun & Htr & Hrem' & Henc' & Hy & Hcalls).
    exists w', (Call c :: yields cls (page_items p) ++ tl).
    split; [|split; [|split; [|split; [|split]]]]; try done.
    + intros fuel. cbn [length Nat.add]. rewrite Hstep, Htok, Ht.
      rewrite Hrun. by rewrite last_token_cons.
    + rewrite Htr. cbn [after_page trace]. by rewrite <-app_assoc.
    + rewrite yielded_page, Hy. unfold all_items. cbn [fmap list_fmap concat].
      by rewrite fmap_app.
    + unfold call_tokens in *. rewrite calls_page. cbn [fmap list_fmap length take].
      by rewrite Hcalls, Hc.
Qed.

(** A whole search, from the first call to the page whose token is empty. *)
Lemma search_library_pages_run rt rk cls search columns sort (w : world)
    (pages : list page) (final : page) (rest : list post_result) (fuel : nat) :
  encodable w search columns sort ->
  Forall good_page (pages ++ [final]) ->
  Forall (fun p => Py.truthy (page_token p) = true) pages ->
  Py.truthy (page_token final) = false ->
  remote w = answers (pages ++ [final]) ++ rest ->
  length pages < fuel ->
  exists w' tl,
    _search_library fuel rt rk cls search columns sort w = (Returned tt, w') /\
    trace w' = trace w ++ tl /\
    yielded tl = Obj cls <$> all_items (pages ++ [final]) /\
    call_tokens tl = Some <$> (VStr "" :: (page_token <$> pages)) /\
    remote w' = rest.
Proof.
  intros Henc Hgood Htruthy Hfinal Hrem Hfuel.
  apply Forall_app in Hgood as [Hgood Hlast].
  inversion Hlast as [|?? [Hpage Htok] _]; subst.
  unfold answers in Hrem. rewrite fmap_app, <-app_assoc in Hrem.
  destruct (search_loop_pages rt cls search columns sort _ pages (VStr "") w
              Henc Hgood Htruthy Hrem)
    as (w1 & tl & Hrun & Htr & Hrem1 & Henc1 & Hy & Hcalls).
  destruct (search_loop_page rt cls search columns sort
              (last_token (VStr "") pages) w1 (page_answer final)
              (page_envelope final) (page_items final) rest Henc1 Hrem1 Hpage)
    as (c & Hc & Hstep).
  exists (after_page c cls (page_items final) rest w1),
    (tl ++ Call c :: yields cls (page_items final)).
  split; [|split; [|split; [|split]]].
  - unfold _search_library.
    replace fuel with (length pages + S (fuel - S (length pages))) by lia.
    by rewrite Hrun, Hstep, Htok, Hfinal.
  - cbn [after_page trace]. rewrite Htr. by rewrite <-app_assoc.
  - rewrite yielded_app, Hy. rewrite <-(app_nil_r (yields cls (page_items final))).
    rewrite yielded_page. unfold all_items.
    rewrite fmap_app, concat_app, fmap_app. cbn. by rewrite !app_nil_r.
  - unfold call_tokens in *. rewrite calls_app, fmap_app, Hcalls.
    rewrite <-(app_nil_r (yields cls (page_items final))), calls_page.
    cbn [fmap list_fmap calls omap]. rewrite Hc.
    clear. generalize (VStr "") as cur.
    induction pages as [|p pages IH]; intros cur; [done|].
    rewrite last_token_cons. cbn [length take fmap list_fmap app]. f_equal.
    apply IH.
  - done.
Qed.

(** X9.  A search runs as long as the remote hands out tokens: for any
    number of answered pages whose tokens are not empty, followed by one
    whose token is empty, [_search_library] returns after yielding the
    items of all of them in order; call after call it sends the empty
    token and then the token of the page before, and it asks nothing
    after the last page. *)
Theorem search_library_all_pages rt rk cls search columns sort (w : world)
    (pages : list page) (final : page) (rest : list post_result) (fuel : nat) :
  encodable w search columns sort ->
  Forall good_page (pages ++ [final]) ->
  Forall (fun p => Py.truthy (page_token p) = true) pages ->
  Py.truthy (page_token final) = false ->
  remote w = answers (pages ++ [final]) ++ rest ->
  length pages < fuel ->
  exists w' tl,
    _search_library fuel rt rk cls search columns sort w = (Returned tt, w') /\
    trace w' = trace w ++ tl /\
    yielded tl = Obj cls <$> all_items (pages ++ [final]) /\
    call_tokens tl = Some <$> (VStr "" :: (page_token <$> pages)) /\
    remote w' = rest.
Proof. apply search_library_pages_run. Qed.

Lemma search_library_all_pages_witness :
  exists w',
    _search_library 3 "ALBUMS" "albums" Album SONG_SEARCH Song_COLUMNS
      DEFAULT_SONG_SORT
      (demo_world (answers [demo_page [VStr "a"; VStr "b"] (VStr "t1");
                            demo_page [] (VStr "t2");
                            demo_page [VStr "c"] VNone]))
    = (Returned tt, w') /\
    yielded (trace w') = [Obj Album (VStr "a"); Obj Album (VStr "b");
                          Obj Album (VStr "c")] /\
    call_tokens (trace w') = [Some (VStr ""); Some (VStr "t1"); Some (VStr "t2")].
Proof.
  destruct (search_library_all_pages "ALBUMS" "albums" Album SONG_SEARCH
              Song_COLUMNS DEFAULT_SONG_SORT
              (demo_world (answers [demo_page [VStr "a"; VStr "b"] (VStr "t1");
                                    demo_page [] (VStr "t2");
                                    demo_page [VStr "c"] VNone]))
              [demo_page [VStr "a"; VStr "b"] (VStr "t1"); demo_page [] (VStr "t2")]
              (demo_page [VStr "c"] VNone) [] 3)
    as (w' & tl & Hrun & Htr & Hy & Hcalls & _).
  - apply demo_encodable.
  - repeat constructor; apply is_page_page_body.
  - repeat constructor.
  - reflexivity.
  - reflexivity.
  - simpl. lia.
  - exists w'. split; [exact Hrun|]. rewrite Htr.
    split; [exact Hy|exact Hcalls].
Defined.

(** A call the remote rejects ends the loop with the exception. *)
Lemma search_loop_rejected rt cls search columns sort cur (w : world)
    (a : post_result) (e : exn) (rest : list post_result) :
  encodable w search columns sort ->
  remote w = a :: rest ->
  rejects a e ->
  exists c,
    req_data c !! "nextResultsToken" = Some cur /\
    forall fuel,
      search_loop (S fuel) rt cls search columns sort cur w
      = (Raised e,
         set_remote rest (log_event (Call c) (set_rand_pos (rand_pos w + 7) w))).
Proof.
  intros Henc Hrem Hrej.
  destruct (search_page_get rt cls search columns sort cur w Henc)
    as (data & Htok & Hpage).
  destruct (get_run "searchLibrary" data w) as (c & _ & Hc & Hrun).
  exists c. split; [by rewrite (Hc _ token_not_identity)|].
  intros fuel. cbn [search_loop]. unfold bind at 1. rewrite Hpage.
  unfold bind at 1. rewrite Hrun, Hrem. cbn zeta.
  destruct Hrej as [e|st b er msg code Hst Hb Hmsg Hcode]; [reflexivity|].
  rewrite (proj2 (Z.eqb_neq st 200) Hst). cbn [negb Py.getitem].
  rewrite Hb. cbn [obind Py.getitem]. rewrite Hmsg. cbn [obind]. by rewrite Hcode.
Qed.

(** X10.  When the remote rejects a call in the middle of a search,
    after any number of answered pages, the exception reaches the
    consumer once the items of those pages have been yielded, and no
    call follows the rejected one. *)
Theorem search_library_rejected rt rk cls search columns sort (w : world)
    (pages : list page) (a : post_result) (e : exn) (rest : list post_result)
    (fuel : nat) :
  encodable w search columns sort ->
  Forall good_page pages ->
  Forall (fun p => Py.truthy (page_token p) = true) pages ->
  rejects a e ->
  remote w = answers pages ++ a :: rest ->
  length pages < fuel ->
  exists w' tl,
    _search_library fuel rt rk cls search columns sort w = (Raised e, w') /\
    trace w' = trace w ++ tl /\
    yielded tl = Obj cls <$> all_items pages /\
    length (calls tl) = S (length pages) /\
    remote w' = rest.
Proof.
  intros Henc Hgood Htruthy Hrej Hrem Hfuel.
  destruct (search_loop_pages rt cls search columns sort _ pages (VStr "") w
              Henc Hgood Htruthy Hrem)
    as (w1 & tl & Hrun & Htr & Hrem1 & Henc1 & Hy & Hcalls).
  destruct (search_loop_rejected rt cls search columns sort
              (last_token (VStr "") pages) w1 a e rest Henc1 Hrem1 Hrej)
    as (c & Hc & Hstep).
  eexists _, (tl ++ [Call c]).
  split; [|split; [|split; [|split]]].
  - unfold _search_library.
    replace fuel with (length pages + S (fuel - S (length pages))) by lia.
    rewrite Hrun, Hstep. reflexivity.
  - cbn. rewrite Htr. by rewrite <-app_assoc.
  - rewrite yielded_app, Hy. cbn. by rewrite app_nil_r.
  - rewrite calls_app, length_app. cbn [calls omap length].
    apply (f_equal length) in Hcalls. unfold call_tokens in Hcalls.
    rewrite !length_fmap in Hcalls. rewrite Hcalls.
    rewrite length_take. cbn [length]. rewrite length_fmap.
    change (length (calls [Call c])) with 1. lia.
  - reflexivity.
Qed.

Lemma search_library_rejected_witness :
  exists w',
    _search_library 5 "TRACKS" "songs" Song SONG_SEARCH Song_COLUMNS
      DEFAULT_SONG_SORT
      (demo_world (answers [demo_page [VStr "a"; VStr "b"] (VStr "t1")]
                   ++ [Response 400 (error_body "Rate exceeded" "Throttling");
                       Response 200 (page_body [VStr "z"] (Some (VStr "")))]))
    = (Raised (RequestError (VStr "Rate exceeded") (VStr "Throttling")), w') /\
    yielded (trace w') = [Obj Song (VStr "a"); Obj Song (VStr "b")] /\
    remote w' = [Response 200 (page_body [VStr "z"] (Some (VStr "")))].
Proof.
  destruct (search_library_rejected "TRACKS" "songs" Song SONG_SEARCH
              Song_COLUMNS DEFAULT_SONG_SORT
              (demo_world (answers [demo_page [VStr "a"; VStr "b"] (VStr "t1")]
                   ++ [Response 400 (error_body "Rate exceeded" "Throttling");
                       Response 200 (page_body [VStr "z"] (Some (VStr "")))]))
              [demo_page [VStr "a"; VStr "b"] (VStr "t1")]
              (Response 400 (error_body "Rate exceeded" "Throttling"))
              (RequestError (VStr "Rate exceeded") (VStr "Throttling"))
              [Response 200 (page_body [VStr "z"] (Some (VStr "")))] 5)
    as (w' & tl & Hrun & Htr & Hy & _ & Hrem).
  - apply demo_encodable.
  - repeat constructor; apply is_page_page_body.
  - repeat constructor.
  - eapply rejects_status; [lia|reflexivity..].
  - reflexivity.
  - simpl. lia.
  - exists w'. split; [exact Hrun|]. rewrite Htr. split; [exact Hy|exact Hrem].
Defined.

(** ** What a search sends *)

Lemma prefix_comparable (k : string) : forall a b,
  String.prefix a k = true -> String.prefix b k = true ->
  String.prefix a b = true \/ String.prefix b a = true.
Proof.
  induction k as [|c k IH]; intros [|x a] [|y b] Ha Hb; cbn in *;
    try (by left); try (by right); try done.
  destruct (ascii_dec x c) as [->|]; [|done].
  destruct (ascii_dec y c) as [->|]; [|done].
  destruct (ascii_dec c c); [|done]. by apply IH.
Qed.

Lemma prefix_app (p s : string) : String.prefix p (p +:+ s) = true.
Proof.
  induction p as [|c p IH]; [by destruct s|].
  change (String.prefix (String c p) (String c (p +:+ s)) = true).
  cbn. destruct (ascii_dec c c); [exact IH|done].
Qed.

Lemma keys_under_empty (p : string) : keys_under p ∅.
Proof. intros k [v Hv]. by rewrite lookup_empty in Hv. Qed.

Lemma keys_under_insert (p k : string) (v : pyval) (m : gmap string pyval) :
  String.prefix p k = true -> keys_under p m -> keys_under p (<[k := v]> m).
Proof.
  intros Hk Hm k' Hk'. destruct (decide (k = k')) as [<-|Hne]; [done|].
  rewrite lookup_insert_ne in Hk' by done. by apply Hm.
Qed.

Lemma member_key_prefix (p : string) (j : nat) (f : string) :
  String.prefix (p +:+ ".member.") (member_key p j +:+ f) = true.
Proof.
  rewrite member_key_app.
  replace (p +:+ ".member." +:+ pretty j +:+ f)
    with ((p +:+ ".member.") +:+ pretty j +:+ f) by (by rewrite str_app_assoc).
  apply prefix_app.
Qed.

Lemma build_search_loop_under p search : forall i d r,
  build_search_loop p i search d = Returned r ->
  keys_under (p +:+ ".member.") d -> keys_under (p +:+ ".member.") r.
Proof.
  induction search as [|item rest IH]; intros i d r Hr Hd.
  - cbn in Hr. by simplify_eq.
  - cbn [build_search_loop] in Hr.
    destruct (Py.index item 0) as [name| |]; cbn [obind] in Hr; try done.
    destruct (Py.index item 1) as [cmp| |]; cbn [obind] in Hr; try done.
    destruct (Py.len item) as [n| |]; cbn [obind] in Hr; try done.
    destruct (if (n =? 2)%nat then _ else _) as [value| |]; cbn [obind] in Hr;
      try done.
    eapply IH; [exact Hr|].
    repeat apply keys_under_insert; try apply member_key_prefix. exact Hd.
Qed.

Lemma build_sort_loop_under sort : forall i d r,
  build_sort_loop i sort d = Returned r ->
  keys_under "sortCriteriaList.member." d -> keys_under "sortCriteriaList.member." r.
Proof.
  induction sort as [|item rest IH]; intros i d r Hr Hd.
  - cbn in Hr. by simplify_eq.
  - cbn [build_sort_loop] in Hr.
    destruct (Py.index item 0) as [col| |]; cbn [obind] in Hr; try done.
    destruct (Py.index item 1) as [dir| |]; cbn [obind] in Hr; try done.
    eapply IH; [exact Hr|].
    repeat apply keys_under_insert; try exact Hd;
      apply (member_key_prefix "sortCriteriaList").
Qed.

Lemma build_columns_loop_under columns : forall i d,
  keys_under "selectedColumns.member." d ->
  keys_under "selectedColumns.member." (build_columns_loop i columns d).
Proof.
  induction columns as [|item rest IH]; intros i d Hd; [done|].
  cbn [build_columns_loop]. apply IH. apply keys_under_insert; [|done].
  apply (prefix_app "selectedColumns.member.").
Qed.

Lemma keys_under_disjoint (p q : string) (m1 m2 : gmap string pyval) :
  String.prefix p q = false -> String.prefix q p = false ->
  keys_under p m1 -> keys_under q m2 -> m1 ##ₘ m2.
Proof.
  intros Hpq Hqp H1 H2. apply map_disjoint_spec. intros k v1 v2 Hv1 Hv2.
  destruct (prefix_comparable k p q) as [H|H]; [by apply H1|by apply H2|..];
    congruence.
Qed.

Lemma keys_under_lookup_None (p k : string) (m : gmap string pyval) :
  keys_under p m -> String.prefix p k = false -> m !! k = None.
Proof.
  intros Hm Hk. destruct (m !! k) as [v|] eqn:E; [|done].
  rewrite Hm in Hk by (by eexists). done.
Qed.

Lemma get_request_trace (operation : string) (data : gmap string pyval) (w : world) :
  exists c,
    req_data c
    = Py.update data
        (<["Operation" := VStr operation]>
        (<["ContentType" := VStr "JSON"]>
        (<["customerInfo.customerId" := customer_id (self w)]>
        (<["customerInfo.deviceId" := device_id (self w)]>
        (<["customerInfo.deviceType" := device_type (self w)]> ∅))))) /\
    trace (_get operation data w).2 = trace w ++ [Call c].
Proof.
  destruct (get_request operation data w) as (c & _ & Hdata & _ & ->).
  exists c. split; [exact Hdata|]. cbn zeta.
  destruct (remote w) as [|[e|st result] rest]; [reflexivity..|].
  destruct (negb (st =? 200)%Z); reflexivity.
Qed.

Lemma search_page_data rt cls search columns sort cur (w : world)
    (sl cl so : list pyval) (enc1 enc3 : gmap string pyval) :
  store w !! search = Some sl ->
  store w !! columns = Some cl ->
  store w !! sort = Some so ->
  _build_search_criteria sl default_key_prefix = Returned enc1 ->
  _build_sort_criteria so = Returned enc3 ->
  search_page rt cls search columns sort cur w
  = bind (_get "searchLibrary"
            (Py.update (Py.update (Py.update (page_base rt cur) enc1)
                          (_build_selected_columns cl)) enc3))
      (page_rest cls) w.
Proof.
  intros Hs Hc Ho He1 He3. unfold search_page. cbv zeta.
  rewrite (bind_returned _ _ w w sl (load_run _ _ _ Hs)).
  rewrite (bind_returned _ _ w w enc1) by (unfold lift; by rewrite He1).
  rewrite (bind_returned _ _ w w cl (load_run _ _ _ Hc)).
  rewrite (bind_returned _ _ w w so (load_run _ _ _ Ho)).
  rewrite (bind_returned _ _ w w enc3) by (unfold lift; by rewrite He3).
  reflexivity.
Qed.

(** The first event of a search, with the parameters of its call. *)
Lemma search_loop_first_call rt cls search columns sort cur (w : world)
    (sl cl so : list pyval) (enc1 enc3 : gmap string pyval) (fuel : nat) :
  store w !! search = Some sl ->
  store w !! columns = Some cl ->
  store w !! sort = Some so ->
  _build_search_criteria sl default_key_prefix = Returned enc1 ->
  _build_sort_criteria so = Returned enc3 ->
  exists c tl,
    req_data c
    = Py.update
        (Py.update (Py.update (Py.update (page_base rt cur) enc1)
                      (_build_selected_columns cl)) enc3)
        (<["Operation" := VStr "searchLibrary"]>
        (<["ContentType" := VStr "JSON"]>
        (<["customerInfo.customerId" := customer_id (self w)]>
        (<["customerInfo.deviceId" := device_id (self w)]>
        (<["customerInfo.deviceType" := device_type (self w)]> ∅))))) /\
    trace (search_loop (S fuel) rt cls search columns sort cur w).2
    = trace w ++ Call c :: tl.
Proof.
  intros Hs Hc Ho He1 He3.
  pose proof (search_page_data rt cls search columns sort cur w sl cl so enc1 enc3
                Hs Hc Ho He1 He3) as Hpage.
  destruct (get_request_trace "searchLibrary"
              (Py.update (Py.update (Py.update (page_base rt cur) enc1)
                            (_build_selected_columns cl)) enc3) w)
    as (c & Hdata & Htr).
  assert (exists tl, trace (search_page rt cls search columns sort cur w).2
                     = trace w ++ Call c :: tl) as [tl Htl].
  { rewrite Hpage. unfold bind.
    destruct (_get "searchLibrary" _ w) as [[result|e|] w1] eqn:E;
      cbn [snd] in *; [|exists []; by rewrite Htr..].
    destruct (page_rest_only_traced cls result w1) as (_ & _ & _ & _ & tl & ->).
    exists tl. rewrite Htr. by rewrite <-app_assoc. }
  exists c. cbn [search_loop]. unfold bind.
  destruct (search_page rt cls search columns sort cur w) as [[tok|e|] w1] eqn:E;
    cbn [snd] in *; [|exists tl; by split..].
  destruct (negb (Py.truthy tok)); [exists tl; by split|].
  destruct (search_loop_only_traced rt cls search columns sort fuel tok w1)
    as (_ & _ & _ & _ & tl' & ->).
  exists (tl ++ tl'). split; [done|]. rewrite Htl. by rewrite <-app_assoc.
Qed.

Ltac under_none :=
  first [ eapply keys_under_lookup_None; [eassumption|reflexivity]
        | reflexivity ].

Ltac literal_disjoint_l :=
  repeat (apply map_disjoint_insert_l_2; [under_none|]);
  apply map_disjoint_empty_l.

Ltac literal_disjoint_r :=
  repeat (apply map_disjoint_insert_r_2; [under_none|]);
  apply map_disjoint_empty_r.

Lemma under_union_r (m1 m2 m3 : gmap string pyval) :
  m1 ⊆ m3 -> m2 ##ₘ m3 -> m1 ⊆ m2 ∪ m3.
Proof. intros H D. etrans; [exact H|]. by apply map_union_subseteq_r. Qed.

(** The parts of the parameters of a search call do not overlap. *)
Lemma request_composition (rt : string) (cur a b c : pyval)
    (enc1 cols enc3 : gmap string pyval) :
  keys_under "searchCriteria.member." enc1 ->
  keys_under "selectedColumns.member." cols ->
  keys_under "sortCriteriaList.member." enc3 ->
  let req :=
    Py.update (Py.update (Py.update (Py.update (page_base rt cur) enc1) cols) enc3)
      (<["Operation" := VStr "searchLibrary"]>
      (<["ContentType" := VStr "JSON"]>
      (<["customerInfo.customerId" := a]>
      (<["customerInfo.deviceId" := b]>
      (<["customerInfo.deviceType" := c]> ∅))))) in
  enc1 ⊆ req /\ cols ⊆ req /\ enc3 ⊆ req /\ page_base rt cur ⊆ req /\
  size req = 10 + size enc1 + size cols + size enc3.
Proof.
  intros H1 H2 H3. unfold Py.update. cbv zeta.
  set (identity := <["Operation" := VStr "searchLibrary"]> _).
  assert (enc1 ##ₘ page_base rt cur) as D1 by (unfold page_base; literal_disjoint_r).
  assert (cols ##ₘ page_base rt cur) as D2 by (unfold page_base; literal_disjoint_r).
  assert (enc3 ##ₘ page_base rt cur) as D3 by (unfold page_base; literal_disjoint_r).
  assert (cols ##ₘ enc1) as D4 by (eapply keys_under_disjoint; [| |eassumption..]; reflexivity).
  assert (enc3 ##ₘ enc1) as D5 by (eapply keys_under_disjoint; [| |eassumption..]; reflexivity).
  assert (enc3 ##ₘ cols) as D6 by (eapply keys_under_disjoint; [| |eassumption..]; reflexivity).
  assert (identity ##ₘ enc1) as D7 by (unfold identity; literal_disjoint_l).
  assert (identity ##ₘ cols) as D8 by (unfold identity; literal_disjoint_l).
  assert (identity ##ₘ enc3) as D9 by (unfold identity; literal_disjoint_l).
  assert (identity ##ₘ page_base rt cur) as D10
    by (unfold identity, page_base; literal_disjoint_l).
  assert (cols ##ₘ enc1 ∪ page_base rt cur) as E1 by (by apply map_disjoint_union_r).
  assert (enc3 ##ₘ cols ∪ (enc1 ∪ page_base rt cur)) as E2
    by (apply map_disjoint_union_r; split; [done|by apply map_disjoint_union_r]).
  assert (identity ##ₘ enc3 ∪ (cols ∪ (enc1 ∪ page_base rt cur))) as E3
    by (repeat (apply map_disjoint_union_r; split; try done)).
  repeat split.
  - apply under_union_r; [|exact E3]. apply under_union_r; [|exact E2].
    apply under_union_r; [|exact E1]. apply map_union_subseteq_l.
  - apply under_union_r; [|exact E3]. apply under_union_r; [|exact E2].
    apply map_union_subseteq_l.
  - apply under_union_r; [|exact E3]. apply map_union_subseteq_l.
  - apply under_union_r; [|exact E3]. apply under_union_r; [|exact E2].
    apply under_union_r; [|exact E1]. by apply map_union_subseteq_r.
  - rewrite !map_size_disj_union by done.
    change (size identity) with 5. change (size (page_base rt cur)) with 5. lia.
Qed.

Lemma fresh_ne (st : gmap loc (list pyval)) (l : loc) (v : list pyval) :
  st !! l = Some v -> fresh (dom st) <> l.
Proof.
  intros H Heq. apply (is_fresh (dom st)). rewrite Heq. by apply elem_of_dom.
Qed.

Lemma combined_search_first_call (defaults : loc) rt rk cls columns (fuel : nat)
    (search sort : loc) (w : world) (dl sl cl so : list pyval)
    (enc1 enc3 : gmap string pyval) :
  store w !! defaults = Some dl ->
  store w !! search = Some sl ->
  store w !! columns = Some cl ->
  store w !! sort = Some so ->
  _build_search_criteria (dl ++ sl) default_key_prefix = Returned enc1 ->
  _build_sort_criteria so = Returned enc3 ->
  exists c tl,
    req_data c
    = Py.update
        (Py.update (Py.update (Py.update (page_base rt (VStr "")) enc1)
                      (_build_selected_columns cl)) enc3)
        (<["Operation" := VStr "searchLibrary"]>
        (<["ContentType" := VStr "JSON"]>
        (<["customerInfo.customerId" := customer_id (self w)]>
        (<["customerInfo.deviceId" := device_id (self w)]>
        (<["customerInfo.deviceType" := device_type (self w)]> ∅))))) /\
    trace (bind (list_add defaults search)
             (fun combined =>
                _search_library (S fuel) rt rk cls combined columns sort) w).2
    = trace w ++ Call c :: tl.
Proof.
  intros Hd Hs Hc Ho He1 He3.
  unfold bind at 1, list_add, bind at 1. rewrite (load_run _ _ _ Hd).
  unfold bind at 1. rewrite (load_run _ _ _ Hs). unfold alloc, _search_library.
  apply (search_loop_first_call rt cls (fresh (dom (store w))) columns sort
           (VStr "") (set_store (insert (fresh (dom (store w))) (dl ++ sl)) w)
           (dl ++ sl) cl so enc1 enc3 fuel); try done; cbn [store set_store].
  - apply lookup_insert_eq.
  - rewrite lookup_insert_ne; [done|]. by eapply fresh_ne.
  - rewrite lookup_insert_ne; [done|]. by eapply fresh_ne.
Qed.

(** X11.  The first call of [get_songs], [get_albums] and [get_artists]
    sends the class predicates followed by the caller's, the columns of
    the record class and the sort order, each under its own keys: the
    encodings are all contained in the parameters, none overwrites
    another or the ten fixed parameters, and the search starts from the
    empty token with pages of 50. *)
Theorem search_request_contents (s : library_search) (fuel : nat)
    (search sort : loc) (w : world) (dl sl cl so : list pyval) :
  store w !! search_defaults s = Some dl ->
  store w !! search = Some sl ->
  store w !! search_columns s = Some cl ->
  store w !! sort = Some so ->
  Forall (fun item => is_Some (criterion_fields item)) (dl ++ sl) ->
  Forall (fun item => is_Some (sort_criterion_fields item)) so ->
  exists c tl enc1 enc3,
    trace (run_search s (S fuel) search sort w).2 = trace w ++ Call c :: tl /\
    _build_search_criteria (dl ++ sl) "searchCriteria" = Returned enc1 /\
    _build_sort_criteria so = Returned enc3 /\
    enc1 ⊆ req_data c /\
    _build_selected_columns cl ⊆ req_data c /\
    enc3 ⊆ req_data c /\
    req_data c !! "searchReturnType" = Some (VStr (search_return_type s)) /\
    req_data c !! "maxResults" = Some (VInt 50) /\
    req_data c !! "nextResultsToken" = Some (VStr "") /\
    size (req_data c) = 10 + 3 * length (dl ++ sl) + length cl + 2 * length so.
Proof.
  intros Hd Hs Hc Ho Hok Hsok.
  destruct (build_search_loop_lookup default_key_prefix (dl ++ sl) 0 ∅ Hok)
    as (enc1 & He1 & _).
  destruct (build_sort_loop_lookup so 0 ∅ Hsok) as (enc3 & He3 & _).
  assert (size enc1 = 3 * length (dl ++ sl)) as Hsz1.
  { rewrite (build_search_loop_size default_key_prefix (dl ++ sl) 0 ∅ enc1 Hok);
      [done| |done]. intros j f _ _. apply lookup_empty. }
  assert (size enc3 = 2 * length so) as Hsz3.
  { rewrite (build_sort_loop_size so 0 ∅ enc3 Hsok); [done| |done].
    intros j f _ _. apply lookup_empty. }
  assert (size (_build_selected_columns cl) = length cl) as Hsz2.
  { unfold _build_selected_columns.
    rewrite (proj1 (build_columns_loop_lookup cl 0 ∅ ltac:(intros; apply lookup_empty))).
    by rewrite map_size_empty. }
  pose proof (build_search_loop_under default_key_prefix (dl ++ sl) 0 ∅ enc1 He1
                (keys_under_empty _)) as Hu1.
  pose proof (build_sort_loop_under so 0 ∅ enc3 He3 (keys_under_empty _)) as Hu3.
  pose proof (build_columns_loop_under cl 0 ∅ (keys_under_empty _)) as Hu2.
  assert (exists c tl,
            req_data c
            = Py.update
                (Py.update (Py.update (Py.update
                   (page_base (search_return_type s) (VStr "")) enc1)
                   (_build_selected_columns cl)) enc3)
                (<["Operation" := VStr "searchLibrary"]>
                (<["ContentType" := VStr "JSON"]>
                (<["customerInfo.customerId" := customer_id (self w)]>
                (<["customerInfo.deviceId" := device_id (self w)]>
                (<["customerInfo.deviceType" := device_type (self w)]> ∅))))) /\
            trace (run_search s (S fuel) search sort w).2 = trace w ++ Call c :: tl)
    as (c & tl & Hdata & Htr).
  { destruct s; cbn [run_search search_return_type search_defaults search_columns] in *;
      unfold get_songs, get_albums, get_artists;
      eapply combined_search_first_call; eassumption. }
  destruct (request_composition (search_return_type s) (VStr "")
              (customer_id (self w)) (device_id (self w)) (device_type (self w))
              enc1 (_build_selected_columns cl) enc3 Hu1 Hu2 Hu3)
    as (S1 & S2 & S3 & S4 & Hsize).
  rewrite <-Hdata in S1, S2, S3, S4, Hsize.
  exists c, tl, enc1, enc3.
  split; [exact Htr|]. split; [exact He1|]. split; [exact He3|].
  split; [exact S1|]. split; [exact S2|]. split; [exact S3|].
  split; [by eapply lookup_weaken; [|exact S4]|].
  split; [by eapply lookup_weaken; [|exact S4]|].
  split; [by eapply lookup_weaken; [|exact S4]|].
  rewrite Hsize, Hsz1, Hsz2, Hsz3. lia.
Qed.

Lemma search_request_contents_witness :
  exists c tl,
    trace (get_artists 1 get_artists_search_default DEFAULT_ARTIST_SORT
             (demo_world [])).2 = Call c :: tl /\
    req_data c !! "searchCriteria.member.2.attributeValue" = Some (VStr "") /\
    size (req_data c) = 19.
Proof.
  destruct (search_request_contents Artists 0 get_artists_search_default
              DEFAULT_ARTIST_SORT (demo_world [])
              [crit3 "status" "EQUALS" "AVAILABLE"; crit2 "trackStatus" "IS_NULL"]
              [] [VStr "name"] [crit2 "sortArtistName" "ASC"])
    as (c & tl & enc1 & enc3 & Htr & He1 & _ & S1 & _ & _ & _ & _ & _ & Hsize).
  - reflexivity.
  - reflexivity.
  - reflexivity.
  - reflexivity.
  - repeat constructor; eexists; reflexivity.
  - repeat constructor; eexists; reflexivity.
  - exists c, tl. split; [exact Htr|]. split; [|exact Hsize].
    destruct (build_search_loop_lookup default_key_prefix
                [crit3 "status" "EQUALS" "AVAILABLE"; crit2 "trackStatus" "IS_NULL"]
                0 ∅) as (r & Hr & Hin & _);
      [repeat constructor; eexists; reflexivity|].
    unfold _build_search_criteria in He1. cbn [app] in He1.
    change "searchCriteria" with default_key_prefix in He1.
    rewrite Hr in He1. injection He1 as <-.
    eapply lookup_weaken; [|exact S1].
    exact (proj2 (proj2 (Hin 1 _ (VStr "trackStatus") (VStr "IS_NULL") (VStr "")
                           eq_refl eq_refl))).
Defined.

(** ** The single-call fetches *)

(** A computation that leaves the world alone after a first one. *)
Lemma bind_snd_pure {A B} (m : M A) (f : A -> M B) (w : world) :
  (forall a w', (f a w').2 = w') -> (bind m f w).2 = (m w).2.
Proof.
  intros Hf. unfold bind. destruct (m w) as [[a|e|] w']; [apply Hf|done..].
Qed.

Lemma lift_bind_snd {A B} (x : outcome A) (f : A -> M B) (w : world) :
  (forall a w', (f a w').2 = w') -> (bind (lift x) f w).2 = w.
Proof. intros Hf. by rewrite bind_snd_pure. Qed.

Ltac peel_union :=
  repeat (rewrite lookup_union_r;
          [|first [ eapply keys_under_lookup_None; [eassumption|reflexivity]
                  | reflexivity
                  | by (rewrite !lookup_insert_ne by discriminate) ]]).

Lemma get_track_list_request (a : album) (w : world) (cl : list pyval) :
  store w !! Song_COLUMNS = Some cl ->
  exists enc sort_enc data,
    _build_search_criteria
      [crit3 "status" "EQUALS" "AVAILABLE";
       crit2 "trackStatus" "IS_NULL";
       VTuple [VStr "sortAlbumArtistName"; VStr "EQUALS"; sort_album_artist_name a];
       VTuple [VStr "sortAlbumName"; VStr "EQUALS"; sort_album_name a]]
      "selectCriteriaList" = Returned enc /\
    _build_sort_criteria [crit2 "discNum" "ASC"; crit2 "trackNum" "ASC"]
      = Returned sort_enc /\
    data = Py.update
             (Py.update
                (Py.update
                   (<["sortCriteriaList" := VStr ""]>
                    (<["maxResults" := num_tracks a]>
                    (<["nextResultsToken" := VInt 0]>
                    (<["distinctOnly" := VStr "false"]>
                    (<["countOnly" := VStr "false"]> ∅))))) enc)
                (_build_selected_columns cl)) sort_enc /\
    get_track_list a w
    = bind (_get "selectTrackMetadata" data)
        (fun result =>
           let* items :=
             lift (_get_payload_data result
                     ["selectTrackMetadataResponse"; "selectTrackMetadataResult";
                      "trackInfoList"]) in
           let* items_l := lift (Py.iterate items) in
           ret (Obj Song <$> items_l)) w.
Proof.
  intros Hc.
  destruct (build_search_loop_lookup "selectCriteriaList"
              [crit3 "status" "EQUALS" "AVAILABLE";
               crit2 "trackStatus" "IS_NULL";
               VTuple [VStr "sortAlbumArtistName"; VStr "EQUALS";
                       sort_album_artist_name a];
               VTuple [VStr "sortAlbumName"; VStr "EQUALS"; sort_album_name a]]
              0 ∅) as (enc & He & _);
    [repeat constructor; eexists; reflexivity|].
  destruct (build_sort_loop_lookup [crit2 "discNum" "ASC"; crit2 "trackNum" "ASC"]
              0 ∅) as (sort_enc & Hs & _);
    [repeat constructor; eexists; reflexivity|].
  exists enc, sort_enc. eexists. split; [exact He|]. split; [exact Hs|].
  split; [reflexivity|].
  unfold get_track_list. cbv zeta.
  rewrite (bind_returned _ _ w w enc) by (unfold lift; by rewrite <-He).
  rewrite (bind_returned _ _ w w cl (load_run _ _ _ Hc)).
  rewrite (bind_returned _ _ w w sort_enc) by (unfold lift; by rewrite <-Hs).
  reflexivity.
Qed.

(** X12.  [get_track_list] makes one call and no more, whatever the
    answer: it asks for as many results as the album has tracks, with
    the token 0, the sort names of the album as the third and fourth
    predicates and the columns of [Song]; from a 200 answer that holds a
    track list it returns one [Song] per item, in the order of the
    answer. *)
Theorem get_track_list_fetch (a : album) (w : world) (cl : list pyval) :
  store w !! Song_COLUMNS = Some cl ->
  exists c,
    trace (get_track_list a w).2 = trace w ++ [Call c] /\
    req_data c !! "Operation" = Some (VStr "selectTrackMetadata") /\
    req_data c !! "maxResults" = Some (num_tracks a) /\
    req_data c !! "nextResultsToken" = Some (VInt 0) /\
    req_data c !! "selectCriteriaList.member.3.attributeValue"
      = Some (sort_album_artist_name a) /\
    req_data c !! "selectCriteriaList.member.4.attributeValue"
      = Some (sort_album_name a) /\
    req_data c !! "sortCriteriaList.member.1.sortColumn" = Some (VStr "discNum") /\
    req_data c !! "sortCriteriaList.member.2.sortColumn" = Some (VStr "trackNum") /\
    (forall n col,
       cl !! n = Some col ->
       req_data c !! ("selectedColumns.member." +:+ pretty (n + 1)) = Some col) /\
    (forall body items rest,
       remote w = Response 200 body :: rest ->
       descend body ["selectTrackMetadataResponse"; "selectTrackMetadataResult";
                     "trackInfoList"] = Some (VList items) ->
       (get_track_list a w).1 = Returned (Obj Song <$> items)).
Proof.
  intros Hc.
  destruct (get_track_list_request a w cl Hc)
    as (enc & sort_enc & data & He & Hs & Hdata & Hrun).
  destruct (get_request "selectTrackMetadata" data w)
    as (c & _ & Hreq & _ & Hget).
  pose proof (build_search_loop_under "selectCriteriaList" _ 0 ∅ enc He
                (keys_under_empty _)) as Hu1.
  pose proof (build_sort_loop_under _ 0 ∅ sort_enc Hs (keys_under_empty _)) as Hu3.
  pose proof (build_columns_loop_under cl 0 ∅ (keys_under_empty _)) as Hu2.
  fold (_build_selected_columns cl) in Hu2.
  destruct (build_search_loop_lookup "selectCriteriaList"
              [crit3 "status" "EQUALS" "AVAILABLE";
               crit2 "trackStatus" "IS_NULL";
               VTuple [VStr "sortAlbumArtistName"; VStr "EQUALS";
                       sort_album_artist_name a];
               VTuple [VStr "sortAlbumName"; VStr "EQUALS"; sort_album_name a]]
              0 ∅) as (enc' & He' & Hin & _);
    [repeat constructor; eexists; reflexivity|].
  unfold _build_search_criteria in He. rewrite He in He'. simplify_eq.
  destruct (build_sort_loop_lookup [crit2 "discNum" "ASC"; crit2 "trackNum" "ASC"]
              0 ∅) as (sort_enc' & Hs' & Hsin & _);
    [repeat constructor; eexists; reflexivity|].
  unfold _build_sort_criteria in Hs. rewrite Hs in Hs'. simplify_eq.
  exists c. rewrite Hrun.
  split.
  { rewrite bind_snd_pure.
    - rewrite Hget. cbn zeta.
      destruct (remote w) as [|[e|st result] rest]; [reflexivity..|].
      destruct (negb (st =? 200)%Z); reflexivity.
    - intros result w'. unfold bind, lift, ret.
      destruct (_get_payload_data _ _) as [items| |]; [|done..].
      by destruct (Py.iterate items). }
  rewrite Hreq. unfold Py.update.
  split; [by apply lookup_union_Some_l|].
  split; [by peel_union|].
  split; [by peel_union|].
  split.
  { peel_union. apply lookup_union_Some_l.
    eapply (Hin 2); reflexivity. }
  split.
  { peel_union. apply lookup_union_Some_l.
    eapply (Hin 3); reflexivity. }
  split.
  { peel_union. apply lookup_union_Some_l.
    eapply (Hsin 0); reflexivity. }
  split.
  { peel_union. apply lookup_union_Some_l.
    eapply (Hsin 1); reflexivity. }
  split.
  { intros n col Hn. peel_union. apply lookup_union_Some_l.
    unfold _build_selected_columns.
    apply (proj2 (build_columns_loop_lookup cl 0 ∅
                    ltac:(intros; apply lookup_empty)) n col Hn). }
  intros body items rest Hrem Hbody. unfold Py.update in Hget.
  unfold bind at 1. rewrite Hget, Hrem. cbn zeta. cbn [Z.eqb Pos.eqb negb].
  unfold bind, lift, ret. by rewrite (descend_run _ _ _ Hbody).
Qed.

Lemma get_track_list_fetch_witness :
  (get_track_list (AlbumObj (VInt 2) (VStr "artist") (VStr "album"))
     (demo_world
        [Response 200
           (VDict {["selectTrackMetadataResponse" :=
              VDict {["selectTrackMetadataResult" :=
                VDict {["trackInfoList" := VList [VStr "t1"; VStr "t2"]]}]}]})])).1
  = Returned [Obj Song (VStr "t1"); Obj Song (VStr "t2")].
Proof.
  destruct (get_track_list_fetch (AlbumObj (VInt 2) (VStr "artist") (VStr "album"))
              (demo_world
                 [Response 200
                    (VDict {["selectTrackMetadataResponse" :=
                       VDict {["selectTrackMetadataResult" :=
                         VDict {["trackInfoList" := VList [VStr "t1"; VStr "t2"]]}]}]})])
              [VStr "title"] eq_refl)
    as (c & _ & _ & _ & _ & _ & _ & _ & _ & _ & Hok).
  exact (Hok _ [VStr "t1"; VStr "t2"] [] eq_refl eq_refl).
Defined.

Lemma track_ids_loop_below (song_ids : list pyval) : forall i d j,
  j <= i ->
  track_ids_loop i song_ids d !! ("trackIdList.member." +:+ pretty j)
  = d !! ("trackIdList.member." +:+ pretty j).
Proof.
  induction song_ids as [|item rest IH]; intros i d j Hj; [done|].
  cbn [track_ids_loop]. rewrite IH by lia.
  rewrite lookup_insert_ne; [done|]. intros ?%indexed_key_inj. lia.
Qed.

Lemma track_ids_loop_lookup (song_ids : list pyval) : forall i d,
  (forall j, i < j -> d !! ("trackIdList.member." +:+ pretty j) = None) ->
  size (track_ids_loop i song_ids d) = size d + length song_ids /\
  (forall n item, song_ids !! n = Some item ->
     track_ids_loop i song_ids d !! ("trackIdList.member." +:+ pretty (i + n + 1))
     = Some item).
Proof.
  induction song_ids as [|item rest IH]; intros i d Hd.
  - cbn. split; [lia|]. by intros n item Hn.
  - cbn [track_ids_loop length].
    destruct (IH (S i) (<["trackIdList.member." +:+ pretty (i + 1) := item]> d))
      as [Hsize Hin].
    { intros j Hj. rewrite lookup_insert_ne.
      - apply Hd. lia.
      - intros ?%indexed_key_inj. lia. }
    split.
    + rewrite Hsize, map_size_insert_None by (apply Hd; lia). lia.
    + intros [|n] it Hn.
      * cbn in Hn. simplify_eq. rewrite Nat.add_0_r.
        rewrite track_ids_loop_below by lia. by rewrite lookup_insert_eq.
      * replace (i + S n + 1) with (S i + n + 1) by lia. by apply Hin.
Qed.

Lemma track_ids_loop_under song_ids : forall i d,
  keys_under "trackIdList.member." d ->
  keys_under "trackIdList.member." (track_ids_loop i song_ids d).
Proof.
  induction song_ids as [|item rest IH]; intros i d Hd; [done|].
  cbn [track_ids_loop]. apply IH. apply keys_under_insert; [|done].
  apply (prefix_app "trackIdList.member.").
Qed.

Lemma item_urls_all (items urls : list pyval) :
  Forall2 has_url items urls -> item_urls items = Returned urls.
Proof.
  induction 1 as [|item url items urls (m & -> & Hm) _ IH]; [done|].
  cbn [item_urls Py.getitem]. rewrite Hm. cbn [obind]. by rewrite IH.
Qed.

Lemma item_urls_missing (pre post : list pyval) (m : gmap string pyval) :
  Forall (fun item => exists url, has_url item url) pre ->
  m !! "url" = None ->
  item_urls (pre ++ VDict m :: post) = Raised (KeyError (VStr "url")).
Proof.
  intros Hpre Hm. induction Hpre as [|item pre (url & m' & -> & Hm') _ IH].
  - cbn [app item_urls Py.getitem]. by rewrite Hm.
  - cbn [app item_urls Py.getitem]. rewrite Hm'. cbn [obind]. by rewrite IH.
Qed.

(** X13.  [get_song_stream_urls] makes one call and no more, whatever
    the answer, with one [trackIdList] key per identifier, in order and
    from index 1, beside the five fixed parameters; from a 200 answer
    that holds a list of items it returns their [url]s in the order of
    the answer, and it raises [KeyError] at the first item that has
    none. *)
Theorem get_song_stream_urls_fetch (song_ids : list pyval) (w : world) :
  exists c,
    trace (get_song_stream_urls song_ids w).2 = trace w ++ [Call c] /\
    req_data c !! "Operation" = Some (VStr "getStreamUrls") /\
    size (req_data c) = 5 + length song_ids /\
    (forall n song_id,
       song_ids !! n = Some song_id ->
       req_data c !! ("trackIdList.member." +:+ pretty (n + 1)) = Some song_id) /\
    (forall body items rest,
       remote w = Response 200 body :: rest ->
       descend body ["getStreamUrlsResponse"; "getStreamUrlsResult";
                     "trackStreamUrlList"] = Some (VList items) ->
       (forall urls,
          Forall2 has_url items urls ->
          (get_song_stream_urls song_ids w).1 = Returned urls) /\
       (forall pre m post,
          items = pre ++ VDict m :: post ->
          Forall (fun item => exists url, has_url item url) pre ->
          m !! "url" = None ->
          (get_song_stream_urls song_ids w).1 = Raised (KeyError (VStr "url")))).
Proof.
  destruct (get_request "getStreamUrls" (track_ids_loop 0 song_ids ∅) w)
    as (c & _ & Hreq & _ & Hget).
  pose proof (track_ids_loop_under song_ids 0 ∅ (keys_under_empty _)) as Hu.
  destruct (track_ids_loop_lookup song_ids 0 ∅ ltac:(intros; apply lookup_empty))
    as [Hsize Hin].
  exists c.
  split.
  { unfold get_song_stream_urls. rewrite bind_snd_pure.
    - rewrite Hget. cbn zeta.
      destruct (remote w) as [|[e|st result] rest]; [reflexivity..|].
      destruct (negb (st =? 200)%Z); reflexivity.
    - intros result w'. unfold bind, lift.
      destruct (_get_payload_data _ _) as [items| |]; [|done..].
      by destruct (Py.iterate items). }
  rewrite Hreq. unfold Py.update.
  split; [by apply lookup_union_Some_l|].
  split.
  { rewrite map_size_disj_union.
    - rewrite Hsize, map_size_empty. reflexivity.
    - repeat (apply map_disjoint_insert_l_2;
              [eapply keys_under_lookup_None; [exact Hu|reflexivity]|]).
      apply map_disjoint_empty_l. }
  split.
  { intros n song_id Hn.
    rewrite lookup_union_r by (by rewrite !lookup_insert_ne by discriminate).
    by apply Hin. }
  intros body items rest Hrem Hbody.
  assert ((get_song_stream_urls song_ids w).1 = item_urls items) as Hrun.
  { unfold get_song_stream_urls, bind at 1. rewrite Hget, Hrem. cbn zeta.
    cbn [Z.eqb Pos.eqb negb]. unfold bind, lift.
    by rewrite (descend_run _ _ _ Hbody). }
  split.
  - intros urls Hurls. etrans; [exact Hrun|]. by apply item_urls_all.
  - intros pre m post -> Hpre Hm. etrans; [exact Hrun|].
    by apply item_urls_missing.
Qed.

Lemma get_song_stream_urls_fetch_witness :
  (get_song_stream_urls [VStr "id1"; VStr "id2"]
     (demo_world
        [Response 200
           (VDict {["getStreamUrlsResponse" :=
              VDict {["getStreamUrlsResult" :=
                VDict {["trackStreamUrlList" :=
                  VList [VDict {["url" := VStr "u1"]};
                         VDict {["url" := VStr "u2"]}]]}]}]})])).1
  = Returned [VStr "u1"; VStr "u2"].
Proof.
  destruct (get_song_stream_urls_fetch [VStr "id1"; VStr "id2"]
              (demo_world
                 [Response 200
                    (VDict {["getStreamUrlsResponse" :=
                       VDict {["getStreamUrlsResult" :=
                         VDict {["trackStreamUrlList" :=
                           VList [VDict {["url" := VStr "u1"]};
                                  VDict {["url" := VStr "u2"]}]]}]}]})]))
    as (c & _ & _ & _ & _ & Hok).
  destruct (Hok _ _ [] eq_refl eq_refl) as [Hurls _].
  apply Hurls. repeat constructor; eexists; (split; [reflexivity|reflexivity]).
Defined.

(** ** The public searches, run to their end *)

Lemma combined_search_run (defaults : loc) rt rk cls columns (fuel : nat)
    (search sort : loc) (w : world) (dl sl cl so : list pyval)
    (pages : list page) (final : page) (rest : list post_result) :
  store w !! defaults = Some dl ->
  store w !! search = Some sl ->
  store w !! columns = Some cl ->
  store w !! sort = Some so ->
  Forall (fun item => is_Some (criterion_fields item)) (dl ++ sl) ->
  Forall (fun item => is_Some (sort_criterion_fields item)) so ->
  Forall good_page (pages ++ [final]) ->
  Forall (fun p => Py.truthy (page_token p) = true) pages ->
  Py.truthy (page_token final) = false ->
  remote w = answers (pages ++ [final]) ++ rest ->
  length pages < fuel ->
  exists w' tl,
    bind (list_add defaults search)
      (fun combined => _search_library fuel rt rk cls combined columns sort) w
    = (Returned tt, w') /\
    trace w' = trace w ++ tl /\
    yielded tl = Obj cls <$> all_items (pages ++ [final]) /\
    call_tokens tl = Some <$> (VStr "" :: (page_token <$> pages)) /\
    remote w' = rest.
Proof.
  intros Hd Hs Hc Ho Hok Hsok Hgood Htruthy Hfinal Hrem Hfuel.
  unfold bind at 1, list_add, bind at 1. rewrite (load_run _ _ _ Hd).
  unfold bind at 1. rewrite (load_run _ _ _ Hs). unfold alloc.
  apply (search_library_pages_run rt rk cls (fresh (dom (store w))) columns sort
           (set_store (insert (fresh (dom (store w))) (dl ++ sl)) w)
           pages final rest fuel); try done.
  exists (dl ++ sl), cl, so. cbn [store set_store].
  split; [apply lookup_insert_eq|].
  split; [rewrite lookup_insert_ne; [done|by eapply fresh_ne]|].
  split; [rewrite lookup_insert_ne; [done|by eapply fresh_ne]|]. done.
Qed.

(** X14.  Each public search, run to its end against a remote that
    answers any number of pages, yields one record of its own class per
    item, page after page, and returns; the caller's list is read, the
    class predicates are put before it, and the caller can pass any
    sort list. *)
Theorem library_search_all_pages (s : library_search) (fuel : nat)
    (search sort : loc) (w : world) (dl sl cl so : list pyval)
    (pages : list page) (final : page) (rest : list post_result) :
  store w !! search_defaults s = Some dl ->
  store w !! search = Some sl ->
  store w !! search_columns s = Some cl ->
  store w !! sort = Some so ->
  Forall (fun item => is_Some (criterion_fields item)) (dl ++ sl) ->
  Forall (fun item => is_Some (sort_criterion_fields item)) so ->
  Forall good_page (pages ++ [final]) ->
  Forall (fun p => Py.truthy (page_token p) = true) pages ->
  Py.truthy (page_token final) = false ->
  remote w = answers (pages ++ [final]) ++ rest ->
  length pages < fuel ->
  exists w' tl,
    run_search s fuel search sort w = (Returned tt, w') /\
    trace w' = trace w ++ tl /\
    yielded tl = Obj (search_class s) <$> all_items (pages ++ [final]) /\
    length (calls tl) = S (length pages) /\
    remote w' = rest.
Proof.
  intros Hd Hs Hc Ho Hok Hsok Hgood Htruthy Hfinal Hrem Hfuel.
  assert (exists w' tl,
            run_search s fuel search sort w = (Returned tt, w') /\
            trace w' = trace w ++ tl /\
            yielded tl = Obj (search_class s) <$> all_items (pages ++ [final]) /\
            call_tokens tl = Some <$> (VStr "" :: (page_token <$> pages)) /\
            remote w' = rest) as (w' & tl & Hrun & Htr & Hy & Hcalls & Hrem').
  { destruct s; cbn [run_search search_defaults search_columns search_class] in *;
      unfold get_songs, get_albums, get_artists;
      eapply combined_search_run; eassumption. }
  exists w', tl. repeat split; try done.
  apply (f_equal length) in Hcalls. unfold call_tokens in Hcalls.
  rewrite !length_fmap in Hcalls. rewrite Hcalls. cbn. by rewrite length_fmap.
Qed.

Lemma library_search_all_pages_witness :
  exists w',
    get_artists 2 get_artists_search_default DEFAULT_ARTIST_SORT
      (demo_world (answers [demo_page [VStr "a"] (VStr "t1");
                            demo_page [VStr "b"] (VStr "")]))
    = (Returned tt, w') /\
    yielded (trace w') = [Obj Artist (VStr "a"); Obj Artist (VStr "b")].
Proof.
  destruct (library_search_all_pages Artists 2 get_artists_search_default
              DEFAULT_ARTIST_SORT
              (demo_world (answers [demo_page [VStr "a"] (VStr "t1");
                                    demo_page [VStr "b"] (VStr "")]))
              [crit3 "status" "EQUALS" "AVAILABLE"; crit2 "trackStatus" "IS_NULL"]
              [] [VStr "name"] [crit2 "sortArtistName" "ASC"]
              [demo_page [VStr "a"] (VStr "t1")] (demo_page [VStr "b"] (VStr "")) [])
    as (w' & tl & Hrun & Htr & Hy & _ & _).
  - reflexivity.
  - reflexivity.
  - reflexivity.
  - reflexivity.
  - repeat constructor; eexists; reflexivity.
  - repeat constructor; eexists; reflexivity.
  - repeat constructor; apply is_page_page_body.
  - repeat constructor.
  - reflexivity.
  - reflexivity.
  - simpl. lia.
  - exists w'. split; [exact Hrun|]. rewrite Htr. exact Hy.
Defined.

(** X15.  [get_album] searches the albums with the class predicates
    followed by [artistName EQUALS] the artist name and [albumName
    EQUALS] the album name, and with no other predicate; run against a
    remote that answers any number of pages, it returns the first record
    of the whole search, and [None] when the search has no item. *)
Theorem get_album_first (fuel : nat) (artist_name album_name : pyval)
    (w : world) (dl cl so : list pyval)
    (pages : list page) (final : page) (rest : list post_result) :
  store w !! ALBUM_SEARCH = Some dl ->
  store w !! Album_COLUMNS = Some cl ->
  store w !! DEFAULT_ALBUM_SORT = Some so ->
  Forall (fun item => is_Some (criterion_fields item)) dl ->
  Forall (fun item => is_Some (sort_criterion_fields item)) so ->
  Forall good_page (pages ++ [final]) ->
  Forall (fun p => Py.truthy (page_token p) = true) pages ->
  Py.truthy (page_token final) = false ->
  remote w = answers (pages ++ [final]) ++ rest ->
  length pages < fuel ->
  (get_album fuel artist_name album_name w).1
    = Returned (head (Obj Album <$> all_items (pages ++ [final]))) /\
  exists c tl,
    trace (get_album fuel artist_name album_name w).2 = trace w ++ Call c :: tl /\
    req_data c !! (member_key "searchCriteria" (length dl + 1) +:+ ".attributeName")
      = Some (VStr "artistName") /\
    req_data c !! (member_key "searchCriteria" (length dl + 1) +:+ ".comparisonType")
      = Some (VStr "EQUALS") /\
    req_data c !! (member_key "searchCriteria" (length dl + 1) +:+ ".attributeValue")
      = Some artist_name /\
    req_data c !! (member_key "searchCriteria" (length dl + 2) +:+ ".attributeName")
      = Some (VStr "albumName") /\
    req_data c !! (member_key "searchCriteria" (length dl + 2) +:+ ".comparisonType")
      = Some (VStr "EQUALS") /\
    req_data c !! (member_key "searchCriteria" (length dl + 2) +:+ ".attributeValue")
      = Some album_name /\
    size (req_data c) = 10 + 3 * (length dl + 2) + length cl + 2 * length so.
Proof.
  intros Hd Hc Ho Hok Hsok Hgood Htruthy Hfinal Hrem Hfuel.
  set (l := fresh (dom (store w))).
  set (w1 := set_store (insert l (album_criteria artist_name album_name)) w).
  assert (store w1 !! ALBUM_SEARCH = Some dl) as Hd1
    by (cbn; rewrite lookup_insert_ne; [done|by eapply fresh_ne]).
  assert (store w1 !! Album_COLUMNS = Some cl) as Hc1
    by (cbn; rewrite lookup_insert_ne; [done|by eapply fresh_ne]).
  assert (store w1 !! DEFAULT_ALBUM_SORT = Some so) as Ho1
    by (cbn; rewrite lookup_insert_ne; [done|by eapply fresh_ne]).
  assert (store w1 !! l = Some (album_criteria artist_name album_name)) as Hl1
    by (cbn; apply lookup_insert_eq).
  assert (Forall (fun item => is_Some (criterion_fields item))
            (dl ++ album_criteria artist_name album_name)) as Hok1.
  { apply Forall_app. split; [done|]. repeat constructor; eexists; reflexivity. }
  destruct (combined_search_run ALBUM_SEARCH "ALBUMS" "albums" Album Album_COLUMNS
              fuel l DEFAULT_ALBUM_SORT w1 dl _ cl so pages final rest
              Hd1 Hl1 Hc1 Ho1 Hok1 Hsok Hgood Htruthy Hfinal Hrem Hfuel)
    as (w' & tl & Hrun & Htr & Hy & Hcalls & _).
  assert (get_album fuel artist_name album_name w
          = (Returned (head (yielded tl)), w')) as Hall.
  { unfold get_album, bind at 1, alloc. fold l. fold (album_criteria artist_name album_name).
    fold w1. unfold bind at 1, get_trace at 1.
    unfold bind at 1. unfold get_albums. rewrite Hrun.
    unfold bind, get_trace, ret. rewrite Htr.
    change (trace w1) with (trace w). by rewrite drop_app_length. }
  rewrite Hall. cbn [fst snd]. split; [by rewrite Hy|].
  destruct fuel as [|fuel]; [lia|].
  destruct (build_search_loop_lookup default_key_prefix
              (dl ++ album_criteria artist_name album_name) 0 ∅ Hok1)
    as (enc1 & He1 & Hin & _).
  destruct (build_sort_loop_lookup so 0 ∅ Hsok) as (enc3 & He3 & _).
  destruct (combined_search_first_call ALBUM_SEARCH "ALBUMS" "albums" Album
              Album_COLUMNS fuel l DEFAULT_ALBUM_SORT w1 dl _ cl so enc1 enc3
              Hd1 Hl1 Hc1 Ho1 He1 He3) as (c & tl' & Hdata & Htr').
  rewrite Hrun in Htr'. cbn [snd] in Htr'. change (trace w1) with (trace w) in Htr'.
  exists c, tl'. split; [exact Htr'|].
  pose proof (build_search_loop_under default_key_prefix _ 0 ∅ enc1 He1
                (keys_under_empty _)) as Hu1.
  pose proof (build_sort_loop_under so 0 ∅ enc3 He3 (keys_under_empty _)) as Hu3.
  pose proof (build_columns_loop_under cl 0 ∅ (keys_under_empty _)) as Hu2.
  destruct (request_composition "ALBUMS" (VStr "")
              (customer_id (self w1)) (device_id (self w1)) (device_type (self w1))
              enc1 (_build_selected_columns cl) enc3 Hu1 Hu2 Hu3)
    as (S1 & _ & _ & _ & Hsize).
  rewrite <-Hdata in S1, Hsize.
  destruct (Hin (length dl) _ (VStr "artistName") (VStr "EQUALS") artist_name
              ltac:(by rewrite lookup_app_r, Nat.sub_diag by lia) eq_refl)
    as (A1 & A2 & A3).
  destruct (Hin (S (length dl)) _ (VStr "albumName") (VStr "EQUALS") album_name
              ltac:(by rewrite lookup_app_r, Nat.sub_succ_l, Nat.sub_diag by lia)
              eq_refl) as (B1 & B2 & B3).
  replace (0 + length dl + 1) with (length dl + 1) in A1, A2, A3 by lia.
  replace (0 + S (length dl) + 1) with (length dl + 2) in B1, B2, B3 by lia.
  assert (size enc1 = 3 * (length dl + 2)) as Hsz1.
  { rewrite (build_search_loop_size default_key_prefix _ 0 ∅ enc1 Hok1);
      [|intros j f _ _; apply lookup_empty|done].
    rewrite map_size_empty, length_app. cbn [album_criteria length]. lia. }
  assert (size enc3 = 2 * length so) as Hsz3.
  { rewrite (build_sort_loop_size so 0 ∅ enc3 Hsok); [done| |done].
    intros j f _ _. apply lookup_empty. }
  assert (size (_build_selected_columns cl) = length cl) as Hsz2.
  { unfold _build_selected_columns.
    rewrite (proj1 (build_columns_loop_lookup cl 0 ∅ ltac:(intros; apply lookup_empty))).
    by rewrite map_size_empty. }
  repeat (split; [eapply lookup_weaken; [|exact S1]; assumption|]).
  rewrite Hsize, Hsz1, Hsz2, Hsz3. lia.
Qed.

Lemma get_album_first_witness :
  (get_album 2 (VStr "Artist") (VStr "Album")
     (demo_world (answers [demo_page [VStr "first"; VStr "second"] (VStr "")]))).1
  = Returned (Some (Obj Album (VStr "first"))).
Proof.
  destruct (get_album_first 2 (VStr "Artist") (VStr "Album")
              (demo_world (answers [demo_page [VStr "first"; VStr "second"] (VStr "")]))
              [crit3 "status" "EQUALS" "AVAILABLE"] [VStr "albumName"]
              [crit2 "sortAlbumName" "ASC"]
              [] (demo_page [VStr "first"; VStr "second"] (VStr "")) [])
    as [Hrun _].
  - reflexivity.
  - reflexivity.
  - reflexivity.
  - repeat constructor; eexists; reflexivity.
  - repeat constructor; eexists; reflexivity.
  - repeat constructor; apply is_page_page_body.
  - constructor.
  - reflexivity.
  - reflexivity.
  - simpl. lia.
  - exact Hrun.
Defined.

(** ** The patterns *)

Lemma re_match_from_group (p : ascii -> bool) (r : list re_atom) (s cap : string) :
  re_match_from (Group p :: r) s cap
  = group_star p (fun s' cap' => re_match_from r s' cap') s [].
Proof. reflexivity. Qed.

Lemma quote_cases (q : ascii) :
  quote q = true -> q = ascii_of_nat 39 \/ q = ascii_of_nat 34.
Proof.
  unfold quote. intros [H|H]%orb_true_iff; apply Ascii.eqb_eq in H; auto.
Qed.

Lemma string_of_snoc_app (l : list ascii) (c : ascii) (v : string) :
  string_of_list_ascii (l ++ [c]) +:+ v
  = string_of_list_ascii l +:+ String c v.
Proof.
  induction l as [|x l IH]; [done|].
  change (String x (string_of_list_ascii (l ++ [c]) +:+ v)
          = String x (string_of_list_ascii l +:+ String c v)).
  by rewrite IH.
Qed.

Lemma str_app_nil_r (s : string) : s +:+ "" = s.
Proof.
  induction s as [|c s IH]; [done|].
  change (String c (s +:+ "") = String c s). by rewrite IH.
Qed.

(** The capture runs to the last quote that a semicolon follows. *)
Lemma group_star_tail (q : ascii) (v : string) :
  quote q = true -> all_chars dot v = true ->
  forall seen,
    group_star dot (fun s' cap' => re_match_from [Chr quote; lit ";"] s' cap')
      (v +:+ String q ";") seen
    = Some (string_of_list_ascii (rev seen) +:+ v).
Proof.
  intros Hq Hv. induction v as [|c v IH]; intros seen.
  - rewrite str_app_nil_r.
    destruct (quote_cases q Hq) as [-> | ->]; reflexivity.
  - cbn in Hv. apply andb_true_iff in Hv as [Hc Hv].
    change (String c v +:+ String q ";") with (String c (v +:+ String q ";")).
    cbn [group_star]. rewrite Hc. rewrite (IH Hv (c :: seen)).
    f_equal. cbn [rev]. apply string_of_snoc_app.
Qed.

Lemma assignment_tail_match (q : ascii) (v cap : string) :
  quote q = true -> all_chars dot v = true ->
  re_match_from assignment_tail (String q (v +:+ String q ";")) cap = Some v.
Proof.
  intros Hq Hv. unfold assignment_tail.
  change (re_match_from (Chr quote :: Group dot :: [Chr quote; lit ";"])
            (String q (v +:+ String q ";")) cap)
    with (if quote q
          then re_match_from (Group dot :: [Chr quote; lit ";"])
                 (v +:+ String q ";") cap
          else None).
  rewrite Hq, re_match_from_group, (group_star_tail q v Hq Hv []). reflexivity.
Qed.

Lemma re_match_from_lits (s : string) (r : list re_atom) (rest cap : string) :
  re_match_from (lits s ++ r) (s +:+ rest) cap = re_match_from r rest cap.
Proof.
  induction s as [|c s IH]; [done|].
  change (re_match_from (lit c :: (lits s ++ r)) (String c (s +:+ rest)) cap
          = re_match_from r rest cap).
  cbn [re_match_from lit]. by rewrite Ascii.eqb_refl.
Qed.

Lemma re_match_from_chr (p : ascii -> bool) (r : list re_atom) (c : ascii)
    (rest cap : string) :
  p c = true ->
  re_match_from (Chr p :: r) (String c rest) cap = re_match_from r rest cap.
Proof. intros H. cbn [re_match_from]. by rewrite H. Qed.

Lemma re_match_from_lit (c : ascii) (r : list re_atom) (rest cap : string) :
  re_match_from (lit c :: r) (String c rest) cap = re_match_from r rest cap.
Proof. apply re_match_from_chr, Ascii.eqb_refl. Qed.

Lemma re_match_from_star_one (p : ascii -> bool) (r : list re_atom) (c c' : ascii)
    (rest cap m : string) :
  p c = true -> p c' = false ->
  re_match_from r (String c' rest) cap = Some m ->
  re_match_from (Star p :: r) (String c (String c' rest)) cap = Some m.
Proof. intros Hc Hc' Hr. cbn [re_match_from]. by rewrite Hc, Hc', Hr. Qed.

Lemma pattern_reaches_tail (x : variable) (q : ascii) (s m : string) :
  is_space q = false ->
  re_match_from assignment_tail (String q s) "" = Some m ->
  re_match (pattern_of x) ("amznMusic." +:+ js_name x +:+ " = " +:+ String q s)
  = Some m.
Proof.
  intros Hsp Htail. unfold re_match.
  change ("amznMusic." +:+ js_name x +:+ " = " +:+ String q s)
    with ("amznMusic" +:+ String "." (js_name x +:+ String " " (String "="
            (String " " (String q s))))).
  destruct x; cbn [pattern_of js_name];
    unfold CUSTOMER_ID_RE, ADP_TOKEN_RE, DEVICE_ID_RE, DEVICE_TYPE_RE;
    rewrite re_match_from_lits; cbn [app];
    rewrite re_match_from_chr by reflexivity;
    rewrite re_match_from_lits.
  - apply re_match_from_star_one; [reflexivity..|].
    rewrite re_match_from_lit. by apply re_match_from_star_one.
  - apply re_match_from_star_one; [reflexivity..|].
    rewrite re_match_from_lit. by rewrite re_match_from_chr by reflexivity.
  - apply re_match_from_star_one; [reflexivity..|].
    rewrite re_match_from_lit. by apply re_match_from_star_one.
  - apply re_match_from_star_one; [reflexivity..|].
    rewrite re_match_from_lit. by apply re_match_from_star_one.
Qed.

Lemma quote_not_space (q : ascii) : quote q = true -> is_space q = false.
Proof. intros [-> | ->]%quote_cases; reflexivity. Qed.

Lemma pattern_matches_assignment (x : variable) (q : ascii) (v : string) :
  quote q = true -> all_chars dot v = true ->
  re_match (pattern_of x) (assignment x q v) = Some v.
Proof.
  intros Hq Hv. unfold assignment.
  apply pattern_reaches_tail; [by apply quote_not_space|].
  by apply assignment_tail_match.
Qed.

(** No pattern listed before its own matches an assignment line. *)
Lemma match_vars_assignment (x : variable) (q : ascii) (v : string) (found : nat)
    (av : gmap string pyval) :
  quote q = true -> all_chars dot v = true ->
  match_vars vars_map (assignment x q v) found av
  = (S found, <[config_key x := VStr v]> av).
Proof.
  intros Hq Hv.
  pose proof (pattern_matches_assignment x q v Hq Hv) as Hm.
  destruct x; cbn [pattern_of] in Hm; unfold vars_map; cbn [match_vars].
  - by rewrite Hm.
  - replace (re_match CUSTOMER_ID_RE (assignment Tid q v)) with (@None string)
      by reflexivity.
    by rewrite Hm.
  - replace (re_match CUSTOMER_ID_RE (assignment Did q v)) with (@None string)
      by reflexivity.
    replace (re_match ADP_TOKEN_RE (assignment Did q v)) with (@None string)
      by reflexivity.
    by rewrite Hm.
  - replace (re_match CUSTOMER_ID_RE (assignment Dtid q v)) with (@None string)
      by reflexivity.
    replace (re_match ADP_TOKEN_RE (assignment Dtid q v)) with (@None string)
      by reflexivity.
    replace (re_match DEVICE_ID_RE (assignment Dtid q v)) with (@None string)
      by reflexivity.
    by rewrite Hm.
Qed.

(** X16.  Each of the four patterns matches the assignment of its own
    variable, written with either quote character, and captures exactly
    what stands between the first quote and the closing quote and
    semicolon, whatever quotes and semicolons the value holds itself; on
    such a line the scan counts one more line and sets that variable
    alone. *)
Theorem patterns_capture_value (x : variable) (q : ascii) (v : string)
    (found : nat) (av : gmap string pyval) :
  quote q = true -> all_chars dot v = true ->
  re_match (pattern_of x) (assignment x q v) = Some v /\
  match_vars vars_map (assignment x q v) found av
  = (S found, <[config_key x := VStr v]> av).
Proof.
  intros Hq Hv. split.
  - by apply pattern_matches_assignment.
  - by apply match_vars_assignment.
Qed.

Lemma patterns_capture_value_witness :
  re_match (pattern_of Tid) "amznMusic.tid = 'a';b';" = Some "a';b".
Proof.
  apply (proj1 (patterns_capture_value Tid "'" "a';b" 0 ∅ eq_refl eq_refl)).
Defined.

(** ** A login that succeeds *)













(** ** The scan, in general *)

Lemma match_vars_found_le (line : string) (found : nat) (av : gmap string pyval) :
  (match_vars vars_map line found av).1 = found \/
  (match_vars vars_map line found av).1 = S found.
Proof.
  rewrite match_vars_found. destruct (matches_pattern vars_map line); auto.
Qed.

Lemma scan_lines_stop (pre rest : list string) : forall found av,
  dom av = dom initial_auth_vars ->
  found < 4 ->
  (scan_lines pre found av).1 = 4 ->
  scan_lines (pre ++ rest) found av = scan_lines pre found av.
Proof.
  induction pre as [|line pre IH]; intros found av Hav Hfound Hfour.
  - cbn in Hfour. lia.
  - cbn [app scan_lines] in *.
    destruct (String.prefix "amznMusic." (strip line)); [|by apply IH].
    pose proof (match_vars_found_le (strip line) found av) as Hle.
    pose proof (match_vars_dom (strip line) vars_map _ vars_map_keys found av Hav)
      as Hd.
    destruct (match_vars vars_map (strip line) found av) as [found' av'].
    cbn [fst snd] in *. rewrite (size_auth_vars av' Hd) in *.
    destruct (found' =? 4)%nat eqn:E; [done|].
    apply Nat.eqb_neq in E. apply IH; [done|lia|done].
Qed.

(** X18.  The scan stops at the fourth credential line: what follows it
    on the page is never examined and changes nothing. *)
Theorem scan_ignores_rest (pre rest : list string) :
  4 <= length (filter (fun line => credential_line line = true) pre) ->
  scan_lines (pre ++ rest) 0 initial_auth_vars
  = scan_lines pre 0 initial_auth_vars.
Proof.
  intros Hfour. apply scan_lines_stop; [done|lia|].
  rewrite (proj1 (scan_lines_found pre 0 initial_auth_vars ltac:(lia) eq_refl)).
  lia.
Qed.

Lemma scan_ignores_rest_witness :
  scan_lines (splitlines page_repeated_field ++ ["amznMusic.dtid = 'Y1';"]) 0
    initial_auth_vars
  = scan_lines (splitlines page_repeated_field) 0 initial_auth_vars.
Proof.
  apply (scan_ignores_rest (splitlines page_repeated_field)
           ["amznMusic.dtid = 'Y1';"]).
  vm_compute. lia.
Defined.



(** ** Request identifiers tell the draws apart *)

Lemma hex_digit_inj (a b : Z) :
  (0 <= a < 16)%Z -> (0 <= b < 16)%Z -> hex_digit a = hex_digit b -> a = b.
Proof.
  intros Ha Hb.
  assert (a = 0 \/ a = 1 \/ a = 2 \/ a = 3 \/ a = 4 \/ a = 5 \/ a = 6 \/ a = 7 \/
          a = 8 \/ a = 9 \/ a = 10 \/ a = 11 \/ a = 12 \/ a = 13 \/ a = 14 \/
          a = 15)%Z as Hcases by lia.
  assert (b = 0 \/ b = 1 \/ b = 2 \/ b = 3 \/ b = 4 \/ b = 5 \/ b = 6 \/ b = 7 \/
          b = 8 \/ b = 9 \/ b = 10 \/ b = 11 \/ b = 12 \/ b = 13 \/ b = 14 \/
          b = 15)%Z as Hcases' by lia.
  repeat (destruct Hcases as [->|Hcases]);
    repeat (destruct Hcases' as [->|Hcases']); subst; (done || discriminate).
Qed.

Lemma low4_inj (a b : Z) :
  (0 <= a < 65536)%Z -> (0 <= b < 65536)%Z -> low4 a = low4 b -> a = b.
Proof.
  intros Ha Hb Heq. unfold low4 in Heq. injection Heq as H3 H2 H1 H0.
  apply hex_digit_inj in H3, H2, H1, H0;
    try (apply Z.mod_pos_bound; lia).
  Z.div_mod_to_equations. lia.
Qed.

Lemma get_rand_inj (n m : Z) : drawn n -> drawn m -> get_rand n = get_rand m -> n = m.
Proof.
  intros Hn Hm. rewrite !get_rand_drawn by done. intros Heq.
  apply low4_inj in Heq; [|apply Z.mod_pos_bound; lia..].
  unfold drawn in *. Z.div_mod_to_equations. lia.
Qed.

Lemma str_app_inj_length (a b x y : string) :
  String.length a = String.length b -> a +:+ x = b +:+ y -> a = b /\ x = y.
Proof.
  revert b. induction a as [|c a IH]; intros [|c' b] Hlen Heq; try done.
  change (String c (a +:+ x) = String c' (b +:+ y)) in Heq.
  injection Heq as -> Heq. cbn in Hlen.
  destruct (IH b ltac:(lia) Heq) as [-> ->]. done.
Qed.

Lemma get_rand_length (n : Z) : drawn n -> String.length (get_rand n) = 4.
Proof. intros Hn. by rewrite get_rand_drawn. Qed.

Lemma make_request_id_of_inj (n1 n2 n3 n4 n5 n6 n7 m1 m2 m3 m4 m5 m6 m7 : Z) :
  Forall drawn [n1; n2; n3; n4; n5; n6; n7] ->
  Forall drawn [m1; m2; m3; m4; m5; m6; m7] ->
  make_request_id_of n1 n2 n3 n4 n5 n6 n7 = make_request_id_of m1 m2 m3 m4 m5 m6 m7 ->
  [n1; n2; n3; n4; n5; n6; n7] = [m1; m2; m3; m4; m5; m6; m7].
Proof.
  intros Hn Hm Heq.
  repeat (apply Forall_cons in Hn as [? Hn]).
  repeat (apply Forall_cons in Hm as [? Hm]).
  unfold make_request_id_of, format_request_id in Heq.
  apply str_app_inj_length in Heq as [E1 Heq]; [|by rewrite !get_rand_length].
  apply str_app_inj_length in Heq as [E2 Heq]; [|by rewrite !get_rand_length].
  apply (inj (String.append "-")) in Heq.
  apply str_app_inj_length in Heq as [E3 Heq]; [|by rewrite !get_rand_length].
  apply (inj (String.append "-dmcp-")) in Heq.
  apply str_app_inj_length in Heq as [E4 Heq]; [|by rewrite !get_rand_length].
  apply (inj (String.append "-")) in Heq.
  apply str_app_inj_length in Heq as [E5 Heq]; [|by rewrite !get_rand_length].
  apply str_app_inj_length in Heq as [E6 E7]; [|by rewrite !get_rand_length].
  apply get_rand_inj in E1, E2, E3, E4, E5, E6, E7; try done. by subst.
Qed.

(** X20.  The identifier determines the seven integers it was made
    from: draws that differ in one integer give different identifiers
    (for integers below 131072; 131072, which rounding can produce, is
    rendered like 65536). *)
Theorem make_request_id_distinct (n1 n2 n3 n4 n5 n6 n7 m1 m2 m3 m4 m5 m6 m7 : Z) :
  Forall drawn [n1; n2; n3; n4; n5; n6; n7] ->
  Forall drawn [m1; m2; m3; m4; m5; m6; m7] ->
  [n1; n2; n3; n4; n5; n6; n7] <> [m1; m2; m3; m4; m5; m6; m7] ->
  make_request_id_of n1 n2 n3 n4 n5 n6 n7 <> make_request_id_of m1 m2 m3 m4 m5 m6 m7.
Proof.
  intros Hn Hm Hne Heq. apply Hne. by apply make_request_id_of_inj.
Qed.

Lemma make_request_id_distinct_witness :
  make_request_id_of 65536 65537 65538 65539 65540 65541 65542
  <> make_request_id_of 65536 65537 65538 65539 65540 65541 65543.
Proof.
  apply make_request_id_distinct;
    [repeat constructor; unfold drawn; lia..|discriminate].
Defined.
